(** * GitHub Skills Analyzer: a shallow embedding of [github_skills_analyzer.py]

    The development follows the layout of the Python module: Python's
    built-in values first (strings, floats, [Counter]), then the three
    classes [GitHubAnalyzer], [AISkillsAnalyzer] and [ReportGenerator],
    then [main].

    Conventions
    - a Python [str] is a [string]: one [ascii] per character, so the texts
      covered are those whose code points are below 256;
    - a Python [int] is a [Z], a Python [float] is a binary64 [float] of the
      primitive floats, with the operations of IEEE 754 that CPython uses;
    - a function that can raise returns a [result];
    - code that talks to the network or writes the log threads a [trace]. *)

From Stdlib Require Import ZArith List String Ascii Bool Lia DecimalString.
From Stdlib Require Import Floats Uint63.
From Stdlib Require Import Sorting.Sorted Sorting.Permutation.
Import ListNotations.

Set Warnings "-inexact-float,-register-all".

Open Scope string_scope.
Open Scope list_scope.
Open Scope Z_scope.

(** ** Exceptions and results *)

(** The exception classes that occur in the module.  [ConnectionError],
    [HTTPError] and [JSONDecodeError] are the ones of [requests.exceptions];
    all three derive from [RequestException]. *)
Inductive exn : Type :=
| ConnectionError
| HTTPError
| JSONDecodeError
| ValueError
| OverflowError
| ZeroDivisionError
| OtherError (what : string).

Definition is_RequestException (e : exn) : bool :=
  match e with
  | ConnectionError | HTTPError | JSONDecodeError => true
  | _ => false
  end.

Inductive result (A : Type) : Type :=
| Ok (a : A)
| Raise (e : exn).
Arguments Ok {A} a.
Arguments Raise {A} e.

(** ** Python strings *)

Module Str.

Definition len (s : string) : Z := Z.of_nat (String.length s).

(** [str.lower] on one character: A-Z and the Latin-1 capitals
    (U+00C0 to U+00DE without the multiplication sign) move up by 32. *)
Definition lower_char (c : ascii) : ascii :=
  let n := nat_of_ascii c in
  if ((65 <=? n) && (n <=? 90))%nat
     || ((192 <=? n) && (n <=? 222) && negb (n =? 215))%nat
  then ascii_of_nat (n + 32) else c.

Fixpoint lower (s : string) : string :=
  match s with
  | EmptyString => EmptyString
  | String c r => String (lower_char c) (lower r)
  end.

(** [str.upper]: a-z and the Latin-1 small letters move down by 32 and
    the sharp s becomes "SS".  The two characters of the range whose
    capital lies outside it (U+00B5 and U+00FF) are kept; their capitals
    are no ASCII letters, so a test for an ASCII word is not affected. *)
Fixpoint upper (s : string) : string :=
  match s with
  | EmptyString => EmptyString
  | String c r =>
      let n := nat_of_ascii c in
      if (n =? 223)%nat then String "S" (String "S" (upper r))
      else if ((97 <=? n) && (n <=? 122))%nat
              || ((224 <=? n) && (n <=? 254) && negb (n =? 247))%nat
           then String (ascii_of_nat (n - 32)) (upper r)
           else String c (upper r)
  end.

(** [needle in hay] *)
Fixpoint contains (needle hay : string) : bool :=
  String.prefix needle hay
  || match hay with
     | EmptyString => false
     | String _ r => contains needle r
     end.

(** [s.count(c)] for a one-character [c] *)
Fixpoint count_char (c : ascii) (s : string) : Z :=
  match s with
  | EmptyString => 0
  | String d r => (if Ascii.eqb c d then 1 else 0) + count_char c r
  end.

Definition has_char (c : ascii) (s : string) : bool := 0 <? count_char c s.

(** [s.split(c)]: never empty; [split_last] is [s.split(c)[-1]] *)
Fixpoint split (c : ascii) (s : string) : list string :=
  match s with
  | EmptyString => [EmptyString]
  | String d r =>
      if Ascii.eqb c d then EmptyString :: split c r
      else match split c r with
           | [] => [String d EmptyString]
           | w :: ws => String d w :: ws
           end
  end.

Definition split_last (c : ascii) (s : string) : string :=
  List.last (split c s) EmptyString.

(** the characters [str.strip] removes, within the range *)
Definition is_space (c : ascii) : bool :=
  let n := nat_of_ascii c in
  (((9 <=? n) && (n <=? 13)) || ((28 <=? n) && (n <=? 32))
   || (n =? 133) || (n =? 160))%nat.

Fixpoint lstrip (s : string) : string :=
  match s with
  | EmptyString => EmptyString
  | String c r => if is_space c then lstrip r else s
  end.

Fixpoint rstrip (s : string) : string :=
  match s with
  | EmptyString => EmptyString
  | String c r =>
      match rstrip r with
      | EmptyString => if is_space c then EmptyString else String c EmptyString
      | r' => String c r'
      end
  end.

Definition strip (s : string) : string := rstrip (lstrip s).

(** [s[n:]] and [s[:n]] *)
Fixpoint drop (n : nat) (s : string) : string :=
  match n, s with
  | O, _ => s
  | S _, EmptyString => EmptyString
  | S k, String _ r => drop k r
  end.

Definition take (n : nat) (s : string) : string := String.substring 0 n s.

Definition truthy (s : string) : bool :=
  match s with EmptyString => false | _ => true end.

End Str.

(** ** Python floats *)

Module Float.

#[local] Open Scope float_scope.

(** [float(n)] for an [int] below [2^63] in absolute value *)
Definition of_int (n : Z) : float :=
  if (n <? 0)%Z then - of_uint63 (Uint63.of_Z (- n)) else of_uint63 (Uint63.of_Z n).

(** [min(a, b)] keeps the first argument unless the second is smaller *)
Definition py_min (a b : float) : float := if b <? a then b else a.

(** nearest integer to [n / d] for [d > 0], ties to the even one *)
Definition round_half_even (n d : Z) : Z :=
  let q := (n / d)%Z in
  match (2 * (n mod d) ?= d)%Z with
  | Lt => q
  | Gt => (q + 1)%Z
  | Eq => if Z.even q then q else (q + 1)%Z
  end.

(** the float nearest to [n / 10], as [strtod] yields it *)
Definition tenths (s : bool) (n : Z) : float :=
  let '(q, e, l) := SFdiv_core_binary prec emax n 0 10 0 in
  SF2Prim (binary_round_aux prec emax s q e l).

(** [round(x, 1)]: CPython prints the exact value of [x] with one digit
    after the point, rounding to nearest with ties to even, and reads the
    digits back. *)
Definition py_round1 (x : float) : float :=
  match Prim2SF x with
  | S754_finite s m e =>
      if (0 <=? e)%Z then x
      else tenths s (round_half_even (10 * Zpos m) (2 ^ (- e)))
  | _ => x
  end.

(** a float read through its specification: no NaN and sign bit clear *)
Definition nonneg_sf (x : spec_float) : bool :=
  match x with
  | S754_zero false | S754_infinity false | S754_finite false _ _ => true
  | _ => false
  end.

(** no NaN *)
Definition number_sf (x : spec_float) : bool :=
  match x with
  | S754_nan => false
  | _ => true
  end.

(** zero or finite *)
Definition finite_sf (x : spec_float) : bool :=
  match x with
  | S754_zero _ | S754_finite _ _ _ => true
  | _ => false
  end.

(** zero, or finite with an exponent that is not positive: what an integer
    below 2^53 in absolute value converts to *)
Definition count_sf (x : spec_float) : bool :=
  match x with
  | S754_zero _ => true
  | S754_finite _ _ e => (e <=? 0)%Z
  | _ => false
  end.

End Float.

(** ** JSON values, as [response.json()] decodes them

    [JNull] is Python's [None]. *)

Inductive json : Type :=
| JNull
| JBool (b : bool)
| JInt (n : Z)
| JFloat (f : float)
| JStr (s : string)
| JArr (items : list json)
| JObj (fields : list (string * json)).

(** Python's truth value of a decoded JSON value *)
Definition json_truthy (v : json) : bool :=
  match v with
  | JNull => false
  | JBool b => b
  | JInt n => negb (n =? 0)
  | JFloat f => negb (PrimFloat.eqb f 0%float)
  | JStr s => Str.truthy s
  | JArr items => match items with [] => false | _ => true end
  | JObj fields => match fields with [] => false | _ => true end
  end.

(** ** Stable sort, descending

    [list.sort(key=..., reverse=True)] and [sorted(..., reverse=True)] keep
    elements with equal keys in their original order.  The insertion sort
    below puts an element in front of the first one whose key is not
    greater, which is that order. *)

Section SortDesc.
Context {A K : Type} (key : A -> K) (ltb : K -> K -> bool).

Fixpoint insert_desc (x : A) (l : list A) : list A :=
  match l with
  | [] => [x]
  | y :: r => if ltb (key x) (key y) then y :: insert_desc x r else x :: y :: r
  end.

Definition sort_desc (l : list A) : list A := fold_right insert_desc [] l.

(** [a] may stand in front of [b] in a descending list *)
Definition desc (a b : A) : Prop := ltb (key a) (key b) = false.

(** equal rank: neither key is below the other *)
Definition tie (x a : A) : bool :=
  negb (ltb (key x) (key a)) && negb (ltb (key a) (key x)).
End SortDesc.

(** ** [collections.Counter] over strings

    The entries are kept in insertion order, which is the order
    [most_common] falls back to between equal counts. *)

Module Counter.

Definition t : Type := list (string * Z).

(** [c[k] += 1] *)
Fixpoint incr (k : string) (c : t) : t :=
  match c with
  | [] => [(k, 1)]
  | (k', n) :: r =>
      if String.eqb k k' then (k', n + 1) :: r else (k', n) :: incr k r
  end.

Definition get (k : string) (c : t) : Z :=
  match find (fun kv => String.eqb k (fst kv)) c with
  | Some kv => snd kv
  | None => 0
  end.

(** [sum(c.values())] *)
Definition total (c : t) : Z := fold_right (fun kv acc => snd kv + acc) 0 c.

(** [c.most_common(n)] *)
Definition most_common (n : nat) (c : t) : list (string * Z) :=
  firstn n (sort_desc snd Z.ltb c).

(** every count is at least one, as after any sequence of [+= 1] *)
Definition positive (c : t) : Prop := Forall (fun kv => 1 <= snd kv) c.

End Counter.

(** ** Dictionaries with string keys, in insertion order *)

Module Dict.

Section Dict.
Context {V : Type}.

Definition t : Type := list (string * V).

(** [d[k] = v] *)
Fixpoint set (k : string) (v : V) (d : t) : t :=
  match d with
  | [] => [(k, v)]
  | (k', v') :: r =>
      if String.eqb k k' then (k', v) :: r else (k', v') :: set k v r
  end.

Definition get (k : string) (d : t) : option V :=
  option_map snd (find (fun kv => String.eqb k (fst kv)) d).

Definition keys (d : t) : list string := map fst d.
End Dict.

Arguments t V : clear implicits.

End Dict.

(** ** Effects: requests sent, log records, lines printed *)

Inductive level : Type := DEBUG | INFO | WARNING | ERROR.

Inductive event : Type :=
| Get (url : string)
| Log (l : level) (msg : string)
| Print (line : string).

Definition trace : Type := list event.

(** A computation extends the trace and returns or raises. *)
Definition io (A : Type) : Type := trace -> result A * trace.

Definition ret {A} (a : A) : io A := fun t => (Ok a, t).
Definition throw {A} (e : exn) : io A := fun t => (Raise e, t).
Definition emit (ev : event) : io unit := fun t => (Ok tt, t ++ [ev]).

Definition bind {A B} (m : io A) (k : A -> io B) : io B :=
  fun t =>
    match m t with
    | (Ok a, t') => k a t'
    | (Raise e, t') => (Raise e, t')
    end.

(** [try: m except <class> as e: h e], the class given by [catches] *)
Definition try_except {A} (m : io A) (catches : exn -> bool) (h : exn -> io A) : io A :=
  fun t =>
    match m t with
    | (Raise e, t') => if catches e then h e t' else (Raise e, t')
    | r => r
    end.

Definition lift {A} (r : result A) : io A := fun t => (r, t).

Declare Scope io_scope.
Delimit Scope io_scope with io.
Notation "x <- m ;; k" := (bind m (fun x => k))
  (at level 61, m at next level, right associativity) : io_scope.
Notation "m ;;; k" := (bind m (fun _ => k))
  (at level 61, right associativity) : io_scope.

(** the requests a trace holds *)
Definition requests_of (t : trace) : list string :=
  flat_map (fun ev => match ev with Get u => [u] | _ => [] end) t.

(** ** The outside world

    What the host answers to a GET, and whether the platform can turn a
    number of seconds into a local date. *)

(** An answer.  [response.json()] turns the text of the body into a value;
    [body] is that value, [None] when the text is no JSON.  Decoding can
    also stop with an exception that is no [JSONDecodeError] and that
    [requests] passes on as it is, [ValueError] for a number of more than
    4300 digits or [RecursionError] for brackets nested too deep:
    [json_error] is that exception, when there is one. *)
Record Response : Type := {
  status_code : Z;
  headers : list (string * string);
  body : option json;
  json_error : option exn
}.

Inductive get_outcome : Type :=
| NetworkFailure                 (* [session.get] raises *)
| Answer (r : Response).

(** Why [datetime.fromtimestamp] gives no date: the year is out of range
    ([ValueError]), the number is out of range for the platform's time
    ([OverflowError]), or the platform's conversion fails ([OSError]). *)
Inductive time_error : Type :=
| YearOutOfRange
| TimeOverflow
| LocaltimeFails.

Definition exn_of_time_error (e : time_error) : exn :=
  match e with
  | YearOutOfRange => ValueError
  | TimeOverflow => OverflowError
  | LocaltimeFails => OtherError "OSError"
  end.

Record world : Type := {
  http_get : string -> get_outcome;
  fromtimestamp_error : Z -> option time_error
}.

(** [int(s)] for a string: blanks around, a sign, digits, single
    underscores between digits.  The blanks it skips are fewer than those
    of [str.strip]: the four separators U+001C to U+001F are not among
    them.  A text of more than 4300 digits is refused, as CPython does
    since 3.11 (and the patched releases before it). *)
Definition is_int_space (c : ascii) : bool :=
  let n := nat_of_ascii c in
  (((9 <=? n) && (n <=? 13)) || (n =? 32) || (n =? 133) || (n =? 160))%nat.

Fixpoint int_lstrip (s : string) : string :=
  match s with
  | EmptyString => EmptyString
  | String c r => if is_int_space c then int_lstrip r else s
  end.

Fixpoint int_rstrip (s : string) : string :=
  match s with
  | EmptyString => EmptyString
  | String c r =>
      match int_rstrip r with
      | EmptyString => if is_int_space c then EmptyString else String c EmptyString
      | r' => String c r'
      end
  end.

Definition digit_val (c : ascii) : option Z :=
  let n := nat_of_ascii c in
  if ((48 <=? n) && (n <=? 57))%nat then Some (Z.of_nat (n - 48)) else None.

Fixpoint digits_val (acc : Z) (after_digit : bool) (s : string) : option Z :=
  match s with
  | EmptyString => if after_digit then Some acc else None
  | String c r =>
      match digit_val c with
      | Some d => digits_val (10 * acc + d) true r
      | None =>
          if Ascii.eqb c "_" && after_digit then digits_val acc false r else None
      end
  end.

(** how many digits a text holds *)
Fixpoint digit_count (s : string) : nat :=
  match s with
  | EmptyString => 0
  | String c r =>
      match digit_val c with
      | Some _ => S (digit_count r)
      | None => digit_count r
      end
  end.

Definition int_max_str_digits : nat := 4300.

Definition int_of_str (s : string) : result Z :=
  let text := int_rstrip (int_lstrip s) in
  let parsed :=
    match text with
    | String "-" r => option_map Z.opp (digits_val 0 false r)
    | String "+" r => digits_val 0 false r
    | t => digits_val 0 false t
    end in
  match parsed with
  | Some n =>
      if (int_max_str_digits <? digit_count text)%nat then Raise ValueError else Ok n
  | None => Raise ValueError
  end.

(** [headers.get(name, 0)] followed by [int(...)]; header names compare
    without regard to case *)
Definition header_int (name : string) (hs : list (string * string)) : result Z :=
  match find (fun kv => String.eqb (Str.lower name) (Str.lower (fst kv))) hs with
  | Some kv => int_of_str (snd kv)
  | None => Ok 0
  end.

(** ** Python's operations on decoded values

    A decoded object is a [dict]: [JObj] lists its items in insertion
    order, the keys distinct. *)

Definition TypeError : exn := OtherError "TypeError".
Definition AttributeError : exn := OtherError "AttributeError".
Definition KeyError : exn := OtherError "KeyError".

Definition bind_result {A B} (r : result A) (k : A -> result B) : result B :=
  match r with
  | Ok a => k a
  | Raise e => Raise e
  end.

Declare Scope result_scope.
Delimit Scope result_scope with res.
Notation "x <- m ;; k" := (bind_result m (fun x => k))
  (at level 61, m at next level, right associativity) : result_scope.

(** [f"{n}"] for an [int] *)
Definition string_of_Z (n : Z) : string := NilZero.string_of_int (Z.to_int n).

Module Py.

Definition lookup (k : string) (fields : list (string * json)) : option json :=
  option_map snd (find (fun kv => String.eqb k (fst kv)) fields).

(** [len(v)] *)
Definition len (v : json) : result Z :=
  match v with
  | JStr s => Ok (Str.len s)
  | JArr items => Ok (Z.of_nat (List.length items))
  | JObj fields => Ok (Z.of_nat (List.length fields))
  | _ => Raise TypeError
  end.

(** what [for x in v] and [list.extend(v)] run through: the items of a
    list, the keys of a dict, the characters of a string *)
Definition iter (v : json) : result (list json) :=
  match v with
  | JArr items => Ok items
  | JObj fields => Ok (map (fun kv => JStr (fst kv)) fields)
  | JStr s => Ok (map (fun c => JStr (String c EmptyString)) (list_ascii_of_string s))
  | _ => Raise TypeError
  end.

(** [v.get(k, default)]; only a dict has the method *)
Definition get (k : string) (default : json) (v : json) : result json :=
  match v with
  | JObj fields =>
      Ok (match lookup k fields with Some x => x | None => default end)
  | _ => Raise AttributeError
  end.

(** [v[k]] for a string [k] *)
Definition item (k : string) (v : json) : result json :=
  match v with
  | JObj fields =>
      match lookup k fields with
      | Some x => Ok x
      | None => Raise KeyError
      end
  | _ => Raise TypeError
  end.

(** [v == s] for a string [s] *)
Definition eq_str (v : json) (s : string) : bool :=
  match v with
  | JStr x => String.eqb x s
  | _ => false
  end.

(** [k in v] for a string [k]: a key of a dict, an item of a list, a part
    of a string *)
Definition contains (k : string) (v : json) : result bool :=
  match v with
  | JObj fields =>
      Ok (match lookup k fields with Some _ => true | None => false end)
  | JArr items => Ok (existsb (fun x => eq_str x k) items)
  | JStr s => Ok (Str.contains k s)
  | _ => Raise TypeError
  end.

End Py.

(** ** The data classes *)

Record CommitData : Type := {
  sha : string;
  message : string;
  date : Z;                      (* the commit's instant, in seconds *)
  additions : Z;
  deletions : Z;
  files_changed : list string;
  repo_name : string
}.

Record RepositoryData : Type := {
  name : string;
  language : string;
  stars : Z;
  description : string;
  created_at : Z;
  updated_at : Z;
  size : Z;
  has_readme : bool;
  readme_quality_score : float
}.

Record CollaborationData : Type := {
  pull_requests_created : Z;
  pull_requests_reviewed : Z;
  issues_created : Z;
  issues_commented : Z;
  repos_contributed_to : Z;
  collaboration_score : float
}.

Record SkillAssessment : Type := {
  technical_skills : Dict.t float;
  strengths : list string;
  improvement_areas : list string;
  experience_level : string;
  specializations : list (string * Z);
  learning_style : string;
  confidence_score : float
}.

(** A repository as the listing returns it: the keys the module reads, each
    one absent, [null] or holding a value of its type in the host's schema
    (a text for [updated_at], a truth value for [private] and [fork]).  A
    listing with an entry that is no object, or with an [updated_at] that is
    neither a text nor [null], is not covered: there the source raises
    [AttributeError] on the entry, or sorts by another order than that of
    texts and raises [TypeError] when it compares values of different
    kinds. *)
Inductive field (A : Type) : Type :=
| Absent
| Null
| Val (a : A).
Arguments Absent {A}.
Arguments Null {A}.
Arguments Val {A} a.

Record Repo : Type := {
  r_name : string;
  r_updated_at : field string;
  r_private : field bool;
  r_fork : field bool
}.

(** ** class GitHubAnalyzer *)

Module GitHubAnalyzer.

Definition base_url : string := "https://api.github.com".

Section Client.
Variable w : world.
Variable username : string.

(** [self.session.get(url)] *)
Definition session_get (url : string) : io Response :=
  (emit (Get url) ;;;
   match http_get w url with
   | NetworkFailure => throw ConnectionError
   | Answer r => ret r
   end)%io.

(** [response.raise_for_status()]: statuses 400 to 599 raise *)
Definition raise_for_status (r : Response) : io unit :=
  if (400 <=? status_code r) && (status_code r <? 600)
  then throw HTTPError else ret tt.

(** [response.json()] *)
Definition response_json (r : Response) : io json :=
  match json_error r with
  | Some e => throw e
  | None =>
      match body r with
      | Some j => ret j
      | None => throw JSONDecodeError
      end
  end.

(** [datetime.fromtimestamp(t)] *)
Definition fromtimestamp (t : Z) : io unit :=
  match fromtimestamp_error w t with
  | None => ret tt
  | Some e => throw (exn_of_time_error e)
  end.

Definition _make_request (endpoint : string) : io json :=
  let url := (base_url ++ endpoint)%string in
  try_except
    (response <- session_get url ;;
     raise_for_status response ;;;
     remaining <- lift (header_int "X-RateLimit-Remaining" (headers response)) ;;
     reset_time <- lift (header_int "X-RateLimit-Reset" (headers response)) ;;
     (if remaining <? 10 then
        fromtimestamp reset_time ;;;
        emit (Log WARNING "Rate limit low")
      else if remaining <? 100 then
        emit (Log INFO "Rate limit status")
      else ret tt) ;;;
     response_json response)%io
    is_RequestException
    (fun _ => emit (Log ERROR "API request failed") ;;; ret JNull)%io.

Definition get_user_profile : io json :=
  (emit (Log INFO "Fetching profile") ;;;
   _make_request ("/users/" ++ username)%string)%io.

End Client.

(** *** The listings *)

Section Listings.
Variable w : world.
Variable username : string.

Definition repos_endpoint (page : Z) : string :=
  ("/users/" ++ username ++ "/repos?per_page=100&page=" ++ string_of_Z page)%string.

(** The loop of [get_repositories], for [fuel] turns; [None] when it is
    still running after them. *)
Fixpoint get_repositories_loop (fuel : nat) (repos : list json) (page : Z)
  : io (option (list json)) :=
  match fuel with
  | O => ret None
  | S fuel' =>
      (data <- _make_request w (repos_endpoint page) ;;
       if negb (json_truthy data) then ret (Some repos)
       else
         n <- lift (Py.len data) ;;
         if n =? 0 then ret (Some repos)
         else
           items <- lift (Py.iter data) ;;
           let repos := repos ++ items in
           let page := page + 1 in
           if 300 <=? Z.of_nat (List.length repos) then ret (Some repos)
           else get_repositories_loop fuel' repos page)%io
  end.

(** [get_repositories]; 300 turns are all the loop can take *)
Definition get_repositories : io (option (list json)) :=
  (emit (Log INFO "Fetching repositories") ;;;
   found <- get_repositories_loop 300 [] 1 ;;
   match found with
   | Some repos => emit (Log INFO "Found repositories") ;;; ret (Some repos)
   | None => ret None
   end)%io.

(** The test in [get_commits_for_repo] that attributes a commit to the
    user: the login of its author is the user's, or else the commit data
    name an author with an e-mail address. *)
Definition is_user_commit (commit : json) : result bool :=
  (author <- Py.get "author" JNull commit ;;
   by_login <-
     (if json_truthy author then
        author <- Py.item "author" commit ;;
        author_login <- Py.get "login" JNull author ;;
        Ok (Py.eq_str author_login username)
      else Ok false) ;;
   if by_login : bool then Ok true
   else
     data <- Py.get "commit" (JObj []) commit ;;
     data_author <- Py.get "author" JNull data ;;
     if json_truthy data_author then
       data <- Py.item "commit" commit ;;
       data_author <- Py.item "author" data ;;
       author_email <- Py.get "email" (JStr "") data_author ;;
       Ok (json_truthy author_email)
     else Ok false)%res.

(** the commits of one page that pass the test, in the page's order *)
Fixpoint user_commits (data : list json) : result (list json) :=
  match data with
  | [] => Ok []
  | commit :: rest =>
      (keep <- is_user_commit commit ;;
       kept <- user_commits rest ;;
       Ok (if keep : bool then commit :: kept else kept))%res
  end.

(** [since] is [since_date.isoformat()] *)
Definition commits_endpoint (repo_name since : string) (page : Z) : string :=
  ("/repos/" ++ username ++ "/" ++ repo_name ++ "/commits"
   ++ "?since=" ++ since ++ "&per_page=100&page=" ++ string_of_Z page)%string.

(** The loop of [get_commits_for_repo], for [fuel] turns; [None] when it
    is still running after them. *)
Fixpoint get_commits_loop (fuel : nat) (repo_name since : string)
         (commits : list json) (page : Z) : io (option (list json)) :=
  match fuel with
  | O => ret None
  | S fuel' =>
      (data <- _make_request w (commits_endpoint repo_name since page) ;;
       if negb (json_truthy data) then ret (Some commits)
       else
         n <- lift (Py.len data) ;;
         if n =? 0 then ret (Some commits)
         else
           items <- lift (Py.iter data) ;;
           kept <- lift (user_commits items) ;;
           let commits := commits ++ kept in
           let page := page + 1 in
           if 200 <=? Z.of_nat (List.length commits) then ret (Some commits)
           else get_commits_loop fuel' repo_name since commits page)%io
  end.

Definition get_commits_for_repo (fuel : nat) (repo_name since : string)
  : io (option (list json)) :=
  get_commits_loop fuel repo_name since [] 1.

Definition get_commit_details (repo_name sha : string) : io json :=
  _make_request w ("/repos/" ++ username ++ "/" ++ repo_name ++ "/commits/" ++ sha)%string.

(** [base64.b64decode(...).decode('utf-8')], left to the library *)
Variable b64decode_utf8 : json -> result string.

Definition get_readme_content (repo_name : string) : io (option string) :=
  try_except
    (data <- _make_request w ("/repos/" ++ username ++ "/" ++ repo_name ++ "/readme")%string ;;
     has_content <-
       (if json_truthy data then lift (Py.contains "content" data) else ret false) ;;
     if has_content : bool then
       raw <- lift (Py.item "content" data) ;;
       content <- lift (b64decode_utf8 raw) ;;
       ret (Some content)
     else ret None)%io
    (fun _ => true)
    (fun _ => emit (Log DEBUG "No README found") ;;; ret None)%io.

End Listings.

(** The first lines of [analyze_repository_activity]: the repositories
    whose commits are fetched.  [r.get('updated_at')] is true for a
    non-empty string; the sort key is that string. *)
Definition has_updated_at (r : Repo) : bool :=
  match r_updated_at r with
  | Val s => Str.truthy s
  | _ => false
  end.

Definition updated_at_key (r : Repo) : string :=
  match r_updated_at r with
  | Val s => s
  | _ => ""
  end.

Definition selected_repos (repos : list Repo) : list Repo :=
  let active_repos := filter has_updated_at repos in
  let active_repos := sort_desc updated_at_key String.ltb active_repos in
  firstn 20 active_repos.

#[local] Open Scope float_scope.

Definition _score_readme_quality (content : option string) : float :=
  match content with
  | None => 0.0
  | Some content =>
      if negb (Str.truthy content) then 0.0
      else
        let score := 0.0 in
        let content_lower := Str.lower content in
        let score := if (500 <? Str.len content)%Z then score + 0.2 else score in
        let score :=
          if Str.contains "installation" content_lower
             || Str.contains "setup" content_lower
          then score + 0.2 else score in
        let score :=
          if Str.contains "usage" content_lower
             || Str.contains "example" content_lower
          then score + 0.2 else score in
        let score := if Str.contains "```" content then score + 0.2 else score in
        let score :=
          if (3 <=? Str.count_char "#" content)%Z then score + 0.2 else score in
        Float.py_min score 1.0
  end.

(** The five conditions [_score_readme_quality] tests, in its order: long
    text, installation or setup, usage or example, a code fence, three
    heading marks. *)
Definition readme_conditions (content : string) : list bool :=
  let content_lower := Str.lower content in
  [ (500 <? Str.len content)%Z;
    Str.contains "installation" content_lower || Str.contains "setup" content_lower;
    Str.contains "usage" content_lower || Str.contains "example" content_lower;
    Str.contains "```" content;
    (3 <=? Str.count_char "#" content)%Z ].

(** the score that goes with five answers: 0.2 for each [true], capped *)
Definition score_of_conditions (conditions : list bool) : float :=
  Float.py_min
    (fold_left (fun (score : float) (c : bool) => if c then score + 0.2 else score)
               conditions 0.0)
    1.0.

(** how many conditions hold *)
Definition count_true (conditions : list bool) : nat :=
  List.length (filter (fun c => c) conditions).

(** [not r.get('private', True)] and [r.get('fork', False)] *)
Definition is_public (r : Repo) : bool :=
  match r_private r with
  | Absent => false
  | Null => true
  | Val b => negb b
  end.

Definition is_fork (r : Repo) : bool :=
  match r_fork r with
  | Val b => b
  | _ => false
  end.

Definition analyze_collaboration_patterns (repos : list Repo) : CollaborationData :=
  let total_repos := Z.of_nat (List.length repos) in
  let public_repos := Z.of_nat (List.length (filter is_public repos)) in
  let forked_repos := Z.of_nat (List.length (filter is_fork repos)) in
  let original_repos := (public_repos - forked_repos)%Z in
  let collaboration_score :=
    Float.py_min
      ((Float.of_int forked_repos * 0.1 + Float.of_int original_repos * 0.3)
       / Float.of_int (Z.max total_repos 1))
      1.0 in
  {| pull_requests_created := 0;
     pull_requests_reviewed := 0;
     issues_created := 0;
     issues_commented := 0;
     repos_contributed_to := forked_repos;
     collaboration_score := collaboration_score |}.

End GitHubAnalyzer.

(** ** class AISkillsAnalyzer *)

(** What the one call to the chat endpoint yields: an exception, or a reply
    whose [content] may be [None]. *)
Inductive chat_outcome : Type :=
| ChatRaises (e : exn)
| ChatReply (content : option string).

Module AISkillsAnalyzer.

#[local] Open Scope float_scope.

(** [file.split('.')[-1].lower() if '.' in file else 'unknown'] *)
Definition extension (file : string) : string :=
  if Str.contains "." file then Str.lower (Str.split_last "." file)
  else "unknown".

Definition count_files (files : list string) (language_usage : Counter.t) : Counter.t :=
  fold_left (fun usage file => Counter.incr (extension file) usage) files language_usage.

Definition count_commits (commits : list CommitData) (language_usage : Counter.t)
  : Counter.t :=
  fold_left (fun usage commit => count_files (files_changed commit) usage)
            commits language_usage.

(** the [language_usage] counter [analyze_commits] fills from
    [commits[:100]] *)
Definition language_usage_of (commits : list CommitData) : Counter.t :=
  count_commits (firstn 100 commits) [].

Definition excluded_extensions : list string :=
  [ "json"; "xml"; "yaml"; "yml"; "toml"; "ini"; "cfg"; "conf";
    "png"; "jpg"; "jpeg"; "gif"; "svg"; "ico"; "bmp"; "webp";
    "pdf"; "doc"; "docx"; "txt"; "rtf";
    "md"; "rst"; "html"; "htm";
    "csv"; "tsv"; "xlsx"; "xls";
    "zip"; "tar"; "gz"; "rar"; "7z";
    "log"; "tmp"; "cache"; "lock";
    "gitignore"; "gitkeep"; "env"; "example" ].

Definition excluded (lang : string) : bool :=
  existsb (String.eqb (Str.lower lang)) excluded_extensions.

(** [language_usage.most_common(1)[0][1] if language_usage else 1] *)
Definition max_count (language_usage : Counter.t) : Z :=
  match Counter.most_common 1 language_usage with
  | (_, n) :: _ => n
  | [] => 1%Z
  end.

(** [a / b] on two [int]s *)
Definition true_div (a b : Z) : result float :=
  if (b =? 0)%Z then Raise ZeroDivisionError
  else Ok (Float.of_int a / Float.of_int b).

(** [round(min(10, (count / max_count) * 10), 1)] *)
Definition proficiency (count max_count : Z) : result float :=
  match true_div count max_count with
  | Ok q => Ok (Float.py_round1 (Float.py_min 10 (q * 10)))
  | Raise e => Raise e
  end.

(** [v] is the float of a tenth nearest to [10 * count / max_count]; at a
    tie either neighbour counts *)
Definition is_nearest_tenth (count max_count : Z) (v : float) : bool :=
  let n := (100 * count / max_count)%Z in
  existsb (fun n => PrimFloat.Leibniz.eqb v (Float.tenths false n)
                    && (2 * Z.abs (n * max_count - 100 * count) <=? max_count)%Z)
          [n; (n + 1)%Z].

(** [proficiency] yields a nearest tenth for every count up to [max_count] *)
Definition nearest_tenth_upto (max_count : Z) : bool :=
  forallb (fun count =>
             match proficiency count max_count with
             | Ok v => is_nearest_tenth count max_count v
             | Raise _ => false
             end)
          (map Z.of_nat (seq 1 (Z.to_nat max_count))).

(** the loop over [language_usage.most_common(10)] *)
Fixpoint skills_loop (language_usage : Counter.t) (items : list (string * Z))
         (technical_skills : Dict.t float) : result (Dict.t float) :=
  match items with
  | [] => Ok technical_skills
  | (lang, count) :: rest =>
      if excluded lang then skills_loop language_usage rest technical_skills
      else
        match proficiency count (max_count language_usage) with
        | Ok p => skills_loop language_usage rest (Dict.set lang p technical_skills)
        | Raise e => Raise e
        end
  end.

Inductive section : Type := in_strengths | in_improvements.

Record scan : Type := {
  current_section : option section;
  found_strengths : list string;
  found_improvements : list string
}.

(** The second bullet the source accepts, by its code points: U+201A,
    U+00C4, U+00A2 and a blank.  It is four characters long, and the source
    cuts two. *)
Definition second_bullet : list N := [8218; 196; 162; 32]%N.

(** [line.startswith(prefix)] for a prefix given by its code points *)
Fixpoint starts_with_codes (codes : list N) (line : string) : bool :=
  match codes with
  | [] => true
  | code :: codes' =>
      match line with
      | EmptyString => false
      | String c rest => N.eqb (N_of_ascii c) code && starts_with_codes codes' rest
      end
  end.

(** One turn of the loop over the reply's lines. *)
Definition scan_line (st : scan) (line : string) : scan :=
  let line := Str.strip line in
  if Str.contains "STRENGTHS" (Str.upper line) then
    {| current_section := Some in_strengths;
       found_strengths := found_strengths st;
       found_improvements := found_improvements st |}
  else if Str.contains "IMPROVEMENT" (Str.upper line)
          || Str.contains "AREAS" (Str.upper line) then
    {| current_section := Some in_improvements;
       found_strengths := found_strengths st;
       found_improvements := found_improvements st |}
  else if String.prefix "- " line || starts_with_codes second_bullet line then
    match current_section st with
    | Some in_strengths =>
        {| current_section := current_section st;
           found_strengths := found_strengths st ++ [Str.drop 2 line];
           found_improvements := found_improvements st |}
    | Some in_improvements =>
        {| current_section := current_section st;
           found_strengths := found_strengths st;
           found_improvements := found_improvements st ++ [Str.drop 2 line] |}
    | None => st
    end
  else st.

Definition scan_reply (analysis_text : string) : scan :=
  fold_left scan_line (Str.split "010" analysis_text)
            {| current_section := None;
               found_strengths := [];
               found_improvements := [] |}.

Definition experience_of (total_commits : Z) : string :=
  if (total_commits <? 50)%Z then "Junior"
  else if (total_commits <? 200)%Z then "Mid-level"
  else "Senior".

Definition _parse_ai_response (analysis_text : string) (language_usage : Counter.t)
  : result SkillAssessment :=
  match skills_loop language_usage (Counter.most_common 10 language_usage) [] with
  | Raise e => Raise e
  | Ok skills =>
      let parsed := scan_reply analysis_text in
      let total_commits := Counter.total language_usage in
      Ok {| technical_skills := skills;
            strengths := firstn 5 (found_strengths parsed);
            improvement_areas := firstn 5 (found_improvements parsed);
            experience_level := experience_of total_commits;
            specializations := Counter.most_common 3 language_usage;
            learning_style := "Inferred from commit patterns";
            confidence_score := 0.8 |}
  end.

Definition _create_fallback_assessment (language_usage : Counter.t) : SkillAssessment :=
  let skills :=
    fold_left
      (fun d lc => Dict.set (fst lc) (Float.py_min 10 (Float.of_int (snd lc) / 10)) d)
      (Counter.most_common 5 language_usage) [] in
  {| technical_skills := skills;
     strengths := ["Active contributor"; "Multi-language experience"];
     improvement_areas := ["Detailed analysis requires OpenAI API"];
     experience_level := "Unable to determine";
     specializations := Counter.most_common 2 language_usage;
     learning_style := "Unable to determine";
     confidence_score := 0.3 |}.

(** [analyze_commits].  The two periods and the prompt only feed the
    request to the endpoint, whose outcome is the argument [reply].  Any
    exception in the [try] block, the parser's included, ends in the
    fallback assessment. *)
Definition analyze_commits (reply : chat_outcome) (commits : list CommitData)
  : SkillAssessment :=
  let language_usage := language_usage_of commits in
  match reply with
  | ChatReply (Some analysis_text) =>
      match _parse_ai_response analysis_text language_usage with
      | Ok assessment => assessment
      | Raise _ => _create_fallback_assessment language_usage
      end
  | ChatReply None => _create_fallback_assessment language_usage
  | ChatRaises _ => _create_fallback_assessment language_usage
  end.

(** *** The two periods of [analyze_commits] *)

(** [a == b] on two commits: field by field *)
Definition CommitData_eqb (a b : CommitData) : bool :=
  String.eqb (sha a) (sha b)
  && String.eqb (message a) (message b)
  && (date a =? date b)%Z
  && (additions a =? additions b)%Z
  && (deletions a =? deletions b)%Z
  && (if list_eq_dec string_dec (files_changed a) (files_changed b) then true else false)
  && String.eqb (repo_name a) (repo_name b).

(** [sorted(commits, key=lambda c: c.date)]: ascending, commits of one
    date in their given order *)
Definition commits_sorted (commits : list CommitData) : list CommitData :=
  sort_desc date (fun a b => (b <? a)%Z) commits.

Definition early_commits (commits : list CommitData) : list CommitData :=
  let commits_sorted := commits_sorted commits in
  let mid_point := (List.length commits_sorted / 2)%nat in
  if (0 <? mid_point)%nat then firstn mid_point commits_sorted else [].

(** what the prompt says of a commit *)
Record CommitSummary : Type := {
  summary_message : string;      (* [commit.message[:200]] *)
  summary_additions : Z;
  summary_deletions : Z;
  summary_files : Z;
  summary_repo : string;
  summary_date : Z
}.

Definition commit_summary (commit : CommitData) : CommitSummary :=
  {| summary_message := Str.take 200 (message commit);
     summary_additions := additions commit;
     summary_deletions := deletions commit;
     summary_files := Z.of_nat (List.length (files_changed commit));
     summary_repo := repo_name commit;
     summary_date := date commit |}.

Record Period : Type := {
  period_commits : list CommitSummary;
  period_languages : Counter.t
}.

(** the state of the loop over [commits[:100]] *)
Record Tallies : Type := {
  commit_summaries : list CommitSummary;
  language_usage : Counter.t;
  early_period : Period;
  recent_period : Period
}.

Definition add_to_period (p : Period) (commit : CommitData) : Period :=
  {| period_commits := period_commits p ++ [commit_summary commit];
     period_languages := count_files (files_changed commit) (period_languages p) |}.

(** one turn: [commit in early_commits] compares with [==] *)
Definition tally_commit (early : list CommitData) (st : Tallies) (commit : CommitData)
  : Tallies :=
  let in_early := existsb (CommitData_eqb commit) early in
  {| commit_summaries := commit_summaries st ++ [commit_summary commit];
     language_usage := count_files (files_changed commit) (language_usage st);
     early_period :=
       if in_early then add_to_period (early_period st) commit else early_period st;
     recent_period :=
       if in_early then recent_period st else add_to_period (recent_period st) commit |}.

Definition tally_commits (commits : list CommitData) : Tallies :=
  fold_left (tally_commit (early_commits commits)) (firstn 100 commits)
            {| commit_summaries := [];
               language_usage := [];
               early_period := {| period_commits := []; period_languages := [] |};
               recent_period := {| period_commits := []; period_languages := [] |} |}.

End AISkillsAnalyzer.

(** ** class ReportGenerator *)

Module ReportGenerator.

Record Metadata : Type := {
  username : string;
  analysis_date : Z;
  commits_analyzed : Z;
  repositories_analyzed : Z
}.

Record ActivitySummary : Type := {
  total_commits : Z;
  total_additions : Z;
  total_deletions : Z;
  active_repositories : Z;
  most_active_repo : option string   (* [None] is JSON's [null] *)
}.

Record Recommendation : Type := {
  category : string;
  priority : string;
  items : list string
}.

Record Report : Type := {
  metadata : Metadata;
  profile : json;
  activity_summary : ActivitySummary;
  technical_skills : SkillAssessment;          (* [asdict(skills)] *)
  repository_analysis : list RepositoryData;
  collaboration_metrics : CollaborationData;
  learning_recommendations : list Recommendation
}.

Definition _generate_learning_recommendations (skills : SkillAssessment)
  : list Recommendation :=
  let recommendations := [] in
  let recommendations :=
    match improvement_areas skills with
    | [] => recommendations
    | _ =>
        recommendations ++
        [{| category := "Technical Skills Development";
            priority := "High";
            items := map (fun area => "Focus on: " ++ area)%string
                         (firstn 3 (improvement_areas skills)) |}]
    end in
  let recommendations :=
    if String.eqb (experience_level skills) "Junior" then
      recommendations ++
      [{| category := "Foundation Building";
          priority := "High";
          items := ["Master version control best practices";
                    "Learn test-driven development";
                    "Study software design patterns";
                    "Practice code review skills"] |}]
    else if String.eqb (experience_level skills) "Mid-level" then
      recommendations ++
      [{| category := "Advanced Development";
          priority := "Medium";
          items := ["Explore system architecture patterns";
                    "Contribute to open source projects";
                    "Mentor junior developers";
                    "Learn about DevOps practices"] |}]
    else recommendations in
  recommendations ++
  [{| category := "Communication & Documentation";
      priority := "Medium";
      items := ["Improve README quality with examples";
                "Write technical blog posts";
                "Create architecture decision records";
                "Practice explaining complex concepts simply"] |}].

(** [max(commits, key=lambda c: c.additions)] keeps the first of the
    commits with the most additions *)
Fixpoint max_additions (best : CommitData) (rest : list CommitData) : CommitData :=
  match rest with
  | [] => best
  | c :: rest' =>
      max_additions (if additions best <? additions c then c else best) rest'
  end.

Definition sum (l : list Z) : Z := fold_left Z.add l 0.

Definition generate_json_report
           (self_username : string) (self_timestamp : Z)
           (profile : json) (commits : list CommitData)
           (repos : list RepositoryData) (collaboration : CollaborationData)
           (skills : SkillAssessment) : Report :=
  {| metadata :=
       {| username := self_username;
          analysis_date := self_timestamp;
          commits_analyzed := Z.of_nat (List.length commits);
          repositories_analyzed := Z.of_nat (List.length repos) |};
     profile := profile;
     activity_summary :=
       {| total_commits := Z.of_nat (List.length commits);
          total_additions := sum (map additions commits);
          total_deletions := sum (map deletions commits);
          active_repositories :=
            Z.of_nat (List.length (nodup string_dec (map repo_name commits)));
          most_active_repo :=
            match commits with
            | [] => None
            | c :: rest => Some (repo_name (max_additions c rest))
            end |};
     technical_skills := skills;
     repository_analysis := repos;
     collaboration_metrics := collaboration;
     learning_recommendations := _generate_learning_recommendations skills |}.

End ReportGenerator.

(** ** [main] and the script around it *)

Record environ : Type := {
  GITHUB_USERNAME : option string;
  GITHUB_TOKEN : option string;
  OPENAI_API_KEY : option string;
  ANALYSIS_MONTHS : option string
}.

(** [not v] for what [os.getenv] returns *)
Definition unset (v : option string) : bool :=
  match v with
  | None => true
  | Some s => negb (Str.truthy s)
  end.

Section Main.
Variable w : world.

(** Steps 2 to 8 of [main], from the repository listing to the summary
    printed at the end, given the user name, the number of months and the
    profile.  They run inside the [try] block; what they do is left open.
    The three constructors at the head of the block store their arguments;
    the one of [GitHubAnalyzer] writes a log record about the token.  Log
    records and printed lines carry the fixed part of their text. *)
Variable steps_2_to_8 : string -> Z -> json -> io unit.

Definition main (env : environ) : io unit :=
  (let USERNAME :=
     match GITHUB_USERNAME env with Some u => u | None => "dang-w" end in
   ANALYSIS_MONTHS <-
     lift (match ANALYSIS_MONTHS env with
           | Some s => int_of_str s
           | None => Ok 12
           end) ;;
   if unset (OPENAI_API_KEY env) then
     emit (Log ERROR "OPENAI_API_KEY environment variable required") ;;;
     emit (Print "Missing OpenAI API Key!") ;;;
     emit (Print "Please add to .env file: OPENAI_API_KEY=your-api-key-here") ;;;
     ret tt
   else
     (if unset (GITHUB_TOKEN env) then
        emit (Log WARNING "GITHUB_TOKEN not provided") ;;;
        emit (Print "For better performance, add GitHub token to .env file") ;;;
        emit (Print "   Get a token at: https://github.com/settings/tokens") ;;;
        emit (Print "   Required permissions")
      else ret tt) ;;;
     try_except
       ((if unset (GITHUB_TOKEN env) then
           emit (Log WARNING "No GitHub token provided")
         else emit (Log INFO "Using authenticated GitHub API")) ;;;
        emit (Log INFO "Starting GitHub analysis...") ;;;
        profile <- GitHubAnalyzer.get_user_profile w USERNAME ;;
        if negb (json_truthy profile) then
          emit (Log ERROR "Failed to fetch user profile") ;;;
          ret tt
        else steps_2_to_8 USERNAME ANALYSIS_MONTHS profile)
       (fun _ => true)
       (fun e => emit (Log ERROR "Analysis failed") ;;; throw e))%io.

(** The status the interpreter exits with after [asyncio.run(main())]:
    0 when [main] returns, 1 when an exception leaves it. *)
Definition exit_status (env : environ) : Z :=
  match fst (main env []) with
  | Ok _ => 0
  | Raise _ => 1
  end.

Definition main_trace (env : environ) : trace := snd (main env []).

(** The script at the end of the module: the guard on the imports of
    [requests] and [openai], which ends the process with [sys.exit(1)]
    when one of them is missing, and then [asyncio.run(main())]. *)
Definition script_exit_status (dependencies_installed : bool) (env : environ) : Z :=
  if dependencies_installed then exit_status env else 1.

End Main.

(** the profile is not to be had: no answer, or a status from 400 to 599 *)
Definition profile_unavailable (w : world) (user : string) : Prop :=
  let url := (GitHubAnalyzer.base_url ++ "/users/" ++ user)%string in
  http_get w url = NetworkFailure
  \/ exists resp, http_get w url = Answer resp /\ 400 <= status_code resp < 600.

(** the request for [endpoint] comes back with [v], whatever was done before *)
Definition answers (w : world) (endpoint : string) (v : json) : Prop :=
  forall t, fst (GitHubAnalyzer._make_request w endpoint t) = Ok v.

(** a line that was collected: a bullet that names no section *)
Definition collected_from (lines : list string) (item : string) : Prop :=
  exists line,
    In line lines
    /\ Str.strip line = ("- " ++ item)%string
    /\ Str.contains "STRENGTHS" (Str.upper (Str.strip line)) = false
    /\ Str.contains "IMPROVEMENT" (Str.upper (Str.strip line)) = false
    /\ Str.contains "AREAS" (Str.upper (Str.strip line)) = false.

(** what holds of the tallies after every turn *)
Definition tallies_agree (st : AISkillsAnalyzer.Tallies) : Prop :=
  (List.length (AISkillsAnalyzer.period_commits (AISkillsAnalyzer.early_period st))
   + List.length (AISkillsAnalyzer.period_commits (AISkillsAnalyzer.recent_period st))
   = List.length (AISkillsAnalyzer.commit_summaries st))%nat
  /\ (forall ext,
         Counter.get ext (AISkillsAnalyzer.period_languages (AISkillsAnalyzer.early_period st))
         + Counter.get ext (AISkillsAnalyzer.period_languages (AISkillsAnalyzer.recent_period st))
         = Counter.get ext (AISkillsAnalyzer.language_usage st))
  /\ Forall (fun s => (String.length (AISkillsAnalyzer.summary_message s) <= 200)%nat)
            (AISkillsAnalyzer.commit_summaries st).

(** ** Sample inputs *)

Module Samples.

Definition commit_touching (files : list string) : CommitData :=
  {| sha := "c0ffee";
     message := "work";
     date := 0;
     additions := Z.of_nat (List.length files);
     deletions := 0;
     files_changed := files;
     repo_name := "demo" |}.

(** 49 commits of five files each *)
Definition commits_49_of_five : list CommitData :=
  repeat (commit_touching ["a.py"; "b.py"; "c.py"; "d.py"; "e.py"]) 49.

(** 49 commits of one file each *)
Definition commits_49_of_one : list CommitData :=
  repeat (commit_touching ["a.py"]) 49.

(** three Markdown files, two JSON files and one Python file *)
Definition commits_docs_first : list CommitData :=
  [commit_touching ["README.md"; "docs/guide.md"; "data.json"];
   commit_touching ["CHANGES.md"; "package.json"; "main.py"]].

(** one Python file and one text file, three Markdown files and two JSON
    files, the Python file first *)
Definition commits_code_first : list CommitData :=
  [commit_touching ["main.py"; "README.md"; "data.json"; "notes.txt"];
   commit_touching ["a.md"; "b.json"; "c.md"]].

(** a host that is not reachable *)
Definition world_offline : world :=
  {| http_get := fun _ => NetworkFailure;
     fromtimestamp_error := fun _ => None |}.

Definition profile_of_dang_w : json :=
  JObj [("login", JStr "dang-w"); ("public_repos", JInt 12)].

Definition answer_with_profile : Response :=
  {| status_code := 200;
     headers := [("X-RateLimit-Remaining", "4999");
                 ("X-RateLimit-Reset", "1700000000")];
     body := Some profile_of_dang_w;
     json_error := None |}.

(** a host that answers 200 with the profile and plain rate-limit headers *)
Definition world_online : world :=
  {| http_get := fun _ => Answer answer_with_profile;
     fromtimestamp_error := fun _ => None |}.

(** a host, or a proxy on the way, that answers 200 with the profile and a
    rate-limit header that is no number *)
Definition answer_odd_header : Response :=
  {| status_code := 200;
     headers := [("X-RateLimit-Remaining", "unlimited")];
     body := Some profile_of_dang_w;
     json_error := None |}.

Definition world_odd_header : world :=
  {| http_get := fun _ => Answer answer_odd_header;
     fromtimestamp_error := fun _ => None |}.

(** a host that answers 404 *)
Definition answer_not_found : Response :=
  {| status_code := 404;
     headers := [];
     body := Some (JObj [("message", JStr "Not Found")]);
     json_error := None |}.

Definition world_not_found : world :=
  {| http_get := fun _ => Answer answer_not_found;
     fromtimestamp_error := fun _ => None |}.

(** a host that answers 200 with a body in which a number has more than
    4300 digits: decoding it raises [ValueError] *)
Definition answer_long_number : Response :=
  {| status_code := 200;
     headers := [("X-RateLimit-Remaining", "4999");
                 ("X-RateLimit-Reset", "1700000000")];
     body := None;
     json_error := Some ValueError |}.

Definition world_long_number : world :=
  {| http_get := fun _ => Answer answer_long_number;
     fromtimestamp_error := fun _ => None |}.

(** a host that answers 200 with five requests left and a reset time in a
    year beyond 9999 *)
Definition answer_far_reset : Response :=
  {| status_code := 200;
     headers := [("X-RateLimit-Remaining", "5");
                 ("X-RateLimit-Reset", "99999999999999")];
     body := Some profile_of_dang_w;
     json_error := None |}.

Definition world_far_reset : world :=
  {| http_get := fun _ => Answer answer_far_reset;
     fromtimestamp_error := fun t =>
       if 253402300800 <=? t then Some YearOutOfRange else None |}.

(** a host that answers 300 with a JSON body *)
Definition answer_multiple_choices : Response :=
  {| status_code := 300;
     headers := [("X-RateLimit-Remaining", "4999");
                 ("X-RateLimit-Reset", "1700000000")];
     body := Some profile_of_dang_w;
     json_error := None |}.

Definition world_multiple_choices : world :=
  {| http_get := fun _ => Answer answer_multiple_choices;
     fromtimestamp_error := fun _ => None |}.

Definition env_without_key : environ :=
  {| GITHUB_USERNAME := None;
     GITHUB_TOKEN := None;
     OPENAI_API_KEY := None;
     ANALYSIS_MONTHS := None |}.

Definition env_with_key : environ :=
  {| GITHUB_USERNAME := Some "dang-w";
     GITHUB_TOKEN := Some "ghp_token";
     OPENAI_API_KEY := Some "sk-key";
     ANALYSIS_MONTHS := Some "6" |}.

Definition steps_that_return : string -> Z -> json -> io unit :=
  fun _ _ _ => ret tt.

Definition steps_that_raise : string -> Z -> json -> io unit :=
  fun _ _ _ => throw (OtherError "disk full").

Definition repo (name : string) (updated : field string) : Repo :=
  {| r_name := name;
     r_updated_at := updated;
     r_private := Val false;
     r_fork := Val false |}.

(** five repositories: two updated at the same instant, one whose
    timestamp is [null], one without the key *)
Definition repos_with_ties : list Repo :=
  [ repo "old" (Val "2023-01-05T10:00:00Z");
    repo "tie-first" (Val "2024-03-01T08:30:00Z");
    repo "never" Null;
    repo "tie-second" (Val "2024-03-01T08:30:00Z");
    repo "unknown" Absent;
    repo "new" (Val "2024-06-30T23:59:59Z") ].

(** a repository with both flags set, and one that lacks the key
    ['private'] *)
Definition private_fork : Repo :=
  {| r_name := "mirror";
     r_updated_at := Val "2024-01-01T00:00:00Z";
     r_private := Val true;
     r_fork := Val true |}.

Definition fork_without_visibility : Repo :=
  {| r_name := "vendored";
     r_updated_at := Absent;
     r_private := Absent;
     r_fork := Val true |}.

Definition public_fork : Repo :=
  {| r_name := "patched";
     r_updated_at := Absent;
     r_private := Val false;
     r_fork := Val true |}.

(** [n] letters *)
Definition letters (n : nat) : string := string_of_list_ascii (repeat "x"%char n).

(** [s], filled up with letters to [n] characters *)
Definition filled_to (n : nat) (s : string) : string :=
  (s ++ letters (n - String.length s))%string.

(** a README of 600 characters with the words installation and example, a
    fenced code block and four headings *)
Definition readme_600 : string :=
  filled_to 600
    ("# Skills" ++ String "010" "## Installation notes: installation" ++ String "010"
     "## An example" ++ String "010" "```" ++ String "010" "pip install skills"
     ++ String "010" "```" ++ String "010" "## License" ++ String "010" "").

(** an entry of a repository listing *)
Definition listed (name : string) : json :=
  JObj [("name", JStr name); ("private", JBool false); ("fork", JBool false)].

Definition answer_with (v : json) : Response :=
  {| status_code := 200;
     headers := [("X-RateLimit-Remaining", "4999");
                 ("X-RateLimit-Reset", "1700000000")];
     body := Some v;
     json_error := None |}.

(** a host with three repositories of "dang-w", two on the first page and
    one on the second; every other request fails *)
Definition world_two_pages : world :=
  {| http_get := fun url =>
       if String.eqb url "https://api.github.com/users/dang-w/repos?per_page=100&page=1"
       then Answer (answer_with (JArr [listed "skills"; listed "notes"]))
       else if String.eqb url "https://api.github.com/users/dang-w/repos?per_page=100&page=2"
       then Answer (answer_with (JArr [listed "dotfiles"]))
       else NetworkFailure;
     fromtimestamp_error := fun _ => None |}.

(** an entry of a commit listing: the login of the account and the e-mail
    address of the commit data, either of which may be missing *)
Definition listed_commit (sha : string) (login email : option string) : json :=
  JObj [("sha", JStr sha);
        ("commit",
          JObj [("author",
                  match email with
                  | Some e => JObj [("name", JStr "A. U. Thor"); ("email", JStr e)]
                  | None => JNull
                  end);
                ("message", JStr "work")]);
        ("author",
          match login with
          | Some l => JObj [("login", JStr l)]
          | None => JNull
          end)].

(** a host whose repository "skills" has three commits: one by "dang-w",
    one by another account with an e-mail address, one with no author at
    all; every other request fails *)
Definition world_three_commits : world :=
  {| http_get := fun url =>
       if String.eqb url
            "https://api.github.com/repos/dang-w/skills/commits?since=2024-01-01T00:00:00&per_page=100&page=1"
       then Answer (answer_with
                      (JArr [listed_commit "a1" (Some "dang-w") None;
                             listed_commit "b2" (Some "octocat") (Some "octo@example.org");
                             listed_commit "c3" None None]))
       else NetworkFailure;
     fromtimestamp_error := fun _ => None |}.

(** a host on which every page of every listing holds one commit without
    author *)
Definition world_of_strangers : world :=
  {| http_get := fun _ => Answer (answer_with (JArr [listed_commit "c3" None None]));
     fromtimestamp_error := fun _ => None |}.

(** a reply in which a bullet mentions the word "areas" *)
Definition reply_with_areas_bullet : string :=
  ("## Strengths" ++ String "010" "- Clear commits" ++ String "010"
   "- Areas of testing" ++ String "010" "- Wide tooling" ++ String "010" "")%string.

Definition env_with_bad_months : environ :=
  {| GITHUB_USERNAME := None;
     GITHUB_TOKEN := None;
     OPENAI_API_KEY := None;
     ANALYSIS_MONTHS := Some "six" |}.

(** a host that answers without rate-limit headers *)
Definition answer_without_headers : Response :=
  {| status_code := 200;
     headers := [];
     body := Some profile_of_dang_w;
     json_error := None |}.

Definition world_without_headers : world :=
  {| http_get := fun _ => Answer answer_without_headers;
     fromtimestamp_error := fun _ => None |}.

(** a month count followed by the separator U+001F, which [str.strip]
    removes and [int] does not *)
Definition env_with_separator_in_months : environ :=
  {| GITHUB_USERNAME := None;
     GITHUB_TOKEN := None;
     OPENAI_API_KEY := Some "sk-test";
     ANALYSIS_MONTHS := Some (String "6" (String "031" EmptyString)) |}.

Definition commit_in (repo : string) (added : Z) : CommitData :=
  {| sha := "c0ffee";
     message := "work";
     date := 0;
     additions := added;
     deletions := 0;
     files_changed := ["main.py"];
     repo_name := repo |}.

(** a host on which every page of every listing holds one commit of
    "dang-w" *)
Definition world_of_own_commits : world :=
  {| http_get := fun _ =>
       Answer (answer_with (JArr [listed_commit "a1" (Some "dang-w") None]));
     fromtimestamp_error := fun _ => None |}.

End Samples.

(** * Properties *)

(** ** The stable sort *)

Section SortDescFacts.
Context {A K : Type} (key : A -> K) (ltb : K -> K -> bool).

(** [ltb] is a strict weak order: nothing is below itself twice over, and
    "not below" is transitive. *)
Hypothesis ltb_asym : forall a b, ltb a b = true -> ltb b a = false.
Hypothesis geb_trans :
  forall a b c, ltb a b = false -> ltb b c = false -> ltb a c = false.

Lemma insert_desc_perm (x : A) (l : list A) :
  Permutation (insert_desc key ltb x l) (x :: l).
Proof.
  induction l as [|y r IH]; simpl.
  - apply Permutation_refl.
  - destruct (ltb (key x) (key y)).
    + eapply perm_trans; [apply perm_skip, IH | apply perm_swap].
    + apply Permutation_refl.
Qed.

Lemma sort_desc_perm (l : list A) : Permutation (sort_desc key ltb l) l.
Proof.
  induction l as [|x l IH]; simpl.
  - constructor.
  - eapply perm_trans; [apply insert_desc_perm | apply perm_skip, IH].
Qed.

Lemma sort_desc_In (x : A) (l : list A) : In x (sort_desc key ltb l) <-> In x l.
Proof.
  split; apply Permutation_in;
    [apply sort_desc_perm | apply Permutation_sym, sort_desc_perm].
Qed.

Lemma sort_desc_length (l : list A) :
  List.length (sort_desc key ltb l) = List.length l.
Proof. apply Permutation_length, sort_desc_perm. Qed.

Lemma insert_desc_sorted (x : A) (l : list A) :
  StronglySorted (desc key ltb) l -> StronglySorted (desc key ltb) (insert_desc key ltb x l).
Proof.
  induction 1 as [|y r Hr IH Hy]; simpl.
  - constructor; constructor.
  - destruct (ltb (key x) (key y)) eqn:E.
    + constructor; [exact IH|].
      rewrite Forall_forall in *. intros z Hz.
      apply (Permutation_in _ (insert_desc_perm x r)) in Hz.
      destruct Hz as [<-|Hz]; [apply ltb_asym, E | apply Hy, Hz].
    + constructor; [constructor; assumption|].
      constructor; [exact E|].
      rewrite Forall_forall in *. intros z Hz.
      eapply geb_trans; [exact E | apply Hy, Hz].
Qed.

Lemma sort_desc_sorted (l : list A) :
  StronglySorted (desc key ltb) (sort_desc key ltb l).
Proof.
  induction l as [|x l IH]; simpl; [constructor | apply insert_desc_sorted, IH].
Qed.

Lemma tie_trans_lt (x a y : A) :
  tie key ltb x a = true -> ltb (key a) (key y) = true -> tie key ltb x y = false.
Proof.
  unfold tie. intros Hxa Hay.
  apply andb_true_iff in Hxa as [H1 H2].
  apply negb_true_iff in H1, H2.
  destruct (ltb (key x) (key y)) eqn:Exy; [reflexivity|].
  rewrite (geb_trans _ _ _ H2 Exy) in Hay. discriminate.
Qed.

(** inserting keeps the order in which the elements of one rank occur *)
Lemma insert_desc_filter_tie (x a : A) (l : list A) :
  filter (tie key ltb x) (insert_desc key ltb a l) = filter (tie key ltb x) (a :: l).
Proof.
  induction l as [|y r IH]; [reflexivity|].
  cbn [insert_desc]. destruct (ltb (key a) (key y)) eqn:E; [|reflexivity].
  cbn [filter] in *. rewrite IH.
  destruct (tie key ltb x a) eqn:Ta; [|reflexivity].
  rewrite (tie_trans_lt _ _ _ Ta E). reflexivity.
Qed.

Lemma sort_desc_stable (x : A) (l : list A) :
  filter (tie key ltb x) (sort_desc key ltb l) = filter (tie key ltb x) l.
Proof.
  induction l as [|a l IH]; [reflexivity|].
  cbn [sort_desc fold_right]. rewrite insert_desc_filter_tie.
  cbn [filter]. fold (sort_desc key ltb l). rewrite IH. reflexivity.
Qed.

(** a test that picks out one rank keeps its elements in their order *)
Lemma sort_desc_stable_rank (p : A -> bool) (l : list A) :
  (forall a b, In a l -> In b l -> p a = true -> tie key ltb a b = p b) ->
  filter p (sort_desc key ltb l) = filter p l.
Proof.
  intros Hrank.
  destruct (filter p l) as [|r0 rest] eqn:E0.
  - destruct (filter p (sort_desc key ltb l)) as [|r1 rest1] eqn:E1; [reflexivity|].
    assert (In r1 (filter p (sort_desc key ltb l))) as H1 by (rewrite E1; now left).
    apply filter_In in H1 as [H1 H1']. apply (proj1 (sort_desc_In r1 l)) in H1.
    assert (In r1 (filter p l)) as H2 by (apply filter_In; split; assumption).
    rewrite E0 in H2. destruct H2.
  - assert (In r0 (filter p l)) as H0 by (rewrite E0; now left).
    apply filter_In in H0 as [H0 H0']. rewrite <- E0.
    rewrite <- (filter_ext_in (tie key ltb r0) p l)
      by (intros b Hb; apply Hrank; assumption).
    rewrite <- (filter_ext_in (tie key ltb r0) p (sort_desc key ltb l))
      by (intros b Hb; apply (proj1 (sort_desc_In b l)) in Hb; apply Hrank; assumption).
    apply sort_desc_stable.
Qed.

End SortDescFacts.

Lemma StronglySorted_impl_in {A} (R R' : A -> A -> Prop) (l : list A) :
  (forall a b, In a l -> In b l -> R a b -> R' a b) ->
  StronglySorted R l -> StronglySorted R' l.
Proof.
  intros Himpl H. induction H as [|x l Hl IH Hx]; constructor.
  - apply IH. intros a b Ha Hb. apply Himpl; now right.
  - rewrite Forall_forall in *. intros y Hy.
    apply Himpl; [now left | now right | apply Hx, Hy].
Qed.

Lemma Zltb_asym (a b : Z) : (a <? b) = true -> (b <? a) = false.
Proof. rewrite Z.ltb_lt, Z.ltb_ge. lia. Qed.

Lemma Zgeb_trans (a b c : Z) : (a <? b) = false -> (b <? c) = false -> (a <? c) = false.
Proof. rewrite !Z.ltb_ge. lia. Qed.

(** ** Counters *)

Lemma incr_positive (k : string) (c : Counter.t) :
  Counter.positive c -> Counter.positive (Counter.incr k c).
Proof.
  unfold Counter.positive. induction 1 as [|[k' n] r Hn Hr IH]; simpl.
  - constructor; [simpl; lia | constructor].
  - destruct (String.eqb k k'); constructor; simpl in *; auto; lia.
Qed.

Lemma incr_total (k : string) (c : Counter.t) :
  Counter.total (Counter.incr k c) = Counter.total c + 1.
Proof.
  induction c as [|[k' n] r IH]; simpl; [reflexivity|].
  destruct (String.eqb k k'); simpl; [|rewrite IH]; lia.
Qed.

Lemma In_firstn {A} (n : nat) (l : list A) (x : A) : In x (firstn n l) -> In x l.
Proof.
  intros H. rewrite <- (firstn_skipn n l). apply in_or_app. now left.
Qed.

Lemma most_common_In (n : nat) (c : Counter.t) (x : string * Z) :
  In x (Counter.most_common n c) -> In x c.
Proof.
  unfold Counter.most_common. intros H.
  apply In_firstn in H. now apply sort_desc_In in H.
Qed.

(** [most_common n] is the head of the tally put in order: all its pairs,
    no count before a larger one, the pairs of one count in the order of
    the tally *)
Lemma most_common_ranked (n : nat) (usage : Counter.t) :
  exists ranked,
    Counter.most_common n usage = firstn n ranked
    /\ Permutation ranked usage
    /\ StronglySorted (fun x y => snd y <= snd x) ranked
    /\ forall count,
        filter (fun kv => snd kv =? count) ranked
        = filter (fun kv => snd kv =? count) usage.
Proof.
  exists (sort_desc snd Z.ltb usage).
  split; [reflexivity|]. split; [apply sort_desc_perm|]. split.
  - apply (StronglySorted_impl_in (desc snd Z.ltb));
      [|apply sort_desc_sorted; [exact Zltb_asym | exact Zgeb_trans]].
    intros x y _ _ H. unfold desc in H. apply Z.ltb_ge in H. exact H.
  - intros count. apply sort_desc_stable_rank; [exact Zgeb_trans|].
    intros x y _ _ Hx. apply Z.eqb_eq in Hx. unfold tie. rewrite Hx.
    destruct (Z.ltb_spec count (snd y)), (Z.ltb_spec (snd y) count),
             (Z.eqb_spec (snd y) count); cbn; try reflexivity; lia.
Qed.

Import AISkillsAnalyzer.

Lemma count_files_positive (files : list string) (c : Counter.t) :
  Counter.positive c -> Counter.positive (count_files files c).
Proof.
  unfold count_files. revert c.
  induction files as [|f files IH]; simpl; intros c Hc; [exact Hc|].
  apply IH, incr_positive, Hc.
Qed.

Lemma count_files_total (files : list string) (c : Counter.t) :
  Counter.total (count_files files c) = Counter.total c + Z.of_nat (List.length files).
Proof.
  unfold count_files. revert c.
  induction files as [|f files IH]; intros c; [simpl; lia|].
  cbn [fold_left List.length]. rewrite IH, incr_total. lia.
Qed.

Lemma count_commits_positive (commits : list CommitData) (c : Counter.t) :
  Counter.positive c -> Counter.positive (count_commits commits c).
Proof.
  unfold count_commits. revert c.
  induction commits as [|x commits IH]; simpl; intros c Hc; [exact Hc|].
  apply IH, count_files_positive, Hc.
Qed.

Lemma count_commits_total (commits : list CommitData) (c : Counter.t) :
  Counter.total (count_commits commits c)
  = Counter.total c + Z.of_nat (List.length (flat_map files_changed commits)).
Proof.
  unfold count_commits. revert c.
  induction commits as [|x commits IH]; intros c; [simpl; lia|].
  cbn [fold_left flat_map]. rewrite IH, count_files_total, length_app. lia.
Qed.

Lemma language_usage_positive (commits : list CommitData) :
  Counter.positive (language_usage_of commits).
Proof. apply (count_commits_positive (firstn 100 commits) []). constructor. Qed.

Lemma language_usage_total (commits : list CommitData) :
  Counter.total (language_usage_of commits)
  = Z.of_nat (List.length (flat_map files_changed (firstn 100 commits))).
Proof. apply (count_commits_total (firstn 100 commits) []). Qed.

Lemma max_count_positive (c : Counter.t) : Counter.positive c -> 1 <= max_count c.
Proof.
  intros Hc. unfold max_count.
  destruct (Counter.most_common 1 c) as [|[k n] r] eqn:E; [lia|].
  assert (In (k, n) c) as Hin by (apply (most_common_In 1); rewrite E; now left).
  unfold Counter.positive in Hc. rewrite Forall_forall in Hc.
  exact (Hc _ Hin).
Qed.

(** ** The parser returns *)

Lemma skills_loop_returns (usage : Counter.t) (items : list (string * Z))
      (acc : Dict.t float) :
  max_count usage <> 0 -> exists d, skills_loop usage items acc = Ok d.
Proof.
  intros Hm. revert acc.
  induction items as [|[lang count] rest IH]; intros acc; simpl; [eauto|].
  destruct (excluded lang); [apply IH|].
  unfold proficiency, true_div.
  destruct (Z.eqb_spec (max_count usage) 0) as [E|_]; [contradiction|].
  apply IH.
Qed.

Lemma parse_returns (text : string) (usage : Counter.t) :
  Counter.positive usage -> exists a, _parse_ai_response text usage = Ok a.
Proof.
  intros Hp. unfold _parse_ai_response.
  destruct (skills_loop_returns usage (Counter.most_common 10 usage) [])
    as [d Hd].
  - pose proof (max_count_positive usage Hp). lia.
  - rewrite Hd. eauto.
Qed.

(** what a returned assessment holds besides the skills *)
Lemma parse_fields (text : string) (usage : Counter.t) (a : SkillAssessment) :
  _parse_ai_response text usage = Ok a ->
  skills_loop usage (Counter.most_common 10 usage) [] = Ok (technical_skills a)
  /\ experience_level a = experience_of (Counter.total usage)
  /\ specializations a = Counter.most_common 3 usage
  /\ confidence_score a = 0.8%float.
Proof.
  unfold _parse_ai_response.
  destruct (skills_loop usage (Counter.most_common 10 usage) []) as [d|e];
    [|discriminate].
  intros [= <-]. simpl. auto.
Qed.

(** ** The assessment *)

(** C7: the fallback assessment has confidence 0.3 whatever the tally, an
    assessment the parser returns has confidence 0.8 whatever the reply and
    the tally, and on the tally of any commits the parser does return. *)
Theorem confidence_score_fixed :
  (forall usage, confidence_score (_create_fallback_assessment usage) = 0.3%float)
  /\ (forall text usage a,
        _parse_ai_response text usage = Ok a -> confidence_score a = 0.8%float)
  /\ (forall text commits,
        exists a, _parse_ai_response text (language_usage_of commits) = Ok a
                  /\ confidence_score a = 0.8%float).
Proof.
  split; [reflexivity|]. split.
  - intros text usage a H. apply parse_fields in H. tauto.
  - intros text commits.
    destruct (parse_returns text _ (language_usage_positive commits)) as [a Ha].
    exists a. split; [exact Ha|]. apply parse_fields in Ha. tauto.
Qed.

Lemma confidence_score_fixed_witness :
  exists a,
    _parse_ai_response "STRENGTHS" (language_usage_of Samples.commits_docs_first) = Ok a
    /\ confidence_score a = 0.8%float.
Proof.
  destruct (_parse_ai_response "STRENGTHS"
              (language_usage_of Samples.commits_docs_first)) as [a|e] eqn:E;
    [|vm_compute in E; discriminate E].
  exists a. split; [reflexivity|].
  exact (proj1 (proj2 confidence_score_fixed) _ _ a E).
Defined.

(** C10: the specializations are the first three pairs, two in the
    fallback assessment, of the whole tally put in order: every
    (extension, count) pair of the tally is in the ranking, so none is
    filtered out, no count stands before a larger one, and the pairs of one
    count stand in the order of the tally.  In the sample, [md] and [json]
    are specializations and are no technical skills. *)
Theorem specializations_not_filtered :
  let ranks (usage ranked : list (string * Z)) :=
    Permutation ranked usage
    /\ StronglySorted (fun x y => snd y <= snd x) ranked
    /\ forall count,
        filter (fun kv => snd kv =? count) ranked
        = filter (fun kv => snd kv =? count) usage in
  (forall text usage a,
      _parse_ai_response text usage = Ok a ->
      exists ranked, specializations a = firstn 3 ranked /\ ranks usage ranked)
  /\ (forall usage,
        exists ranked,
          specializations (_create_fallback_assessment usage) = firstn 2 ranked
          /\ ranks usage ranked)
  /\ (exists a,
        _parse_ai_response "" (language_usage_of Samples.commits_docs_first) = Ok a
        /\ specializations a = [("md", 3); ("json", 2); ("py", 1)]
        /\ Dict.keys (technical_skills a) = ["py"])
  /\ specializations
       (_create_fallback_assessment (language_usage_of Samples.commits_docs_first))
     = [("md", 3); ("json", 2)].
Proof.
  intros ranks. subst ranks. cbv beta. split; [|split; [|split]].
  - intros text usage a H. apply parse_fields in H.
    destruct H as (_ & _ & -> & _). apply most_common_ranked.
  - intros usage. cbn [specializations _create_fallback_assessment].
    apply most_common_ranked.
  - eexists. split; [vm_compute; reflexivity|]. split; reflexivity.
  - vm_compute. reflexivity.
Qed.

Lemma specializations_not_filtered_witness :
  language_usage_of Samples.commits_code_first
  = [("py", 1); ("md", 3); ("json", 2); ("txt", 1)]
  /\ exists a ranked,
      _parse_ai_response "" (language_usage_of Samples.commits_code_first) = Ok a
      /\ specializations a = [("md", 3); ("json", 2); ("py", 1)]
      /\ specializations a = firstn 3 ranked
      /\ Permutation ranked (language_usage_of Samples.commits_code_first).
Proof.
  split; [vm_compute; reflexivity|].
  destruct (_parse_ai_response ""
              (language_usage_of Samples.commits_code_first)) as [a|e] eqn:E;
    [|vm_compute in E; discriminate E].
  destruct (proj1 specializations_not_filtered _ _ a E) as (ranked & H1 & H2 & _).
  exists a, ranked. split; [reflexivity|].
  split; [vm_compute in E; injection E as <-; reflexivity|].
  split; [exact H1 | exact H2].
Defined.

(** C4, as the code has it: the tier follows the total of the extension
    tally, which counts one per changed file path of the first 100 commits,
    below 50 "Junior", below 200 "Mid-level", "Senior" from 200 on; and on
    the tally of any commits the parser returns. *)
Theorem experience_level_thresholds :
  (forall text usage a,
      _parse_ai_response text usage = Ok a ->
      (Counter.total usage < 50 -> experience_level a = "Junior")
      /\ (50 <= Counter.total usage < 200 -> experience_level a = "Mid-level")
      /\ (200 <= Counter.total usage -> experience_level a = "Senior"))
  /\ (forall commits,
        Counter.total (language_usage_of commits)
        = Z.of_nat (List.length (flat_map files_changed (firstn 100 commits))))
  /\ (forall text commits,
        exists a, _parse_ai_response text (language_usage_of commits) = Ok a).
Proof.
  split; [|split].
  - intros text usage a H. apply parse_fields in H.
    destruct H as (_ & -> & _). unfold experience_of.
    repeat split; intros Hn.
    + destruct (Z.ltb_spec (Counter.total usage) 50); [reflexivity | lia].
    + destruct (Z.ltb_spec (Counter.total usage) 50); [lia|].
      destruct (Z.ltb_spec (Counter.total usage) 200); [reflexivity | lia].
    + destruct (Z.ltb_spec (Counter.total usage) 50); [lia|].
      destruct (Z.ltb_spec (Counter.total usage) 200); [lia | reflexivity].
  - apply language_usage_total.
  - intros text commits. apply parse_returns, language_usage_positive.
Qed.

Lemma experience_level_thresholds_witness :
  exists a,
    _parse_ai_response "" (language_usage_of Samples.commits_49_of_one) = Ok a
    /\ experience_level a = "Junior".
Proof.
  destruct (_parse_ai_response ""
              (language_usage_of Samples.commits_49_of_one)) as [a|e] eqn:E;
    [|vm_compute in E; discriminate E].
  exists a. split; [reflexivity|].
  apply (proj1 (proj1 experience_level_thresholds _ _ a E)).
  vm_compute. reflexivity.
Defined.

(** C4 as stated fails: 49 commits that touch five files each are rated
    "Senior". *)
Lemma experience_level_49_commits :
  List.length Samples.commits_49_of_five = 49%nat
  /\ experience_level
       (analyze_commits (ChatReply (Some "")) Samples.commits_49_of_five)
     = "Senior".
Proof. split; vm_compute; reflexivity. Qed.

(** ** The report *)

(** C9: with no commits, whatever the chat endpoint did, the report names
    no most active repository, its four totals are zero, and its skills
    table is there and empty. *)
Theorem report_of_no_commits
        (user : string) (now : Z) (profile : json) (repos : list RepositoryData)
        (collaboration : CollaborationData) (reply : chat_outcome) :
  let skills := analyze_commits reply [] in
  let report :=
    ReportGenerator.generate_json_report user now profile [] repos collaboration skills in
  let summary := ReportGenerator.activity_summary report in
  ReportGenerator.most_active_repo summary = None
  /\ ReportGenerator.total_commits summary = 0
  /\ ReportGenerator.total_additions summary = 0
  /\ ReportGenerator.total_deletions summary = 0
  /\ ReportGenerator.active_repositories summary = 0
  /\ technical_skills (ReportGenerator.technical_skills report) = [].
Proof.
  cbn -[analyze_commits]. repeat split; try reflexivity.
  destruct reply as [e|[text|]]; reflexivity.
Qed.

(** ** The client *)

Section ClientFacts.
Variable w : world.

(** turns the comparisons among the hypotheses into arithmetic *)
Ltac bool_lia :=
  repeat match goal with
         | H : (_ && _) = true |- _ => apply andb_true_iff in H; destruct H
         | H : (_ && _) = false |- _ => apply andb_false_iff in H; destruct H
         | H : (_ <=? _) = true |- _ => apply Z.leb_le in H
         | H : (_ <=? _) = false |- _ => apply Z.leb_gt in H
         | H : (_ <? _) = true |- _ => apply Z.ltb_lt in H
         | H : (_ <? _) = false |- _ => apply Z.ltb_ge in H
         end;
  lia.

(** runs [_make_request] through every branch, along the hypotheses *)
Ltac run_request :=
  cbv [GitHubAnalyzer._make_request GitHubAnalyzer.session_get
       GitHubAnalyzer.raise_for_status GitHubAnalyzer.response_json
       GitHubAnalyzer.fromtimestamp try_except bind ret throw emit lift];
  repeat (cbn [fst snd is_RequestException exn_of_time_error];
          match goal with
          | H : http_get w ?u = _ |- context [http_get w ?u] => rewrite H
          | H : header_int ?n ?h = _ |- context [header_int ?n ?h] => rewrite H
          | H : fromtimestamp_error w ?x = _
            |- context [fromtimestamp_error w ?x] => rewrite H
          | H : json_error ?r = _ |- context [json_error ?r] => rewrite H
          | |- context [match http_get w ?u with _ => _ end] =>
              destruct (http_get w u) eqn:?
          | |- context [match header_int ?n ?h with _ => _ end] =>
              destruct (header_int n h) eqn:?
          | |- context [if ?b then _ else _] => destruct b eqn:?
          | |- context [match fromtimestamp_error w ?x with _ => _ end] =>
              destruct (fromtimestamp_error w x) eqn:?
          | |- context [match json_error ?r with _ => _ end] =>
              destruct (json_error r) eqn:?
          | |- context [match body ?r with _ => _ end] =>
              destruct (body r) eqn:?
          end);
  cbn [fst snd is_RequestException exn_of_time_error].

Lemma requests_of_app (t u : trace) :
  requests_of (t ++ u) = requests_of t ++ requests_of u.
Proof. apply flat_map_app. Qed.

(** [int(...)] fails with [ValueError] only *)
Lemma int_of_str_raises (s : string) (e : exn) :
  int_of_str s = Raise e -> e = ValueError.
Proof.
  unfold int_of_str.
  match goal with
  | |- match ?p with _ => _ end = _ -> _ => destruct p
  end; [|congruence].
  match goal with
  | |- (if ?b then _ else _) = _ -> _ => destruct b
  end; congruence.
Qed.

Lemma header_int_raises (name : string) (hs : list (string * string)) (e : exn) :
  header_int name hs = Raise e -> e = ValueError.
Proof.
  unfold header_int.
  destruct (find _ hs) as [kv|]; [|discriminate].
  apply int_of_str_raises.
Qed.

(** one GET, whatever happens *)
Lemma make_request_one_get (endpoint : string) (t : trace) :
  requests_of (snd (GitHubAnalyzer._make_request w endpoint t))
  = requests_of t ++ [(GitHubAnalyzer.base_url ++ endpoint)%string].
Proof.
  run_request; rewrite ?requests_of_app; cbn [requests_of flat_map app];
    rewrite ?app_nil_r; reflexivity.
Qed.

Lemma make_request_network_failure (endpoint : string) (t : trace) :
  http_get w (GitHubAnalyzer.base_url ++ endpoint)%string = NetworkFailure ->
  fst (GitHubAnalyzer._make_request w endpoint t) = Ok JNull.
Proof. intros Hn. run_request. reflexivity. Qed.

Lemma make_request_http_error (endpoint : string) (t : trace) (resp : Response) :
  http_get w (GitHubAnalyzer.base_url ++ endpoint)%string = Answer resp ->
  400 <= status_code resp < 600 ->
  fst (GitHubAnalyzer._make_request w endpoint t) = Ok JNull.
Proof. intros Hr Hs. run_request; try reflexivity; bool_lia. Qed.

Lemma make_request_answer (endpoint : string) (t : trace) (resp : Response)
      (remaining reset_time : Z) :
  http_get w (GitHubAnalyzer.base_url ++ endpoint)%string = Answer resp ->
  ~ 400 <= status_code resp < 600 ->
  header_int "X-RateLimit-Remaining" (headers resp) = Ok remaining ->
  header_int "X-RateLimit-Reset" (headers resp) = Ok reset_time ->
  10 <= remaining \/ fromtimestamp_error w reset_time = None ->
  fst (GitHubAnalyzer._make_request w endpoint t)
  = match json_error resp with
    | Some e => if is_RequestException e then Ok JNull else Raise e
    | None =>
        match body resp with
        | Some v => Ok v
        | None => Ok JNull
        end
    end.
Proof.
  intros Hr Hs Hrem Hreset Hok.
  run_request; try reflexivity;
    try (destruct Hok; [bool_lia | congruence]); bool_lia.
Qed.

Lemma make_request_header_raises (endpoint : string) (t : trace) (resp : Response) :
  http_get w (GitHubAnalyzer.base_url ++ endpoint)%string = Answer resp ->
  ~ 400 <= status_code resp < 600 ->
  (exists e, header_int "X-RateLimit-Remaining" (headers resp) = Raise e)
  \/ (exists e, header_int "X-RateLimit-Reset" (headers resp) = Raise e) ->
  fst (GitHubAnalyzer._make_request w endpoint t) = Raise ValueError.
Proof.
  intros Hr Hs [[e He]|[e He]]; pose proof (header_int_raises _ _ _ He); subst e;
    run_request; try reflexivity; try bool_lia.
  all: match goal with
       | H : header_int _ _ = Raise ?e |- _ =>
           is_var e; pose proof (header_int_raises _ _ _ H); subst e
       end.
  all: first [discriminate | reflexivity].
Qed.

Lemma make_request_time_raises (endpoint : string) (t : trace) (resp : Response)
      (remaining reset_time : Z) (e : time_error) :
  http_get w (GitHubAnalyzer.base_url ++ endpoint)%string = Answer resp ->
  ~ 400 <= status_code resp < 600 ->
  header_int "X-RateLimit-Remaining" (headers resp) = Ok remaining ->
  header_int "X-RateLimit-Reset" (headers resp) = Ok reset_time ->
  remaining < 10 ->
  fromtimestamp_error w reset_time = Some e ->
  fst (GitHubAnalyzer._make_request w endpoint t) = Raise (exn_of_time_error e).
Proof.
  intros Hr Hs Hrem Hreset Hlow He.
  destruct e; run_request; try bool_lia; reflexivity.
Qed.

(** what comes back is [None] or the decoded body; what is raised is no
    [RequestException] *)
Lemma make_request_outcome (endpoint : string) (t : trace) :
  match fst (GitHubAnalyzer._make_request w endpoint t) with
  | Ok v =>
      v = JNull
      \/ exists resp,
          http_get w (GitHubAnalyzer.base_url ++ endpoint)%string = Answer resp
          /\ ~ 400 <= status_code resp < 600
          /\ json_error resp = None
          /\ body resp = Some v
  | Raise e => is_RequestException e = false
  end.
Proof.
  run_request; try reflexivity; try (now left); try discriminate;
    try assumption;
    try (right; eexists; split; [reflexivity|];
         split; [bool_lia|]; split; assumption).
  all: try match goal with
       | H : header_int _ _ = Raise ?e |- _ =>
           rewrite (header_int_raises _ _ _ H); reflexivity
       end.
  all: match goal with
       | e : time_error |- _ => destruct e; reflexivity
       end.
Qed.

(** [get_user_profile] is [_make_request] after one log record *)
Lemma get_user_profile_run (user : string) (t : trace) :
  GitHubAnalyzer.get_user_profile w user t
  = GitHubAnalyzer._make_request w ("/users/" ++ user)%string
                                 (t ++ [Log INFO "Fetching profile"]).
Proof. reflexivity. Qed.

(** C1, as the code has it: [_make_request] sends one GET.  It returns
    [None] on a network failure and on a status from 400 to 599.  On any
    other status, when the two rate-limit headers are absent or hold
    integers and the platform can convert the reset time where fewer than
    10 requests remain, the outcome is that of decoding the body: the
    decoded value, [None] for a text that is no JSON or when decoding stops
    with a [RequestException], and any other exception of the decoding
    raised to the caller.  A rate-limit header that holds no integer raises
    [ValueError], and with fewer than 10 requests left a reset time that
    cannot be converted raises the converter's exception.  What is returned
    is always [None] or the decoded body of an answer whose status is not
    from 400 to 599, and an exception that leaves is never a
    [RequestException]. *)
Theorem make_request_boundary (endpoint : string) (t : trace) :
  let url := (GitHubAnalyzer.base_url ++ endpoint)%string in
  let run := GitHubAnalyzer._make_request w endpoint t in
  requests_of (snd run) = requests_of t ++ [url]
  /\ match fst run with
     | Ok v =>
         v = JNull
         \/ exists resp,
             http_get w url = Answer resp
             /\ ~ 400 <= status_code resp < 600
             /\ json_error resp = None
             /\ body resp = Some v
     | Raise e => is_RequestException e = false
     end
  /\ (http_get w url = NetworkFailure -> fst run = Ok JNull)
  /\ (forall resp,
        http_get w url = Answer resp ->
        400 <= status_code resp < 600 ->
        fst run = Ok JNull)
  /\ (forall resp remaining reset_time,
        http_get w url = Answer resp ->
        ~ 400 <= status_code resp < 600 ->
        header_int "X-RateLimit-Remaining" (headers resp) = Ok remaining ->
        header_int "X-RateLimit-Reset" (headers resp) = Ok reset_time ->
        10 <= remaining \/ fromtimestamp_error w reset_time = None ->
        fst run = match json_error resp with
                  | Some e => if is_RequestException e then Ok JNull else Raise e
                  | None =>
                      match body resp with
                      | Some v => Ok v
                      | None => Ok JNull
                      end
                  end)
  /\ (forall resp,
        http_get w url = Answer resp ->
        ~ 400 <= status_code resp < 600 ->
        (exists e, header_int "X-RateLimit-Remaining" (headers resp) = Raise e)
        \/ (exists e, header_int "X-RateLimit-Reset" (headers resp) = Raise e) ->
        fst run = Raise ValueError)
  /\ (forall resp remaining reset_time e,
        http_get w url = Answer resp ->
        ~ 400 <= status_code resp < 600 ->
        header_int "X-RateLimit-Remaining" (headers resp) = Ok remaining ->
        header_int "X-RateLimit-Reset" (headers resp) = Ok reset_time ->
        remaining < 10 ->
        fromtimestamp_error w reset_time = Some e ->
        fst run = Raise (exn_of_time_error e)).
Proof.
  intros url run. subst url run.
  split; [apply make_request_one_get|].
  split; [apply make_request_outcome|].
  split; [apply make_request_network_failure|].
  split; [apply make_request_http_error|].
  split; [apply make_request_answer|].
  split; [apply make_request_header_raises | apply make_request_time_raises].
Qed.

End ClientFacts.


Lemma make_request_boundary_witness :
  fst (GitHubAnalyzer._make_request Samples.world_online "/users/dang-w" [])
  = Ok Samples.profile_of_dang_w
  /\ fst (GitHubAnalyzer._make_request Samples.world_offline "/users/dang-w" [])
     = Ok JNull
  /\ fst (GitHubAnalyzer._make_request Samples.world_not_found "/users/dang-w" [])
     = Ok JNull
  /\ fst (GitHubAnalyzer._make_request Samples.world_long_number "/users/dang-w" [])
     = Raise ValueError
  /\ fst (GitHubAnalyzer._make_request Samples.world_odd_header "/users/dang-w" [])
     = Raise ValueError
  /\ fst (GitHubAnalyzer._make_request Samples.world_far_reset "/users/dang-w" [])
     = Raise ValueError.
Proof.
  pose proof (make_request_boundary Samples.world_online "/users/dang-w" []) as H1.
  pose proof (make_request_boundary Samples.world_offline "/users/dang-w" []) as H2.
  pose proof (make_request_boundary Samples.world_not_found "/users/dang-w" []) as H3.
  pose proof (make_request_boundary Samples.world_long_number "/users/dang-w" []) as H4.
  pose proof (make_request_boundary Samples.world_odd_header "/users/dang-w" []) as H5.
  pose proof (make_request_boundary Samples.world_far_reset "/users/dang-w" []) as H6.
  cbv zeta in *.
  destruct H1 as (_ & _ & _ & _ & H1 & _).
  destruct H2 as (_ & _ & H2 & _).
  destruct H3 as (_ & _ & _ & H3 & _).
  destruct H4 as (_ & _ & _ & _ & H4 & _).
  destruct H5 as (_ & _ & _ & _ & _ & H5 & _).
  destruct H6 as (_ & _ & _ & _ & _ & _ & H6).
  split; [|split; [|split; [|split; [|split]]]].
  - apply (H1 Samples.answer_with_profile 4999 1700000000);
      [reflexivity | cbn; lia | reflexivity | reflexivity | left; lia].
  - apply H2. reflexivity.
  - apply (H3 Samples.answer_not_found); [reflexivity | cbn; lia].
  - apply (H4 Samples.answer_long_number 4999 1700000000);
      [reflexivity | cbn; lia | reflexivity | reflexivity | left; lia].
  - apply (H5 Samples.answer_odd_header); [reflexivity | cbn; lia |].
    left. exists ValueError. reflexivity.
  - apply (H6 Samples.answer_far_reset 5 99999999999999 YearOutOfRange);
      [reflexivity | cbn; lia | reflexivity | reflexivity | lia | reflexivity].
Defined.

(** C1 as stated fails, in both directions.  A 200 answer whose rate-limit
    header holds no integer makes [_make_request] raise [ValueError], which
    is no [RequestException] and reaches the caller; so does a body with a
    number of more than 4300 digits.  And an answer with status 300, which
    is not a 2xx status, is not turned into [None]: its decoded body is
    returned. *)
Lemma make_request_raises_ValueError :
  status_code Samples.answer_odd_header = 200
  /\ fst (GitHubAnalyzer._make_request Samples.world_odd_header "/users/dang-w" [])
     = Raise ValueError
  /\ status_code Samples.answer_long_number = 200
  /\ fst (GitHubAnalyzer._make_request Samples.world_long_number "/users/dang-w" [])
     = Raise ValueError
  /\ status_code Samples.answer_multiple_choices = 300
  /\ fst (GitHubAnalyzer._make_request Samples.world_multiple_choices
                                        "/users/dang-w" [])
     = Ok Samples.profile_of_dang_w.
Proof. repeat split; vm_compute; reflexivity. Qed.

(** ** [main] *)

Section MainFacts.
Variable w : world.
Variable steps : string -> Z -> json -> io unit.

Lemma get_user_profile_unavailable (user : string) (t : trace) :
  profile_unavailable w user ->
  fst (GitHubAnalyzer.get_user_profile w user t) = Ok JNull.
Proof.
  intros [Hn|[resp [Hr Hs]]]; rewrite get_user_profile_run.
  - now apply make_request_network_failure.
  - now apply (make_request_http_error w _ _ resp).
Qed.

Lemma get_user_profile_one_get (user : string) (t : trace) :
  requests_of (snd (GitHubAnalyzer.get_user_profile w user t))
  = requests_of t ++ [(GitHubAnalyzer.base_url ++ "/users/" ++ user)%string].
Proof.
  rewrite get_user_profile_run, make_request_one_get, requests_of_app.
  cbn. now rewrite app_nil_r.
Qed.

(** unfolds [main] down to the profile request *)
Ltac run_main :=
  cbv [exit_status main_trace main bind lift ret emit throw try_except];
  repeat match goal with
         | H : ?x = _ |- context [?x] => rewrite H
         end;
  cbn [fst snd app].

(** The exit status of [main], case by case.  A month count that [int]
    refuses ends the process with status 1, whatever else is set.
    Otherwise: without the model-API key [main] returns before any request,
    and when the profile is not to be had it returns after that one
    request; both times the process ends with status 0.  A profile request
    that raises ends it with status 1.  With a profile, the status is 0 when
    steps 2 to 8 return and 1 when they raise. *)
Lemma main_exit_status (env : environ) :
  let user := match GITHUB_USERNAME env with Some u => u | None => "dang-w" end in
  let url := (GitHubAnalyzer.base_url ++ "/users/" ++ user)%string in
  let month_count :=
    match ANALYSIS_MONTHS env with Some s => int_of_str s | None => Ok 12 end in
  (forall e, month_count = Raise e -> exit_status w steps env = 1)
  /\ (forall months,
        month_count = Ok months ->
        (unset (OPENAI_API_KEY env) = true ->
         exit_status w steps env = 0
         /\ requests_of (main_trace w steps env) = [])
        /\ (unset (OPENAI_API_KEY env) = false ->
            profile_unavailable w user ->
            exit_status w steps env = 0
            /\ requests_of (main_trace w steps env) = [url])
        /\ (unset (OPENAI_API_KEY env) = false ->
            (forall t, exists e,
                fst (GitHubAnalyzer.get_user_profile w user t) = Raise e) ->
            exit_status w steps env = 1)
        /\ (forall profile,
              unset (OPENAI_API_KEY env) = false ->
              (forall t, fst (GitHubAnalyzer.get_user_profile w user t) = Ok profile) ->
              (json_truthy profile = false -> exit_status w steps env = 0)
              /\ (json_truthy profile = true ->
                  ((forall t, fst (steps user months profile t) = Ok tt) ->
                   exit_status w steps env = 0)
                  /\ ((forall t, exists e,
                          fst (steps user months profile t) = Raise e) ->
                      exit_status w steps env = 1)))).
Proof.
  intros user url month_count. subst user url month_count. split.
  { intros e He. run_main. reflexivity. }
  intros months Hm. split; [|split; [|split]].
  - intros Hk. run_main. destruct (unset (GITHUB_TOKEN env)); split; reflexivity.
  - intros Hk Hp. run_main.
    destruct (unset (GITHUB_TOKEN env)); cbn [fst snd app];
      match goal with
      | |- context [GitHubAnalyzer.get_user_profile w ?u ?t] =>
          pose proof (get_user_profile_unavailable u t Hp) as Hr;
          pose proof (get_user_profile_one_get u t) as Hg;
          destruct (GitHubAnalyzer.get_user_profile w u t) as [r t']
      end;
      cbn [fst snd] in *; subst r; cbn [json_truthy negb fst snd];
      rewrite requests_of_app, Hg; split; reflexivity.
  - intros Hk Hp. run_main.
    destruct (unset (GITHUB_TOKEN env)); cbn [fst snd app];
      match goal with
      | |- context [GitHubAnalyzer.get_user_profile w ?u ?t] =>
          pose proof (Hp t) as Hr;
          destruct (GitHubAnalyzer.get_user_profile w u t) as [r t']
      end;
      cbn [fst snd] in *; destruct Hr as [e ->]; reflexivity.
  - intros profile Hk Hp. split; [intros Ht | intros Ht; split; intros Hs]; run_main.
    all: destruct (unset (GITHUB_TOKEN env)); cbn [fst snd app];
      match goal with
      | |- context [GitHubAnalyzer.get_user_profile w ?u ?t] =>
          pose proof (Hp t) as Hr;
          destruct (GitHubAnalyzer.get_user_profile w u t) as [r t']
      end;
      cbn [fst snd] in *; subst r; rewrite Ht; cbn [negb fst snd];
      try reflexivity;
      match goal with
      | |- context [steps ?u ?n ?p ?t] =>
          pose proof (Hs t) as Hr; destruct (steps u n p t) as [r t'']
      end;
      cbn [fst snd] in *.
    all: try (subst r; reflexivity).
    all: destruct Hr as [e ->]; reflexivity.
Qed.

End MainFacts.


(** C2: the two failures that the specification calls fatal end the
    process with status 0.  Without the model-API key [main] reports the
    error and returns; with the key, and the host out of reach, the profile
    request gives [None], [main] logs the failure and returns.  An
    exception in the steps that follow does end the process with status 1,
    and so does a missing dependency, which the script checks before it
    runs [main]. *)
Lemma main_exits_zero_on_fatal_errors :
  (unset (OPENAI_API_KEY Samples.env_without_key) = true
   /\ main Samples.world_online Samples.steps_that_return Samples.env_without_key []
      = (Ok tt,
         [Log ERROR "OPENAI_API_KEY environment variable required";
          Print "Missing OpenAI API Key!";
          Print "Please add to .env file: OPENAI_API_KEY=your-api-key-here"])
   /\ exit_status Samples.world_online Samples.steps_that_return
                  Samples.env_without_key = 0)
  /\ (unset (OPENAI_API_KEY Samples.env_with_key) = false
      /\ fst (GitHubAnalyzer.get_user_profile Samples.world_offline "dang-w" [])
         = Ok JNull
      /\ main Samples.world_offline Samples.steps_that_return Samples.env_with_key []
         = (Ok tt,
            [Log INFO "Using authenticated GitHub API";
             Log INFO "Starting GitHub analysis...";
             Log INFO "Fetching profile";
             Get "https://api.github.com/users/dang-w";
             Log ERROR "API request failed";
             Log ERROR "Failed to fetch user profile"])
      /\ exit_status Samples.world_offline Samples.steps_that_return
                     Samples.env_with_key = 0)
  /\ exit_status Samples.world_online Samples.steps_that_raise
                 Samples.env_with_key = 1
  /\ script_exit_status Samples.world_online Samples.steps_that_return
                        false Samples.env_without_key = 1
  /\ script_exit_status Samples.world_online Samples.steps_that_return
                        true Samples.env_without_key = 0.
Proof. repeat split; vm_compute; reflexivity. Qed.


(** ** The repositories that are analysed *)

Lemma string_lt_trans (a b c : string) :
  String.compare a b = Lt -> String.compare b c = Lt -> String.compare a c = Lt.
Proof.
  revert b c. induction a as [|x a IH]; intros [|y b] [|z c]; cbn;
    try congruence.
  unfold Ascii.compare.
  destruct (N.compare_spec (N_of_ascii x) (N_of_ascii y)),
           (N.compare_spec (N_of_ascii y) (N_of_ascii z)),
           (N.compare_spec (N_of_ascii x) (N_of_ascii z));
    try congruence; try lia.
  apply IH.
Qed.

Lemma string_ltb_asym (a b : string) :
  String.ltb a b = true -> String.ltb b a = false.
Proof.
  unfold String.ltb. rewrite (String.compare_antisym b a).
  destruct (String.compare a b); cbn; congruence.
Qed.

Lemma string_geb_trans (a b c : string) :
  String.ltb a b = false -> String.ltb b c = false -> String.ltb a c = false.
Proof.
  unfold String.ltb. intros Hab Hbc.
  destruct (String.compare a c) eqn:Hac; try reflexivity.
  destruct (String.compare a b) eqn:Eab; try discriminate.
  - apply String.compare_eq_iff in Eab. subst b. now rewrite Hac in Hbc.
  - assert (String.compare b a = Lt) as Hba
        by (rewrite String.compare_antisym, Eab; reflexivity).
    now rewrite (string_lt_trans _ _ _ Hba Hac) in Hbc.
Qed.

Lemma StronglySorted_firstn {A} (R : A -> A -> Prop) (n : nat) (l : list A) :
  StronglySorted R l -> StronglySorted R (firstn n l).
Proof.
  intros H. revert n. induction H as [|x l Hl IH Hx]; intros [|n]; cbn;
    try constructor.
  - apply IH.
  - rewrite Forall_forall in *. intros y Hy. apply Hx.
    now apply In_firstn in Hy.
Qed.

(** two timestamps of which neither is below the other are the same text *)
Lemma string_tie_eqb (a b : string) :
  negb (String.ltb a b) && negb (String.ltb b a) = String.eqb a b.
Proof.
  unfold String.ltb. rewrite (String.compare_antisym b a).
  destruct (String.eqb_spec a b) as [->|Hne].
  - assert (String.compare b b = Eq) as ->
        by (clear; induction b as [|c b IH]; cbn; [reflexivity|];
            unfold Ascii.compare; rewrite N.compare_refl; exact IH).
    reflexivity.
  - destruct (String.compare a b) eqn:E; cbn; try reflexivity.
    apply String.compare_eq_iff in E. contradiction.
Qed.

Lemma has_updated_at_stamp (r : Repo) :
  GitHubAnalyzer.has_updated_at r = true ->
  exists s, r_updated_at r = Val s /\ s <> ""%string
            /\ GitHubAnalyzer.updated_at_key r = s.
Proof.
  unfold GitHubAnalyzer.has_updated_at, GitHubAnalyzer.updated_at_key.
  destruct (r_updated_at r) as [| |[|c s]]; try discriminate.
  intros _. exists (String c s). repeat split. discriminate.
Qed.

(** C5: for a listing whose entries carry the keys with the types of the
    host's schema, the selection holds at most 20 repositories, each one of
    the listing with an update timestamp that is a non-empty text, and is
    sorted by timestamp, latest first.  It is the first 20 of a list that
    holds exactly the repositories with a timestamp, latest first, those of
    one timestamp in the order of the listing. *)
Theorem selected_repos_sorted_capped (repos : list Repo) :
  let selected := GitHubAnalyzer.selected_repos repos in
  let stamped (r : Repo) :=
    match r_updated_at r with Val (String _ _) => true | _ => false end in
  let stamp_is (s : string) (r : Repo) :=
    match r_updated_at r with Val t => String.eqb t s | _ => false end in
  let not_before (a b : Repo) :=
    exists sa sb,
      r_updated_at a = Val sa /\ r_updated_at b = Val sb
      /\ String.ltb sa sb = false in
  (List.length selected <= 20)%nat
  /\ (forall r, In r selected ->
                In r repos /\ exists s, r_updated_at r = Val s /\ s <> ""%string)
  /\ StronglySorted not_before selected
  /\ exists sorted,
      selected = firstn 20 sorted
      /\ Permutation sorted (filter stamped repos)
      /\ StronglySorted not_before sorted
      /\ forall s, s <> ""%string ->
                   filter (stamp_is s) sorted = filter (stamp_is s) repos.
Proof.
  intros selected stamped stamp_is not_before.
  set (key := GitHubAnalyzer.updated_at_key).
  set (active := filter GitHubAnalyzer.has_updated_at repos).
  set (sorted := sort_desc key String.ltb active).
  assert (filter stamped repos = active) as Hactive.
  { apply filter_ext. intros r. subst stamped. unfold GitHubAnalyzer.has_updated_at.
    cbv beta. destruct (r_updated_at r) as [| |[|c s]]; reflexivity. }
  pose proof (sort_desc_perm key String.ltb active) as Hperm. fold sorted in Hperm.
  pose proof (sort_desc_sorted key String.ltb string_ltb_asym string_geb_trans
                               active) as Hsorted.
  fold sorted in Hsorted.
  assert (forall r, In r sorted -> In r repos /\ GitHubAnalyzer.has_updated_at r = true)
    as Hin.
  { intros r Hr. apply (Permutation_in _ Hperm) in Hr. now apply filter_In in Hr. }
  assert (StronglySorted not_before sorted) as Hnb.
  { apply (StronglySorted_impl_in (desc key String.ltb)); [|exact Hsorted].
    intros x y Hx Hy Hxy.
    destruct (has_updated_at_stamp x (proj2 (Hin x Hx))) as (sx & Ex & _ & Kx).
    destruct (has_updated_at_stamp y (proj2 (Hin y Hy))) as (sy & Ey & _ & Ky).
    exists sx, sy. split; [exact Ex|]. split; [exact Ey|].
    unfold desc in Hxy. subst key. rewrite Kx, Ky in Hxy. exact Hxy. }
  assert (selected = firstn 20 sorted) as Hsel by reflexivity.
  split; [rewrite Hsel; apply firstn_le_length|].
  split.
  { intros r Hr. rewrite Hsel in Hr. apply In_firstn in Hr.
    destruct (Hin r Hr) as [Hrepos Hhas]. split; [exact Hrepos|].
    destruct (has_updated_at_stamp r Hhas) as (s & Es & Hs & _). eauto. }
  split; [rewrite Hsel; apply StronglySorted_firstn, Hnb|].
  exists sorted. split; [exact Hsel|].
  split; [rewrite Hactive; exact Hperm|]. split; [exact Hnb|].
  intros s Hs.
  assert (filter (stamp_is s) repos = filter (stamp_is s) active) as ->.
  { subst active. clear -Hs. induction repos as [|r repos IH]; [reflexivity|].
    cbn [filter]. subst stamp_is. cbv beta.
    unfold GitHubAnalyzer.has_updated_at at 1.
    destruct (r_updated_at r) as [| |t] eqn:Et; try exact IH.
    destruct (String.eqb_spec t s) as [->|Hne].
    - destruct s as [|c s]; [contradiction|]. cbn [Str.truthy filter].
      rewrite Et, String.eqb_refl. f_equal. exact IH.
    - destruct (Str.truthy t); [|exact IH]. cbn [filter]. rewrite Et.
      destruct (String.eqb_spec t s); [contradiction | exact IH]. }
  destruct (filter (stamp_is s) active) as [|r0 rest] eqn:E0.
  - (* no repository carries this timestamp *)
    destruct (filter (stamp_is s) sorted) as [|r1 rest1] eqn:E1; [reflexivity|].
    assert (In r1 (filter (stamp_is s) sorted)) as H1 by (rewrite E1; now left).
    apply filter_In in H1 as [H1 H1'].
    apply (Permutation_in _ Hperm) in H1.
    assert (In r1 (filter (stamp_is s) active)) as H2
        by (apply filter_In; split; assumption).
    rewrite E0 in H2. destruct H2.
  - assert (In r0 (filter (stamp_is s) active)) as H0 by (rewrite E0; now left).
    apply filter_In in H0 as [H0 H0'].
    assert (GitHubAnalyzer.has_updated_at r0 = true) as Hr0
        by (subst active; now apply filter_In in H0).
    destruct (has_updated_at_stamp r0 Hr0) as (s0 & Es0 & _ & Ks0).
    assert (s0 = s) as ->.
    { subst stamp_is. cbv beta in H0'. rewrite Es0 in H0'.
      now apply String.eqb_eq in H0'. }
    assert (forall l, (forall r, In r l -> GitHubAnalyzer.has_updated_at r = true) ->
                      filter (stamp_is s) l = filter (tie key String.ltb r0) l) as Hext.
    { intros l Hl. apply filter_ext_in. intros r Hr.
      destruct (has_updated_at_stamp r (Hl r Hr)) as (sr & Er & _ & Kr).
      subst stamp_is. cbv beta. unfold tie. subst key. rewrite Er, Kr, Ks0.
      rewrite string_tie_eqb. apply String.eqb_sym. }
    rewrite <- E0.
    rewrite (Hext sorted (fun r Hr => proj2 (Hin r Hr))).
    rewrite (Hext active).
    + apply sort_desc_stable. exact string_geb_trans.
    + intros r Hr. subst active. now apply filter_In in Hr.
Qed.

Lemma selected_repos_sorted_capped_witness :
  map r_name (GitHubAnalyzer.selected_repos Samples.repos_with_ties)
  = ["new"; "tie-first"; "tie-second"; "old"]
  /\ (List.length (GitHubAnalyzer.selected_repos Samples.repos_with_ties) <= 20)%nat
  /\ (forall r, In r (GitHubAnalyzer.selected_repos Samples.repos_with_ties) ->
                In r Samples.repos_with_ties
                /\ exists s, r_updated_at r = Val s /\ s <> ""%string)
  /\ List.length (GitHubAnalyzer.selected_repos
                    (Samples.repos_with_ties ++ Samples.repos_with_ties
                     ++ Samples.repos_with_ties ++ Samples.repos_with_ties
                     ++ Samples.repos_with_ties ++ Samples.repos_with_ties))
     = 20%nat.
Proof.
  split; [vm_compute; reflexivity|].
  destruct (selected_repos_sorted_capped Samples.repos_with_ties) as (H1 & H2 & _).
  split; [exact H1|]. split; [exact H2|].
  vm_compute. reflexivity.
Defined.

(** ** The documentation score *)

Lemma prefix_lower (p s : string) :
  String.prefix p s = true -> String.prefix (Str.lower p) (Str.lower s) = true.
Proof.
  revert p. induction s as [|b s IH]; intros [|a p]; cbn; try congruence.
  destruct (ascii_dec a b) as [->|]; [|discriminate].
  intros H. destruct (ascii_dec (Str.lower_char b) (Str.lower_char b));
    [apply IH, H | congruence].
Qed.

Lemma contains_lower (needle hay : string) :
  Str.contains needle hay = true ->
  Str.contains (Str.lower needle) (Str.lower hay) = true.
Proof.
  induction hay as [|c hay IH]; cbn [Str.contains Str.lower]; intros H;
    apply orb_true_iff in H; apply orb_true_iff.
  - destruct H as [H|H]; [|discriminate]. left. apply (prefix_lower _ ""), H.
  - destruct H as [H|H]; [left; apply (prefix_lower _ (String c hay)), H|].
    right. apply IH, H.
Qed.

(** the score is the one that goes with the five conditions *)
Lemma score_by_conditions (content : string) :
  GitHubAnalyzer._score_readme_quality (Some content)
  = GitHubAnalyzer.score_of_conditions (GitHubAnalyzer.readme_conditions content).
Proof.
  destruct content as [|c content]; [reflexivity|].
  unfold GitHubAnalyzer._score_readme_quality, GitHubAnalyzer.readme_conditions,
    GitHubAnalyzer.score_of_conditions.
  cbn [Str.truthy negb fold_left].
  repeat match goal with
         | |- context [if ?b then _ else _] => destruct b
         end; reflexivity.
Qed.

(** the 32 answers five conditions can give *)
Lemma score_of_five_range (a b c d e : bool) :
  PrimFloat.leb 0 (GitHubAnalyzer.score_of_conditions [a; b; c; d; e]) = true
  /\ PrimFloat.leb (GitHubAnalyzer.score_of_conditions [a; b; c; d; e]) 1 = true.
Proof. destruct a, b, c, d, e; split; reflexivity. Qed.

Lemma score_of_five_mono (a b c d e a' b' c' d' e' : bool) :
  (a = true -> a' = true) -> (b = true -> b' = true) ->
  (c = true -> c' = true) -> (d = true -> d' = true) ->
  (e = true -> e' = true) ->
  PrimFloat.leb (GitHubAnalyzer.score_of_conditions [a; b; c; d; e])
                (GitHubAnalyzer.score_of_conditions [a'; b'; c'; d'; e']) = true.
Proof.
  intros Ha Hb Hc Hd He.
  destruct a, b, c, d, e, a', b', c', d', e'; try reflexivity;
    first [discriminate (Ha eq_refl) | discriminate (Hb eq_refl)
          | discriminate (Hc eq_refl) | discriminate (Hd eq_refl)
          | discriminate (He eq_refl)].
Qed.

Lemma score_of_five_count (a b c d e : bool) :
  (GitHubAnalyzer.count_true [a; b; c; d; e] = 0%nat ->
   GitHubAnalyzer.score_of_conditions [a; b; c; d; e] = 0%float)
  /\ (GitHubAnalyzer.count_true [a; b; c; d; e] = 1%nat ->
      GitHubAnalyzer.score_of_conditions [a; b; c; d; e] = 0.2%float).
Proof.
  destruct a, b, c, d, e; split; intros H; try discriminate H; reflexivity.
Qed.

(** C6: absent and empty content score 0.0; the score lies between 0.0 and
    1.0; it does not decrease when conditions are added; content that meets
    none of the five conditions scores 0.0 and content that meets exactly
    one scores exactly 0.2, whichever it is; each of the five can be met
    alone; and a README of 600 characters with the words installation and
    example, a code fence and four heading marks scores exactly 1.0. *)
Theorem readme_score_by_conditions :
  let score := GitHubAnalyzer._score_readme_quality in
  let conditions := GitHubAnalyzer.readme_conditions in
  (score None = 0%float /\ score (Some "") = 0%float)
  /\ (forall c,
        PrimFloat.leb 0 (score (Some c)) = true
        /\ PrimFloat.leb (score (Some c)) 1 = true)
  /\ (forall c c',
        (forall i, nth i (conditions c) false = true ->
                   nth i (conditions c') false = true) ->
        PrimFloat.leb (score (Some c)) (score (Some c')) = true)
  /\ (forall c,
        (GitHubAnalyzer.count_true (conditions c) = 0%nat ->
         score (Some c) = 0%float)
        /\ (GitHubAnalyzer.count_true (conditions c) = 1%nat ->
            score (Some c) = 0.2%float))
  /\ (forall i, (i < 5)%nat ->
        exists c, forall j, nth j (conditions c) false = Nat.eqb i j)
  /\ (forall c,
        String.length c = 600%nat ->
        Str.contains "installation" c = true ->
        Str.contains "example" c = true ->
        Str.contains "```" c = true ->
        4 <= Str.count_char "#" c ->
        score (Some c) = 1%float).
Proof.
  intros score conditions. subst score conditions.
  split; [split; reflexivity|].
  split; [intros c; rewrite score_by_conditions; apply score_of_five_range|].
  split.
  { intros c c' H. rewrite !score_by_conditions.
    apply score_of_five_mono;
      [exact (H 0%nat) | exact (H 1%nat) | exact (H 2%nat) | exact (H 3%nat)
       | exact (H 4%nat)]. }
  split; [intros c; rewrite score_by_conditions; apply score_of_five_count|].
  split.
  { intros i Hi.
    destruct i as [|[|[|[|[|i]]]]]; [| | | | |lia].
    - exists (Samples.letters 501).
      intros [|[|[|[|[|j]]]]]; try (vm_compute; reflexivity). now destruct j.
    - exists "setup".
      intros [|[|[|[|[|j]]]]]; try (vm_compute; reflexivity). now destruct j.
    - exists "usage".
      intros [|[|[|[|[|j]]]]]; try (vm_compute; reflexivity). now destruct j.
    - exists "```".
      intros [|[|[|[|[|j]]]]]; try (vm_compute; reflexivity). now destruct j.
    - exists "###".
      intros [|[|[|[|[|j]]]]]; try (vm_compute; reflexivity). now destruct j. }
  intros c Hlen Hinst Hex Hfence Hmarks.
  rewrite score_by_conditions.
  unfold GitHubAnalyzer.readme_conditions, Str.len.
  rewrite Hlen, Hfence.
  pose proof (contains_lower "installation" c Hinst) as Hi.
  pose proof (contains_lower "example" c Hex) as He.
  change (Str.lower "installation") with "installation" in Hi.
  change (Str.lower "example") with "example" in He.
  rewrite Hi, He.
  replace (3 <=? Str.count_char "#" c) with true
    by (symmetry; apply Z.leb_le; lia).
  rewrite orb_true_r. reflexivity.
Qed.

Lemma readme_score_by_conditions_witness :
  GitHubAnalyzer._score_readme_quality (Some Samples.readme_600) = 1%float.
Proof.
  pose proof readme_score_by_conditions as H. cbv zeta in H.
  destruct H as (_ & _ & _ & _ & _ & H).
  apply H; vm_compute; solve [reflexivity | discriminate].
Defined.

(** ** The technical skills *)

Lemma dict_set_In {V} (k k' : string) (v v' : V) (d : Dict.t V) :
  In (k, v) (Dict.set k' v' d) -> (k, v) = (k', v') \/ In (k, v) d.
Proof.
  induction d as [|[k0 v0] d IH]; cbn.
  - intros [H|[]]. left. now symmetry.
  - destruct (String.eqb_spec k' k0) as [->|Hne]; cbn.
    + intros [H|H]; [left; now symmetry | right; now right].
    + intros [H|H]; [right; now left|].
      destruct (IH H) as [E|E]; [now left | right; now right].
Qed.

Lemma dict_set_key {V} (k : string) (v : V) (d : Dict.t V) :
  In k (Dict.keys (Dict.set k v d)).
Proof.
  unfold Dict.keys. induction d as [|[k0 v0] d IH]; cbn; [now left|].
  destruct (String.eqb_spec k k0) as [->|Hne]; cbn; [now left | now right].
Qed.

Lemma dict_set_keeps {V} (k k' : string) (v' : V) (d : Dict.t V) :
  In k (Dict.keys d) -> In k (Dict.keys (Dict.set k' v' d)).
Proof.
  unfold Dict.keys. induction d as [|[k0 v0] d IH]; cbn; [intros []|].
  destruct (String.eqb_spec k' k0) as [->|Hne]; cbn; intros [H|H]; auto.
Qed.

(** what the loop over the most common extensions leaves in the table *)
Lemma skills_loop_table (usage : Counter.t) (items : list (string * Z))
      (acc d : Dict.t float) :
  skills_loop usage items acc = Ok d ->
  (forall lang v,
      In (lang, v) d ->
      In (lang, v) acc
      \/ exists count,
          In (lang, count) items /\ excluded lang = false
          /\ proficiency count (max_count usage) = Ok v)
  /\ (forall lang, In lang (Dict.keys acc) -> In lang (Dict.keys d))
  /\ (forall lang count,
         In (lang, count) items -> excluded lang = false ->
         In lang (Dict.keys d)).
Proof.
  revert acc. induction items as [|[lang0 count0] items IH]; intros acc;
    cbn [skills_loop].
  - intros [= <-]. repeat split; auto. intros ? ? [].
  - destruct (excluded lang0) eqn:Ex.
    + intros H. destruct (IH _ H) as (H1 & H2 & H3). repeat split.
      * intros lang v Hin. destruct (H1 _ _ Hin) as [Ha|(c & Hc & He & Hp)];
          [now left | right; exists c; repeat split; auto; now right].
      * exact H2.
      * intros lang count [[= -> ->]|Hin] He; [congruence | eauto].
    + destruct (proficiency count0 (max_count usage)) as [p|e] eqn:Ep;
        [|discriminate].
      intros H. destruct (IH _ H) as (H1 & H2 & H3). repeat split.
      * intros lang v Hin. destruct (H1 _ _ Hin) as [Ha|(c & Hc & He & Hp)].
        -- apply dict_set_In in Ha. destruct Ha as [[= -> ->]|Ha];
             [right; exists count0; repeat split; auto; now left | now left].
        -- right. exists c. repeat split; auto; now right.
      * intros lang Hin. apply H2, dict_set_keeps, Hin.
      * intros lang count [[= -> ->]|Hin] He; [apply H2, dict_set_key | eauto].
Qed.


Lemma max_count_is_max (usage : Counter.t) (lang : string) (count : Z) :
  In (lang, count) usage -> count <= max_count usage.
Proof.
  intros Hin. unfold max_count, Counter.most_common.
  pose proof (sort_desc_sorted snd Z.ltb Zltb_asym Zgeb_trans usage) as Hs.
  apply (sort_desc_In snd Z.ltb) in Hin.
  destruct (sort_desc snd Z.ltb usage) as [|[k n] rest]; [destruct Hin|].
  cbn [firstn]. inversion Hs as [|? ? _ Hall]; subst.
  destruct Hin as [[= -> ->]|Hin]; [lia|].
  rewrite Forall_forall in Hall. specialize (Hall _ Hin).
  unfold desc in Hall. cbn in Hall. apply Z.ltb_ge in Hall. exact Hall.
Qed.

Lemma dict_get_absent {V} (k : string) (d : Dict.t V) :
  ~ In k (Dict.keys d) -> Dict.get k d = None.
Proof.
  unfold Dict.get, Dict.keys. intros Hk.
  destruct (find (fun kv => String.eqb k (fst kv)) d) as [[k' v]|] eqn:E;
    [|reflexivity].
  apply find_some in E. destruct E as [Hin Heq]. cbn in Heq.
  apply String.eqb_eq in Heq. subst k'.
  exfalso. apply Hk. apply in_map_iff. exists (k, v). auto.
Qed.

Lemma excluded_extensions_excluded (ext : string) :
  In ext excluded_extensions -> excluded ext = true.
Proof.
  intros Hin.
  assert (forallb excluded excluded_extensions = true) as H
      by (vm_compute; reflexivity).
  rewrite forallb_forall in H. exact (H _ Hin).
Qed.

Lemma nearest_tenth_upto_200 (count max_count : Z) (v : float) :
  1 <= count <= max_count -> max_count <= 200 ->
  proficiency count max_count = Ok v ->
  is_nearest_tenth count max_count v = true.
Proof.
  intros Hc Hm Hv.
  assert (forallb nearest_tenth_upto (map Z.of_nat (seq 1 200)) = true) as H
      by (vm_compute; reflexivity).
  rewrite forallb_forall in H.
  assert (nearest_tenth_upto max_count = true) as Hmax.
  { apply H. apply in_map_iff. exists (Z.to_nat max_count).
    split; [lia | apply in_seq; lia]. }
  unfold nearest_tenth_upto in Hmax. rewrite forallb_forall in Hmax.
  assert (In count (map Z.of_nat (seq 1 (Z.to_nat max_count)))) as Hin.
  { apply in_map_iff. exists (Z.to_nat count). split; [lia | apply in_seq; lia]. }
  specialize (Hmax _ Hin). now rewrite Hv in Hmax.
Qed.

(** C8: in an assessment the parser returns, no extension of the denylist
    is a key of the technical skills, whatever its count; the keys are the
    other extensions among the ten most common, each with the score
    [round(min(10, (count / max_count) * 10), 1)], where [max_count] is the
    largest count of the tally, denylisted extensions included; for counts
    up to 200 that score is the float of a tenth nearest to
    [10 * count / max_count]; and on the tally of any commits the parser
    returns.  In the sample, [md] is the most frequent extension and [py]
    is the only skill. *)
Theorem technical_skills_without_denylist :
  (forall text usage a,
      _parse_ai_response text usage = Ok a ->
      (forall lang,
          excluded lang = true -> ~ In lang (Dict.keys (technical_skills a)))
      /\ (forall ext,
             In ext excluded_extensions ->
             Dict.get ext (technical_skills a) = None)
      /\ (forall lang v,
             In (lang, v) (technical_skills a) ->
             exists count,
               In (lang, count) (Counter.most_common 10 usage)
               /\ proficiency count (max_count usage) = Ok v)
      /\ (forall lang count,
             In (lang, count) (Counter.most_common 10 usage) ->
             excluded lang = false ->
             In lang (Dict.keys (technical_skills a))))
  /\ (forall usage lang count, In (lang, count) usage -> count <= max_count usage)
  /\ (forall count max_count v,
         1 <= count <= max_count -> max_count <= 200 ->
         proficiency count max_count = Ok v ->
         is_nearest_tenth count max_count v = true)
  /\ (forall text commits,
         exists a, _parse_ai_response text (language_usage_of commits) = Ok a)
  /\ (exists a,
         _parse_ai_response "" (language_usage_of Samples.commits_docs_first) = Ok a
         /\ Counter.most_common 1 (language_usage_of Samples.commits_docs_first)
            = [("md", 3)]
         /\ technical_skills a = [("py", 3.3%float)]).
Proof.
  split; [|split; [|split; [|split]]].
  - intros text usage a H. apply parse_fields in H. destruct H as (H & _).
    apply skills_loop_table in H. destruct H as (H1 & _ & H3).
    assert (forall lang,
               excluded lang = true -> ~ In lang (Dict.keys (technical_skills a)))
      as Hex.
    { intros lang He Hin. unfold Dict.keys in Hin.
      apply in_map_iff in Hin. destruct Hin as ([k v] & Hk & Hin).
      cbn in Hk. subst k.
      destruct (H1 _ _ Hin) as [[]|(c & _ & Hf & _)]. congruence. }
    split; [exact Hex|]. split; [|split].
    + intros ext Hin. apply dict_get_absent, Hex, excluded_extensions_excluded, Hin.
    + intros lang v Hin.
      destruct (H1 _ _ Hin) as [[]|(c & Hc & _ & Hp)]. exists c. auto.
    + exact H3.
  - exact max_count_is_max.
  - exact nearest_tenth_upto_200.
  - intros text commits. apply parse_returns, language_usage_positive.
  - eexists. split; [vm_compute; reflexivity|]. split; vm_compute; reflexivity.
Qed.

Lemma technical_skills_without_denylist_witness :
  exists a,
    _parse_ai_response "" (language_usage_of Samples.commits_docs_first) = Ok a
    /\ Dict.get "md" (technical_skills a) = None.
Proof.
  destruct (_parse_ai_response ""
              (language_usage_of Samples.commits_docs_first)) as [a|e] eqn:E;
    [|vm_compute in E; discriminate E].
  exists a. split; [reflexivity|].
  destruct (proj1 technical_skills_without_denylist _ _ a E) as (_ & H & _).
  apply H. vm_compute. tauto.
Defined.

(** ** The collaboration score *)

(** signs through rounding: a mantissa that is not negative stays so *)

Lemma iter_pos_invariant {A} (P : A -> Prop) (f : A -> A) (n : positive) (x : A) :
  (forall y, P y -> P (f y)) -> P x -> P (iter_pos f n x).
Proof.
  intros Hf. revert x. induction n as [n IH|n IH|]; intros x Hx; cbn; auto.
Qed.

Lemma shr_1_nonneg (mrs : shr_record) : 0 <= shr_m mrs -> 0 <= shr_m (shr_1 mrs).
Proof.
  destruct mrs as [m r s]. cbn. destruct m as [|[p|p|]|[p|p|]]; cbn; lia.
Qed.

Lemma shr_fexp_nonneg (m e : Z) (l : location) :
  0 <= m -> 0 <= shr_m (fst (shr_fexp prec emax m e l)).
Proof.
  intros Hm. unfold shr_fexp, shr.
  assert (0 <= shr_m (shr_record_of_loc m l)) as H0
      by (destruct l as [|[]]; exact Hm).
  destruct (fexp prec emax (Zdigits2 m + e) - e) as [|p|p]; cbn [fst]; auto.
  apply iter_pos_invariant; [apply shr_1_nonneg | exact H0].
Qed.

Lemma round_nearest_even_nonneg (m : Z) (l : location) :
  0 <= m -> 0 <= round_nearest_even m l.
Proof.
  intros Hm. destruct l as [|[]]; cbn; try lia. destruct (Z.even m); lia.
Qed.

Lemma binary_round_aux_nonneg (mx ex : Z) (lx : location) :
  0 <= mx -> Float.nonneg_sf (binary_round_aux prec emax false mx ex lx) = true.
Proof.
  intros Hm. unfold binary_round_aux.
  pose proof (shr_fexp_nonneg mx ex lx Hm) as H1.
  destruct (shr_fexp prec emax mx ex lx) as [mrs' e']. cbn [fst] in H1.
  pose proof (shr_fexp_nonneg _ e' loc_Exact
                (round_nearest_even_nonneg _ (loc_of_shr_record mrs') H1)) as H2.
  destruct (shr_fexp prec emax (round_nearest_even (shr_m mrs') (loc_of_shr_record mrs'))
                     e' loc_Exact) as [mrs'' e''].
  cbn [fst] in H2.
  destruct (shr_m mrs'') as [|m|m]; [reflexivity | | lia].
  destruct (e'' <=? emax - prec); reflexivity.
Qed.

Lemma binary_round_nonneg (m : positive) (e : Z) :
  Float.nonneg_sf (binary_round prec emax false m e) = true.
Proof.
  unfold binary_round.
  destruct (shl_align m e (fexp prec emax (Z.pos (digits2_pos m) + e))) as [mz ez].
  apply binary_round_aux_nonneg. lia.
Qed.

Lemma SFmul_nonneg (x : spec_float) (my : positive) (ey : Z) :
  Float.nonneg_sf x = true -> Float.nonneg_sf (SFmul prec emax x (S754_finite false my ey)) = true.
Proof.
  destruct x as [[]|[]| |[] mx ex]; cbn [Float.nonneg_sf SFmul xorb]; try discriminate;
    try reflexivity.
  intros _. apply binary_round_aux_nonneg. lia.
Qed.

Lemma SFadd_nonneg (x y : spec_float) :
  Float.nonneg_sf x = true -> Float.nonneg_sf y = true -> Float.nonneg_sf (SFadd prec emax x y) = true.
Proof.
  destruct x as [[]|[]| |[] mx ex], y as [[]|[]| |[] my ey];
    cbn [Float.nonneg_sf SFadd]; try discriminate; try reflexivity.
  intros _ _. cbn [cond_Zopp Z.add binary_normalize].
  apply binary_round_nonneg.
Qed.

Lemma SFdiv_nonneg (x : spec_float) (my : positive) (ey : Z) :
  Float.nonneg_sf x = true -> Float.nonneg_sf (SFdiv prec emax x (S754_finite false my ey)) = true.
Proof.
  destruct x as [[]|[]| |[] mx ex]; cbn [Float.nonneg_sf SFdiv xorb]; try discriminate;
    try reflexivity.
  intros _. unfold SFdiv_core_binary.
  set (s := _ - _ - Z.min _ _).
  set (m' := match s with Z.pos _ => _ | 0 => _ | Z.neg _ => _ end).
  assert (0 <= m') as Hm'.
  { subst m'. destruct s; try lia. apply Z.shiftl_nonneg. lia. }
  pose proof (Z.div_pos m' (Z.pos my) Hm' ltac:(lia)) as Hq.
  unfold Z.div in Hq.
  destruct (Z.div_eucl m' (Z.pos my)) as [q r]. cbn [fst] in Hq.
  apply binary_round_aux_nonneg, Hq.
Qed.

Lemma digits2_pos_size (p : positive) : digits2_pos p = Pos.size p.
Proof. induction p; cbn; congruence. Qed.

Lemma digits2_pos_le (p : positive) (n : Z) :
  0 <= n -> Z.pos p < 2 ^ n -> Z.pos (digits2_pos p) <= n.
Proof.
  intros Hn Hp. rewrite digits2_pos_size.
  pose proof (Pos.size_le p) as Hs.
  destruct (Z_le_gt_dec (Z.pos (Pos.size p)) n) as [|Hgt]; [assumption|exfalso].
  assert (2 ^ (n + 1) <= 2 ^ Z.pos (Pos.size p)) as Hpow
      by (apply Z.pow_le_mono_r; lia).
  rewrite Z.pow_add_r in Hpow by lia.
  assert (Z.pos (2 ^ Pos.size p) <= Z.pos p~0) as Hs' by exact Hs.
  rewrite Pos2Z.inj_pow in Hs'. lia.
Qed.

Lemma digits2_pos_iter_xO (p k : positive) :
  Z.pos (digits2_pos (Pos.iter xO p k)) = Z.pos (digits2_pos p) + Z.pos k.
Proof.
  induction k as [|k IH] using Pos.peano_ind.
  - cbn. lia.
  - rewrite Pos.iter_succ. cbn [digits2_pos]. lia.
Qed.

(** an integer from 1 below 2^53 converts to a finite positive float *)
Lemma binary_round_int_finite (p : positive) :
  Z.pos p < 2 ^ 53 ->
  exists m e, binary_round prec emax false p 0 = S754_finite false m e /\ e <= 0.
Proof.
  intros Hp. pose proof (digits2_pos_le p 53 ltac:(lia) Hp) as Hd.
  unfold binary_round, shl_align.
  assert (fexp prec emax (Z.pos (digits2_pos p) + 0) = Z.pos (digits2_pos p) - 53)
    as Hf by (unfold fexp, SpecFloat.emin, prec, emax; lia).
  rewrite Hf.
  assert (forall mz ez,
             Z.pos (digits2_pos mz) + ez = Z.pos (digits2_pos p) ->
             ez = Z.pos (digits2_pos p) - 53 ->
             exists m e,
               binary_round_aux prec emax false (Z.pos mz) ez loc_Exact
               = S754_finite false m e /\ e <= 0) as Haux.
  { intros mz ez Hz He. exists mz, ez. split; [|lia].
    unfold binary_round_aux, shr_fexp.
    cbn [Zdigits2 shr_record_of_loc].
    assert (fexp prec emax (Z.pos (digits2_pos mz) + ez) - ez = 0) as H0
        by (unfold fexp, SpecFloat.emin, prec, emax; lia).
    rewrite H0. cbn [shr shr_m loc_of_shr_record round_nearest_even Zdigits2
                     shr_record_of_loc].
    rewrite H0. cbn [shr shr_m].
    replace (ez <=? emax - prec) with true; [reflexivity|].
    symmetry. apply Z.leb_le. unfold prec, emax. lia. }
  destruct (Z.pos (digits2_pos p) - 53 - 0) as [|k|k] eqn:Ek; try lia.
  - apply Haux; lia.
  - apply Haux; [rewrite digits2_pos_iter_xO; lia | lia].
Qed.

Lemma of_int_spec (n : Z) :
  0 <= n < 2 ^ 63 ->
  Prim2SF (Float.of_int n) = binary_normalize prec emax n 0 false.
Proof.
  intros Hn. unfold Float.of_int.
  destruct (Z.ltb_spec n 0) as [|_]; [lia|].
  rewrite of_uint63_spec, Uint63.of_Z_spec, Z.mod_small; [reflexivity|].
  exact Hn.
Qed.

Lemma of_int_nonneg (n : Z) :
  0 <= n < 2 ^ 63 -> Float.nonneg_sf (Prim2SF (Float.of_int n)) = true.
Proof.
  intros Hn. rewrite of_int_spec by exact Hn.
  destruct n as [|p|p]; [reflexivity | apply binary_round_nonneg | lia].
Qed.

Lemma of_int_finite (n : Z) :
  1 <= n < 2 ^ 53 ->
  exists m e, Prim2SF (Float.of_int n) = S754_finite false m e.
Proof.
  intros Hn. rewrite of_int_spec by lia.
  destruct n as [|p|p]; try lia.
  destruct (binary_round_int_finite p) as (m & e & H & _); [lia|]. eauto.
Qed.

(** *** No overflow, no NaN

    The products of the score stay far from the largest float, so their
    sum is a number even when the count of original repositories is
    negative. *)

Lemma finite_mantissa_bound (x : float) (s : bool) (m : positive) (e : Z) :
  Prim2SF x = S754_finite s m e -> Z.pos m < 2 ^ 53.
Proof.
  intros Hx. pose proof (FloatAxioms.Prim2SF_valid x) as Hv. rewrite Hx in Hv.
  cbn [valid_binary] in Hv. unfold bounded, canonical_mantissa in Hv.
  apply andb_true_iff in Hv as [Hc _]. apply Z.eqb_eq in Hc.
  assert (Z.pos (digits2_pos m) <= 53) as Hd
      by (unfold fexp, SpecFloat.emin, prec, emax in Hc; lia).
  rewrite digits2_pos_size in Hd.
  pose proof (Pos.size_gt m) as Hgt.
  assert (Z.pos m < Z.pos (2 ^ Pos.size m)) as Hlt by exact Hgt.
  rewrite Pos2Z.inj_pow in Hlt.
  assert (2 ^ Z.pos (Pos.size m) <= 2 ^ 53) by (apply Z.pow_le_mono_r; lia).
  lia.
Qed.

Lemma shr_1_le (mrs : shr_record) :
  0 <= shr_m mrs -> 0 <= shr_m (shr_1 mrs) <= shr_m mrs.
Proof.
  destruct mrs as [m r s]. cbn. destruct m as [|[p|p|]|[p|p|]]; cbn; lia.
Qed.

Lemma shr_fexp_le (m e : Z) (l : location) :
  0 <= m -> 0 <= shr_m (fst (shr_fexp prec emax m e l)) <= m.
Proof.
  intros Hm. unfold shr_fexp, shr.
  assert (shr_m (shr_record_of_loc m l) = m) as H0 by (destruct l as [|[]]; reflexivity).
  destruct (fexp prec emax (Zdigits2 m + e) - e) as [|p|p]; cbn [fst];
    rewrite ?H0; try lia.
  apply (iter_pos_invariant (fun y => 0 <= shr_m y <= m)).
  - intros y Hy. pose proof (shr_1_le y ltac:(lia)). lia.
  - rewrite H0. lia.
Qed.

Lemma shr_fexp_exponent (m e : Z) (l : location) :
  snd (shr_fexp prec emax m e l) = Z.max e (fexp prec emax (Zdigits2 m + e)).
Proof.
  unfold shr_fexp, shr.
  destruct (fexp prec emax (Zdigits2 m + e) - e) eqn:E; cbn [snd]; lia.
Qed.

Lemma Zdigits2_le (m k : Z) : 0 <= k -> 0 <= m < 2 ^ k -> Zdigits2 m <= k.
Proof.
  intros Hk Hm. destruct m as [|p|p]; cbn [Zdigits2]; try lia.
  apply digits2_pos_le; lia.
Qed.

Lemma round_nearest_even_le (m : Z) (l : location) :
  round_nearest_even m l <= m + 1.
Proof. destruct l as [|[]]; cbn; try lia. destruct (Z.even m); lia. Qed.

(** rounding a small mantissa at a small exponent does not overflow *)
Lemma binary_round_aux_finite (s : bool) (mx ex : Z) (lx : location) (k : Z) :
  0 <= k <= 200 -> 0 <= mx < 2 ^ k -> k + ex <= 200 ->
  Float.finite_sf (binary_round_aux prec emax s mx ex lx) = true.
Proof.
  intros Hk Hm He. unfold binary_round_aux.
  pose proof (shr_fexp_le mx ex lx ltac:(lia)) as H1.
  pose proof (shr_fexp_exponent mx ex lx) as E1.
  pose proof (Zdigits2_le mx k ltac:(lia) Hm) as D1.
  destruct (shr_fexp prec emax mx ex lx) as [mrs' e']. cbn [fst snd] in H1, E1.
  pose proof (round_nearest_even_nonneg _ (loc_of_shr_record mrs') (proj1 H1)) as H2.
  pose proof (round_nearest_even_le (shr_m mrs') (loc_of_shr_record mrs')) as H2'.
  set (m2 := round_nearest_even (shr_m mrs') (loc_of_shr_record mrs')) in *.
  assert (0 <= m2 < 2 ^ (k + 1)) as Hm2
      by (rewrite Z.pow_add_r by lia; change (2 ^ 1) with 2; lia).
  pose proof (Zdigits2_le m2 (k + 1) ltac:(lia) Hm2) as D2.
  pose proof (shr_fexp_le m2 e' loc_Exact (proj1 Hm2)) as H3.
  pose proof (shr_fexp_exponent m2 e' loc_Exact) as E2.
  destruct (shr_fexp prec emax m2 e' loc_Exact) as [mrs'' e''].
  cbn [fst snd] in H3, E2.
  destruct (shr_m mrs'') as [|m|m]; [reflexivity | | lia].
  replace (e'' <=? emax - prec) with true; [reflexivity|].
  symmetry. apply Z.leb_le.
  unfold fexp, SpecFloat.emin, prec, emax in *. lia.
Qed.

Lemma binary_round_aux_number (s : bool) (mx ex : Z) (lx : location) :
  0 <= mx -> Float.number_sf (binary_round_aux prec emax s mx ex lx) = true.
Proof.
  intros Hm. unfold binary_round_aux.
  pose proof (shr_fexp_nonneg mx ex lx Hm) as H1.
  destruct (shr_fexp prec emax mx ex lx) as [mrs' e']. cbn [fst] in H1.
  pose proof (shr_fexp_nonneg _ e' loc_Exact
                (round_nearest_even_nonneg _ (loc_of_shr_record mrs') H1)) as H2.
  destruct (shr_fexp prec emax (round_nearest_even (shr_m mrs') (loc_of_shr_record mrs'))
                     e' loc_Exact) as [mrs'' e''].
  cbn [fst] in H2.
  destruct (shr_m mrs'') as [|m|m]; [reflexivity | | lia].
  destruct (e'' <=? emax - prec); reflexivity.
Qed.

Lemma binary_round_number (s : bool) (m : positive) (e : Z) :
  Float.number_sf (binary_round prec emax s m e) = true.
Proof.
  unfold binary_round.
  destruct (shl_align m e (fexp prec emax (Z.pos (digits2_pos m) + e))) as [mz ez].
  apply binary_round_aux_number. lia.
Qed.

(** a count converts to zero or to a finite float with no positive exponent *)
Lemma of_int_count (n : Z) :
  - 2 ^ 53 < n < 2 ^ 53 -> Float.count_sf (Prim2SF (Float.of_int n)) = true.
Proof.
  assert (forall k, 0 <= k < 2 ^ 53 ->
                    Float.count_sf (Prim2SF (Float.of_int k)) = true) as Hpos.
  { intros k Hk. rewrite of_int_spec by lia.
    destruct k as [|p|p]; [reflexivity | | lia].
    destruct (binary_round_int_finite p) as (m & e & H & He); [lia|].
    cbn [binary_normalize]. rewrite H. cbn [Float.count_sf]. now apply Z.leb_le. }
  intros Hn. destruct (Z.ltb_spec n 0) as [Hneg|Hge]; [|apply Hpos; lia].
  specialize (Hpos (- n) ltac:(lia)). unfold Float.of_int in *.
  destruct (Z.ltb_spec n 0) as [_|]; [|lia].
  destruct (Z.ltb_spec (- n) 0) as [|_]; [lia|].
  rewrite FloatAxioms.opp_spec.
  destruct (Prim2SF (of_uint63 (Uint63.of_Z (- n)))) as [| | |]; cbn in *;
    first [exact Hpos | discriminate].
Qed.

Lemma SFmul_count_finite (x : spec_float) (my : positive) (ey : Z) :
  Float.count_sf x = true ->
  (forall s m e, x = S754_finite s m e -> Z.pos m < 2 ^ 53) ->
  Z.pos my < 2 ^ 53 -> ey <= 0 ->
  Float.finite_sf (SFmul prec emax x (S754_finite false my ey)) = true.
Proof.
  intros Hx Hmx Hmy Hey.
  destruct x as [sx|sx| |sx mx ex]; cbn [Float.count_sf] in Hx; try discriminate;
    [reflexivity|].
  apply Z.leb_le in Hx. specialize (Hmx sx mx ex eq_refl).
  cbn [SFmul]. apply (binary_round_aux_finite _ _ _ _ 106); [lia | | lia].
  split; [lia|].
  assert (2 ^ 106 = 2 ^ 53 * 2 ^ 53) as -> by (vm_compute; reflexivity).
  rewrite Pos2Z.inj_mul.
  assert (0 < Z.pos mx) by lia. assert (0 < Z.pos my) by lia.
  apply Z.mul_lt_mono_nonneg; lia.
Qed.

Lemma SFadd_number (x y : spec_float) :
  Float.finite_sf x = true -> Float.finite_sf y = true ->
  Float.number_sf (SFadd prec emax x y) = true.
Proof.
  destruct x as [sx|sx| |sx mx ex], y as [sy|sy| |sy my ey];
    cbn [Float.finite_sf SFadd]; try discriminate; try reflexivity.
  - intros _ _. destruct sx, sy; reflexivity.
  - intros _ _.
    destruct (cond_Zopp sx (Z.pos (fst (shl_align mx ex (Z.min ex ey))))
              + cond_Zopp sy (Z.pos (fst (shl_align my ey (Z.min ex ey)))))
      as [|p|p]; cbn [binary_normalize];
      [reflexivity | apply binary_round_number ..].
Qed.

Lemma SFdiv_number (x : spec_float) (my : positive) (ey : Z) :
  Float.number_sf x = true ->
  Float.number_sf (SFdiv prec emax x (S754_finite false my ey)) = true.
Proof.
  destruct x as [sx|sx| |sx mx ex]; cbn [Float.number_sf SFdiv]; try discriminate;
    try reflexivity.
  intros _. unfold SFdiv_core_binary.
  set (s := _ - _ - Z.min _ _).
  set (m' := match s with Z.pos _ => _ | 0 => _ | Z.neg _ => _ end).
  assert (0 <= m') as Hm'.
  { subst m'. destruct s; try lia. apply Z.shiftl_nonneg. lia. }
  pose proof (Z.div_pos m' (Z.pos my) Hm' ltac:(lia)) as Hq.
  unfold Z.div in Hq.
  destruct (Z.div_eucl m' (Z.pos my)) as [q r]. cbn [fst] in Hq.
  apply binary_round_aux_number, Hq.
Qed.

(** between two finite positive floats, "not below" one way is "at most"
    the other way *)
Lemma SFleb_of_not_ltb (x y : spec_float) :
  Float.nonneg_sf x = true -> Float.nonneg_sf y = true ->
  SFltb x y = false -> SFleb y x = true.
Proof.
  unfold SFltb, SFleb.
  destruct x as [[]|[]| |[] mx ex], y as [[]|[]| |[] my ey];
    cbn [Float.nonneg_sf SFcompare]; try discriminate; try reflexivity.
  intros _ _.
  pose proof (Pos.compare_cont_antisym mx my Eq) as Hp. cbn [CompOpp] in Hp.
  rewrite (Z.compare_antisym ex ey), <- Hp.
  destruct (ex ?= ey); cbn [CompOpp]; try discriminate; try reflexivity.
  destruct (Pos.compare_cont Eq mx my); cbn [CompOpp]; try discriminate;
    reflexivity.
Qed.

Lemma SFleb_zero_nonneg (x : spec_float) :
  Float.nonneg_sf x = true -> SFleb (S754_zero false) x = true.
Proof. destruct x as [[]|[]| |[] mx ex]; cbn; try discriminate; reflexivity. Qed.

(** [min(x, 1.0)] of a float that is no NaN and not negative *)
Lemma py_min_one_range (x : float) :
  Float.nonneg_sf (Prim2SF x) = true ->
  PrimFloat.leb 0 (Float.py_min x 1) = true
  /\ PrimFloat.leb (Float.py_min x 1) 1 = true.
Proof.
  intros Hx. unfold Float.py_min.
  destruct (PrimFloat.ltb 1 x) eqn:Hlt; [split; reflexivity|].
  rewrite FloatAxioms.ltb_spec in Hlt. rewrite !FloatAxioms.leb_spec. split.
  - apply (SFleb_zero_nonneg _ Hx).
  - apply SFleb_of_not_ltb; [reflexivity | exact Hx | exact Hlt].
Qed.

Lemma collaboration_score_nonneg (forked original total : Z) :
  0 <= forked < 2 ^ 53 -> 0 <= original < 2 ^ 53 -> 0 <= total < 2 ^ 53 ->
  Float.nonneg_sf
    (Prim2SF ((Float.of_int forked * 0.1 + Float.of_int original * 0.3)
              / Float.of_int (Z.max total 1))%float) = true.
Proof.
  intros Hf Ho Ht.
  destruct (of_int_finite (Z.max total 1) ltac:(lia)) as (m & e & Hden).
  assert (exists m1 e1, Prim2SF 0.1%float = S754_finite false m1 e1)
    as (m1 & e1 & H1) by (vm_compute; eauto).
  assert (exists m3 e3, Prim2SF 0.3%float = S754_finite false m3 e3)
    as (m3 & e3 & H3) by (vm_compute; eauto).
  rewrite FloatAxioms.div_spec, Hden, FloatAxioms.add_spec,
    !FloatAxioms.mul_spec, H1, H3.
  apply SFdiv_nonneg, SFadd_nonneg; apply SFmul_nonneg, of_int_nonneg; lia.
Qed.

Lemma filter_length_le {A} (f : A -> bool) (l : list A) :
  (List.length (filter f l) <= List.length l)%nat.
Proof.
  induction l as [|x l IH]; cbn; [lia|]. destruct (f x); cbn; lia.
Qed.

(** [min(x, 1.0)] of a float that is no NaN is at most 1 *)
Lemma py_min_le_one (x : float) :
  Float.number_sf (Prim2SF x) = true ->
  PrimFloat.leb (Float.py_min x 1) 1 = true.
Proof.
  intros Hx. unfold Float.py_min.
  destruct (PrimFloat.ltb 1 x) eqn:Hlt; [reflexivity|].
  rewrite FloatAxioms.ltb_spec in Hlt. rewrite FloatAxioms.leb_spec.
  assert (exists m e, Prim2SF 1%float = S754_finite false m e)
    as (m & e & H1) by (vm_compute; eauto).
  rewrite H1 in *.
  destruct (Prim2SF x) as [[]|[]| |[] mx ex];
    cbn [Float.number_sf] in Hx; try discriminate; try reflexivity.
  apply SFleb_of_not_ltb; [reflexivity | reflexivity | exact Hlt].
Qed.

(** the score before [min] is a number, whatever the sign of the count of
    original repositories *)
Lemma collaboration_score_number (forked original total : Z) :
  0 <= forked < 2 ^ 53 -> - 2 ^ 53 < original < 2 ^ 53 -> 0 <= total < 2 ^ 53 ->
  Float.number_sf
    (Prim2SF ((Float.of_int forked * 0.1 + Float.of_int original * 0.3)
              / Float.of_int (Z.max total 1))%float) = true.
Proof.
  intros Hf Ho Ht.
  destruct (of_int_finite (Z.max total 1) ltac:(lia)) as (m & e & Hden).
  assert (exists m1 e1, Prim2SF 0.1%float = S754_finite false m1 e1 /\ e1 <= 0)
    as (m1 & e1 & H1 & He1) by (vm_compute; eexists _, _; split; [reflexivity|discriminate]).
  assert (exists m3 e3, Prim2SF 0.3%float = S754_finite false m3 e3 /\ e3 <= 0)
    as (m3 & e3 & H3 & He3) by (vm_compute; eexists _, _; split; [reflexivity|discriminate]).
  pose proof (finite_mantissa_bound _ _ _ _ H1) as Hm1.
  pose proof (finite_mantissa_bound _ _ _ _ H3) as Hm3.
  rewrite FloatAxioms.div_spec, Hden, FloatAxioms.add_spec,
    !FloatAxioms.mul_spec, H1, H3.
  apply SFdiv_number, SFadd_number; apply SFmul_count_finite;
    try assumption; try (apply of_int_count; lia);
    intros s0 m0 e0 H0; apply (finite_mantissa_bound _ _ _ _ H0).
Qed.

(** C3, as the code has it: for a list of fewer than 2^53 repositories the
    collaboration score is at most 1, whatever the repositories are; it is
    at least 0 when the forks are no more than the public repositories (so
    that the count of original repositories is not negative); and for the
    empty list it is 0. *)
Theorem collaboration_score_range (repos : list Repo) :
  Z.of_nat (List.length repos) < 2 ^ 53 ->
  let score :=
    collaboration_score (GitHubAnalyzer.analyze_collaboration_patterns repos) in
  PrimFloat.leb score 1 = true
  /\ ((List.length (filter GitHubAnalyzer.is_fork repos)
       <= List.length (filter GitHubAnalyzer.is_public repos))%nat ->
      PrimFloat.leb 0 score = true)
  /\ (repos = [] -> score = 0%float).
Proof.
  intros Hlen score.
  pose proof (filter_length_le GitHubAnalyzer.is_public repos) as Hpub.
  pose proof (filter_length_le GitHubAnalyzer.is_fork repos) as Hforks.
  split; [|split].
  - subst score. cbn [collaboration_score GitHubAnalyzer.analyze_collaboration_patterns].
    apply py_min_le_one, collaboration_score_number; lia.
  - intros Hfork. subst score.
    cbn [collaboration_score GitHubAnalyzer.analyze_collaboration_patterns].
    apply py_min_one_range, collaboration_score_nonneg; lia.
  - intros ->. reflexivity.
Qed.

Lemma collaboration_score_range_witness :
  let score repos :=
    collaboration_score (GitHubAnalyzer.analyze_collaboration_patterns repos) in
  (PrimFloat.leb (score (Samples.public_fork :: Samples.repos_with_ties)) 1 = true
   /\ PrimFloat.leb 0 (score (Samples.public_fork :: Samples.repos_with_ties)) = true)
  /\ PrimFloat.leb (score [Samples.private_fork]) 1 = true.
Proof.
  cbv zeta.
  destruct (collaboration_score_range (Samples.public_fork :: Samples.repos_with_ties))
    as (Hle & Hge & _); [vm_compute; reflexivity|].
  destruct (collaboration_score_range [Samples.private_fork]) as (Hle' & _);
    [vm_compute; reflexivity|].
  split; [split|]; [exact Hle | apply Hge; vm_compute; lia | exact Hle'].
Defined.

(** C3 as stated fails: the counts of a single private fork are 1 fork,
    0 public and 1 in total, none of them negative, and the score is
    below 0; so it is for a fork whose listing lacks the key ['private']. *)
Lemma collaboration_score_negative :
  collaboration_score
    (GitHubAnalyzer.analyze_collaboration_patterns [Samples.private_fork])
  = (-0.19999999999999998)%float
  /\ PrimFloat.ltb
       (collaboration_score
          (GitHubAnalyzer.analyze_collaboration_patterns [Samples.private_fork])) 0
     = true
  /\ PrimFloat.ltb
       (collaboration_score
          (GitHubAnalyzer.analyze_collaboration_patterns
             [Samples.fork_without_visibility])) 0
     = true.
Proof. repeat split; vm_compute; reflexivity. Qed.

(** ** The repository listing *)

Lemma len_iter (data : json) (n : Z) (items : list json) :
  Py.len data = Ok n -> Py.iter data = Ok items -> n = Z.of_nat (List.length items).
Proof.
  destruct data; cbn; try discriminate; intros [= <-] [= <-].
  - unfold Str.len. rewrite length_map. f_equal.
    induction s as [|c s IH]; cbn; congruence.
  - reflexivity.
  - now rewrite length_map.
Qed.

(** one turn of the loop, spelled out *)
Lemma repositories_loop_step (w : world) (user : string) (fuel : nat)
      (repos : list json) (page : Z) (t : trace) :
  GitHubAnalyzer.get_repositories_loop w user (S fuel) repos page t
  = match GitHubAnalyzer._make_request w (GitHubAnalyzer.repos_endpoint user page) t with
    | (Raise e, t1) => (Raise e, t1)
    | (Ok data, t1) =>
        if json_truthy data then
          match Py.len data, Py.iter data with
          | Raise e, _ => (Raise e, t1)
          | Ok n, found =>
              if n =? 0 then (Ok (Some repos), t1)
              else
                match found with
                | Raise e => (Raise e, t1)
                | Ok items =>
                    if 300 <=? Z.of_nat (List.length (repos ++ items))
                    then (Ok (Some (repos ++ items)), t1)
                    else GitHubAnalyzer.get_repositories_loop
                           w user fuel (repos ++ items) (page + 1) t1
                end
          end
        else (Ok (Some repos), t1)
    end.
Proof.
  cbn [GitHubAnalyzer.get_repositories_loop]. unfold bind, lift, ret.
  destruct (GitHubAnalyzer._make_request w (GitHubAnalyzer.repos_endpoint user page) t)
    as [[data|e] t1]; [|reflexivity].
  destruct (json_truthy data); [|reflexivity]. cbn [negb].
  destruct (Py.len data) as [n|e]; [|reflexivity].
  destruct (n =? 0); [reflexivity|].
  destruct (Py.iter data) as [items|e]; [|reflexivity].
  destruct (300 <=? Z.of_nat (List.length (repos ++ items))); reflexivity.
Qed.

(** the pages [page], [page + 1], ... asked for in [k] turns *)
Lemma repositories_loop_run (w : world) (user : string) (fuel : nat) :
  forall (repos : list json) (page : Z) (t : trace),
    (fuel + List.length repos >= 300)%nat -> (1 <= fuel)%nat ->
    fst (GitHubAnalyzer.get_repositories_loop w user fuel repos page t) <> Ok None
    /\ exists k,
        (1 <= k <= fuel)%nat
        /\ requests_of (snd (GitHubAnalyzer.get_repositories_loop w user fuel repos page t))
           = requests_of t
             ++ map (fun i => (GitHubAnalyzer.base_url
                               ++ GitHubAnalyzer.repos_endpoint user (page + Z.of_nat i))%string)
                    (seq 0 k).
Proof.
  induction fuel as [|fuel IH]; intros repos page t Hfuel Hpos; [lia|].
  rewrite repositories_loop_step.
  pose proof (make_request_one_get w (GitHubAnalyzer.repos_endpoint user page) t) as Hget.
  destruct (GitHubAnalyzer._make_request w (GitHubAnalyzer.repos_endpoint user page) t)
    as [r t1]; cbn [fst snd] in *.
  assert (forall r : result (option (list json)),
             r <> Ok None ->
             fst (r, t1) <> Ok None
             /\ exists k, (1 <= k <= S fuel)%nat
                 /\ requests_of (snd (r, t1))
                    = requests_of t
                      ++ map (fun i => (GitHubAnalyzer.base_url
                                        ++ GitHubAnalyzer.repos_endpoint user (page + Z.of_nat i))%string)
                             (seq 0 k)) as Hstop.
  { intros r' Hr. split; [exact Hr|]. exists 1%nat. split; [lia|].
    cbn. now rewrite Z.add_0_r. }
  destruct r as [data|e]; [|apply Hstop; discriminate].
  destruct (json_truthy data); [|apply Hstop; discriminate].
  destruct (Py.len data) as [n|e] eqn:Hn; [|apply Hstop; discriminate].
  destruct (Z.eqb_spec n 0) as [|Hn0]; [apply Hstop; discriminate|].
  destruct (Py.iter data) as [items|e] eqn:Hi; [|apply Hstop; discriminate].
  pose proof (len_iter _ _ _ Hn Hi) as Hlen.
  destruct (Z.leb_spec 300 (Z.of_nat (List.length (repos ++ items)))) as [|Hlt];
    [apply Hstop; discriminate|].
  rewrite length_app in Hlt.
  destruct (IH (repos ++ items) (page + 1) t1) as (Hsome & k & Hk & Hreq).
  - rewrite length_app. lia.
  - lia.
  - split; [exact Hsome|]. exists (S k). split; [lia|].
    rewrite Hreq, Hget, <- app_assoc. f_equal.
    cbn [seq map app]. rewrite Z.add_0_r. f_equal.
    rewrite <- seq_shift, map_map. apply map_ext. intros i.
    now replace (page + 1 + Z.of_nat i) with (page + Z.of_nat (S i)) by lia.
Qed.

(** X1: [get_repositories] comes to an end within 300 requests, whatever
    the host answers: it asks for the pages 1, 2, ..., k in this order, with
    k between 1 and 300, and then returns or raises. *)
Theorem get_repositories_ends (w : world) (user : string) (t : trace) :
  let run := GitHubAnalyzer.get_repositories w user t in
  fst run <> Ok None
  /\ exists k,
      (1 <= k <= 300)%nat
      /\ requests_of (snd run)
         = requests_of t
           ++ map (fun page => (GitHubAnalyzer.base_url
                                ++ GitHubAnalyzer.repos_endpoint user (Z.of_nat page))%string)
                  (seq 1 k).
Proof.
  cbv zeta.
  unfold GitHubAnalyzer.get_repositories, bind, emit, ret. cbn [fst snd].
  destruct (repositories_loop_run w user 300 [] 1
              (t ++ [Log INFO "Fetching repositories"]) ltac:(cbn; lia) ltac:(lia))
    as (Hsome & k & Hk & Hreq).
  rewrite requests_of_app in Hreq. cbn [requests_of flat_map app] in Hreq.
  rewrite app_nil_r in Hreq.
  assert (map (fun i => (GitHubAnalyzer.base_url
                         ++ GitHubAnalyzer.repos_endpoint user (1 + Z.of_nat i))%string)
              (seq 0 k)
          = map (fun page => (GitHubAnalyzer.base_url
                              ++ GitHubAnalyzer.repos_endpoint user (Z.of_nat page))%string)
                (seq 1 k)) as Hmap.
  { rewrite <- seq_shift, map_map. apply map_ext. intros i.
    now replace (1 + Z.of_nat i) with (Z.of_nat (S i)) by lia. }
  rewrite Hmap in Hreq.
  destruct (GitHubAnalyzer.get_repositories_loop w user 300 [] 1
              (t ++ [Log INFO "Fetching repositories"])) as [[[repos|]|e] t1];
    cbn [fst snd] in *.
  - split; [discriminate|]. exists k. split; [exact Hk|].
    rewrite requests_of_app, Hreq. cbn. now rewrite app_nil_r.
  - contradiction.
  - split; [discriminate|]. exists k. split; [exact Hk|]. exact Hreq.
Qed.

Lemma repositories_loop_pages (w : world) (user : string) (last : json) :
  forall (pages : list (list json)) (fuel : nat) (repos : list json) (page : Z)
         (t : trace),
    (fuel + List.length repos >= 300)%nat -> (1 <= fuel)%nat ->
    (forall i items,
        nth_error pages i = Some items ->
        items <> []
        /\ answers w (GitHubAnalyzer.repos_endpoint user (page + Z.of_nat i)) (JArr items)) ->
    (List.length (repos ++ List.concat (removelast pages)) < 300)%nat ->
    (pages <> [] /\ (300 <= List.length (repos ++ List.concat pages))%nat)
    \/ (json_truthy last = false
        /\ answers w (GitHubAnalyzer.repos_endpoint
                        user (page + Z.of_nat (List.length pages))) last) ->
    fst (GitHubAnalyzer.get_repositories_loop w user fuel repos page t)
    = Ok (Some (repos ++ List.concat pages)).
Proof.
  induction pages as [|items rest IH]; intros fuel repos page t Hfuel Hpos Hpages Hcap Hend;
    (destruct fuel as [|fuel]; [lia|]); rewrite repositories_loop_step.
  - destruct Hend as [[Hne _]|[Hfalse Hlast]]; [contradiction|].
    cbn [List.length] in Hlast. rewrite Z.add_0_r in Hlast.
    specialize (Hlast t).
    destruct (GitHubAnalyzer._make_request w (GitHubAnalyzer.repos_endpoint user page) t)
      as [r t1]; cbn [fst] in Hlast; subst r.
    rewrite Hfalse. cbn. now rewrite app_nil_r.
  - destruct (Hpages 0%nat items eq_refl) as [Hne Hfirst].
    change (Z.of_nat 0) with 0 in Hfirst. rewrite Z.add_0_r in Hfirst.
    specialize (Hfirst t).
    destruct (GitHubAnalyzer._make_request w (GitHubAnalyzer.repos_endpoint user page) t)
      as [r t1]; cbn [fst] in Hfirst; subst r.
    assert (json_truthy (JArr items) = true) as -> by (destruct items; [contradiction | reflexivity]).
    cbn [Py.len Py.iter].
    assert (List.length items <> 0)%nat as Hlen by (destruct items; [contradiction | discriminate]).
    destruct (Z.eqb_spec (Z.of_nat (List.length items)) 0) as [|_]; [lia|].
    assert (rest <> [] ->
            List.length (repos ++ List.concat (removelast (items :: rest)))
            = List.length ((repos ++ items) ++ List.concat (removelast rest))) as Hrest.
    { intros Hr. destruct rest as [|x rest]; [contradiction|].
      cbn [removelast List.concat]. now rewrite <- app_assoc. }
    destruct (Z.leb_spec 300 (Z.of_nat (List.length (repos ++ items)))) as [Hge|Hlt];
      cbn [fst].
    + destruct rest as [|x rest]; [cbn; now rewrite app_nil_r|].
      specialize (Hrest ltac:(discriminate)).
      rewrite !length_app in *. lia.
    + cbn [List.concat]. rewrite app_assoc. apply IH.
      * rewrite length_app. lia.
      * rewrite length_app in Hlt. lia.
      * intros i its Hi. destruct (Hpages (S i) its Hi) as [H1 H2]. split; [exact H1|].
        now replace (page + 1 + Z.of_nat i) with (page + Z.of_nat (S i)) by lia.
      * destruct rest as [|x rest]; [cbn; rewrite app_nil_r; lia|].
        rewrite <- Hrest by discriminate. exact Hcap.
      * destruct Hend as [[_ Hge]|[Hfalse Hlast]].
        -- left. cbn [List.concat] in Hge. rewrite app_assoc in Hge. split; [|exact Hge].
           intros ->. cbn in Hge. rewrite app_nil_r in Hge. lia.
        -- right. split; [exact Hfalse|].
           cbn [List.length] in Hlast.
           now replace (page + 1 + Z.of_nat (List.length rest))
             with (page + Z.of_nat (S (List.length rest))) by lia.
Qed.

(** X2: when the host answers the pages 1 to n with non-empty lists, and
    the listing is either full with the last of them (300 entries or more,
    and fewer before it) or the request for page n + 1 fails or comes back
    empty, [get_repositories] returns the entries of these pages, in their
    order: a failed request ends the listing with what was gathered. *)
Theorem get_repositories_pages (w : world) (user : string)
        (pages : list (list json)) (last : json) (t : trace) :
  (forall i items,
      nth_error pages i = Some items ->
      items <> []
      /\ answers w (GitHubAnalyzer.repos_endpoint user (Z.of_nat i + 1)) (JArr items)) ->
  (List.length (List.concat (removelast pages)) < 300)%nat ->
  (300 <= List.length (List.concat pages))%nat
  \/ (json_truthy last = false
      /\ answers w (GitHubAnalyzer.repos_endpoint
                      user (Z.of_nat (List.length pages) + 1)) last) ->
  fst (GitHubAnalyzer.get_repositories w user t) = Ok (Some (List.concat pages)).
Proof.
  intros Hpages Hcap Hend.
  unfold GitHubAnalyzer.get_repositories, bind, emit, ret.
  pose proof (repositories_loop_pages w user last pages 300 [] 1
                (t ++ [Log INFO "Fetching repositories"])) as H.
  cbn [app List.length] in H.
  assert (fst (GitHubAnalyzer.get_repositories_loop
                 w user 300 [] 1 (t ++ [Log INFO "Fetching repositories"]))
          = Ok (Some (List.concat pages))) as Hrun.
  { apply H; [lia | lia | | exact Hcap |].
    - intros i items Hi. destruct (Hpages i items Hi) as [H1 H2]. split; [exact H1|].
      now rewrite Z.add_comm.
    - destruct Hend as [Hge|[Hfalse Hlast]].
      + left. split; [|exact Hge]. intros ->. cbn in Hge. lia.
      + right. split; [exact Hfalse|]. now rewrite Z.add_comm. }
  destruct (GitHubAnalyzer.get_repositories_loop
              w user 300 [] 1 (t ++ [Log INFO "Fetching repositories"])) as [r t1].
  cbn [fst] in Hrun. subst r. reflexivity.
Qed.

Lemma get_repositories_pages_witness :
  fst (GitHubAnalyzer.get_repositories Samples.world_two_pages "dang-w" [])
  = Ok (Some [Samples.listed "skills"; Samples.listed "notes"; Samples.listed "dotfiles"]).
Proof.
  apply (get_repositories_pages
           Samples.world_two_pages "dang-w"
           [[Samples.listed "skills"; Samples.listed "notes"]; [Samples.listed "dotfiles"]]
           JNull []).
  - intros [|[|i]] items Hi; cbn in Hi; try (destruct i; discriminate Hi);
      injection Hi as <-; (split; [discriminate | intros t; reflexivity]).
  - cbn. lia.
  - right. split; [reflexivity | intros t; reflexivity].
Defined.

(** ** The commit listing *)

Lemma commits_loop_step (w : world) (user : string) (fuel : nat)
      (repo_name since : string) (commits : list json) (page : Z) (t : trace) :
  GitHubAnalyzer.get_commits_loop w user (S fuel) repo_name since commits page t
  = match GitHubAnalyzer._make_request
            w (GitHubAnalyzer.commits_endpoint user repo_name since page) t with
    | (Raise e, t1) => (Raise e, t1)
    | (Ok data, t1) =>
        if json_truthy data then
          match Py.len data, Py.iter data with
          | Raise e, _ => (Raise e, t1)
          | Ok n, found =>
              if n =? 0 then (Ok (Some commits), t1)
              else
                match found with
                | Raise e => (Raise e, t1)
                | Ok items =>
                    match GitHubAnalyzer.user_commits user items with
                    | Raise e => (Raise e, t1)
                    | Ok kept =>
                        if 200 <=? Z.of_nat (List.length (commits ++ kept))
                        then (Ok (Some (commits ++ kept)), t1)
                        else GitHubAnalyzer.get_commits_loop
                               w user fuel repo_name since (commits ++ kept) (page + 1) t1
                    end
                end
          end
        else (Ok (Some commits), t1)
    end.
Proof.
  cbn [GitHubAnalyzer.get_commits_loop]. unfold bind, lift, ret.
  destruct (GitHubAnalyzer._make_request
              w (GitHubAnalyzer.commits_endpoint user repo_name since page) t)
    as [[data|e] t1]; [|reflexivity].
  destruct (json_truthy data); [|reflexivity]. cbn [negb].
  destruct (Py.len data) as [n|e]; [|reflexivity].
  destruct (n =? 0); [reflexivity|].
  destruct (Py.iter data) as [items|e]; [|reflexivity].
  destruct (GitHubAnalyzer.user_commits user items) as [kept|e]; [|reflexivity].
  destruct (200 <=? Z.of_nat (List.length (commits ++ kept))); reflexivity.
Qed.

(** the commits kept from a page pass the test and are no more than the
    page holds *)
Lemma user_commits_kept (user : string) (items kept : list json) :
  GitHubAnalyzer.user_commits user items = Ok kept ->
  Forall (fun c => GitHubAnalyzer.is_user_commit user c = Ok true) kept
  /\ Forall (fun c => exists fields, c = JObj fields) items
  /\ incl kept items
  /\ (List.length kept <= List.length items)%nat.
Proof.
  revert kept. induction items as [|c items IH]; intros kept; cbn.
  - intros [= <-]. repeat split; auto. apply incl_refl.
  - destruct (GitHubAnalyzer.is_user_commit user c) as [keep|e] eqn:Hc; [|discriminate].
    cbn. destruct (GitHubAnalyzer.user_commits user items) as [k|e]; [|discriminate].
    cbn. destruct (IH k eq_refl) as (H1 & H2 & H3 & H4).
    assert (exists fields, c = JObj fields) as Hobj
        by (destruct c; try discriminate Hc; eauto).
    destruct keep; intros [= <-]; repeat split; auto.
    + intros x [<-|Hx]; [now left | right; auto].
    + cbn. lia.
    + intros x Hx. right. auto.
Qed.

Lemma commits_loop_attributed (w : world) (user repo_name since : string) :
  forall (fuel : nat) (commits : list json) (page : Z) (t : trace)
         (found : list json),
    Forall (fun c => GitHubAnalyzer.is_user_commit user c = Ok true) commits ->
    fst (GitHubAnalyzer.get_commits_loop w user fuel repo_name since commits page t)
    = Ok (Some found) ->
    Forall (fun c => GitHubAnalyzer.is_user_commit user c = Ok true) found.
Proof.
  induction fuel as [|fuel IH]; intros commits page t found Hc; [discriminate|].
  rewrite commits_loop_step.
  destruct (GitHubAnalyzer._make_request
              w (GitHubAnalyzer.commits_endpoint user repo_name since page) t)
    as [[data|e] t1]; [|discriminate].
  destruct (json_truthy data); [|now intros [= <-]].
  destruct (Py.len data) as [n|e]; [|discriminate].
  destruct (n =? 0); [now intros [= <-]|].
  destruct (Py.iter data) as [items|e]; [|discriminate].
  destruct (GitHubAnalyzer.user_commits user items) as [kept|e] eqn:Hk; [|discriminate].
  apply user_commits_kept in Hk. destruct Hk as (Hk & _).
  assert (Forall (fun c => GitHubAnalyzer.is_user_commit user c = Ok true) (commits ++ kept))
    as Hall by (apply Forall_app; auto).
  destruct (200 <=? Z.of_nat (List.length (commits ++ kept))); [now intros [= <-]|].
  now apply IH.
Qed.

(** a page that yields commits is a list *)
Lemma iter_of_objects (data : json) (items : list json) :
  json_truthy data = true -> Py.iter data = Ok items ->
  Forall (fun c => exists fields, c = JObj fields) items ->
  data = JArr items.
Proof.
  destruct data as [| | | |s|l|fields]; cbn; try discriminate.
  - destruct s as [|c s]; [discriminate|]. intros _ [= <-] H.
    inversion H as [|? ? [f Hf]]. discriminate Hf.
  - now intros _ [= <-].
  - destruct fields as [|[k v] fields]; [discriminate|]. intros _ [= <-] H.
    inversion H as [|? ? [f Hf]]. discriminate Hf.
Qed.

Lemma commits_loop_length (w : world) (user repo_name since : string) :
  (forall url resp items,
      http_get w url = Answer resp -> body resp = Some (JArr items) ->
      (List.length items <= 100)%nat) ->
  forall (fuel : nat) (commits : list json) (page : Z) (t : trace)
         (found : list json),
    (List.length commits < 200)%nat ->
    fst (GitHubAnalyzer.get_commits_loop w user fuel repo_name since commits page t)
    = Ok (Some found) ->
    (List.length found <= 299)%nat.
Proof.
  intros Hsize.
  induction fuel as [|fuel IH]; intros commits page t found Hc; [discriminate|].
  rewrite commits_loop_step.
  pose proof (make_request_outcome
                w (GitHubAnalyzer.commits_endpoint user repo_name since page) t) as Hout.
  destruct (GitHubAnalyzer._make_request
              w (GitHubAnalyzer.commits_endpoint user repo_name since page) t)
    as [[data|e] t1]; [|discriminate].
  cbn [fst] in Hout.
  destruct (json_truthy data) eqn:Ht; [|intros [= <-]; lia].
  destruct (Py.len data) as [n|e]; [|discriminate].
  destruct (n =? 0); [intros [= <-]; lia|].
  destruct (Py.iter data) as [items|e] eqn:Hi; [|discriminate].
  destruct (GitHubAnalyzer.user_commits user items) as [kept|e] eqn:Hk; [|discriminate].
  apply user_commits_kept in Hk. destruct Hk as (_ & Hobj & _ & Hlen).
  pose proof (iter_of_objects _ _ Ht Hi Hobj) as ->.
  destruct Hout as [Hnull|(resp & Hresp & _ & _ & Hbody)]; [discriminate|].
  pose proof (Hsize _ _ _ Hresp Hbody) as Hitems.
  destruct (Z.leb_spec 200 (Z.of_nat (List.length (commits ++ kept)))) as [|Hlt].
  - intros [= <-]. rewrite length_app. lia.
  - apply IH. lia.
Qed.

(** X3: every commit [get_commits_for_repo] returns has passed the
    attribution test, and when the host's pages hold at most 100 entries
    it returns at most 299 commits: the cap of 200 is looked at after a whole
    page has been added. *)
Theorem get_commits_attributed (w : world) (user repo_name since : string)
        (fuel : nat) (t : trace) (found : list json) :
  fst (GitHubAnalyzer.get_commits_for_repo w user fuel repo_name since t)
  = Ok (Some found) ->
  Forall (fun c => GitHubAnalyzer.is_user_commit user c = Ok true) found
  /\ ((forall url resp items,
          http_get w url = Answer resp -> body resp = Some (JArr items) ->
          (List.length items <= 100)%nat) ->
      (List.length found <= 299)%nat).
Proof.
  unfold GitHubAnalyzer.get_commits_for_repo. intros H. split.
  - eapply commits_loop_attributed; [constructor | exact H].
  - intros Hsize. eapply commits_loop_length; [exact Hsize | | exact H]. cbn. lia.
Qed.

Lemma get_commits_attributed_witness :
  Forall (fun c => GitHubAnalyzer.is_user_commit "dang-w" c = Ok true)
         [Samples.listed_commit "a1" (Some "dang-w") None;
          Samples.listed_commit "b2" (Some "octocat") (Some "octo@example.org")].
Proof.
  apply (get_commits_attributed
           Samples.world_three_commits "dang-w" "skills" "2024-01-01T00:00:00" 5 []).
  vm_compute. reflexivity.
Defined.

Lemma commits_loop_never_ends (w : world) (user repo_name since : string) :
  (forall page,
      exists items,
        items <> []
        /\ answers w (GitHubAnalyzer.commits_endpoint user repo_name since page) (JArr items)
        /\ GitHubAnalyzer.user_commits user items = Ok []) ->
  forall (fuel : nat) (page : Z) (t : trace),
    fst (GitHubAnalyzer.get_commits_loop w user fuel repo_name since [] page t) = Ok None
    /\ List.length
         (requests_of
            (snd (GitHubAnalyzer.get_commits_loop w user fuel repo_name since [] page t)))
       = (List.length (requests_of t) + fuel)%nat.
Proof.
  intros Hpages. induction fuel as [|fuel IH]; intros page t.
  - cbn [GitHubAnalyzer.get_commits_loop]. unfold ret. cbn [fst snd].
    split; [reflexivity | lia].
  - rewrite commits_loop_step.
    destruct (Hpages page) as (items & Hne & Hans & Hkept).
    specialize (Hans t).
    pose proof (make_request_one_get
                  w (GitHubAnalyzer.commits_endpoint user repo_name since page) t) as Hget.
    destruct (GitHubAnalyzer._make_request
                w (GitHubAnalyzer.commits_endpoint user repo_name since page) t)
      as [r t1]; cbn [fst snd] in *; subst r.
    assert (json_truthy (JArr items) = true) as ->
        by (destruct items; [contradiction | reflexivity]).
    cbn [Py.len Py.iter].
    destruct (Z.eqb_spec (Z.of_nat (List.length items)) 0) as [H0|_];
      [destruct items; [contradiction | discriminate H0]|].
    rewrite Hkept. cbn [app List.length Z.of_nat Z.leb Z.compare].
    destruct (IH (page + 1) t1) as [H1 H2]. split; [exact H1|].
    rewrite H2, Hget, length_app. cbn. lia.
Qed.

(** X4: the loop of [get_commits_for_repo] has no bound of its own.  When
    the host answers every page of the listing with a non-empty list in
    which no commit passes the attribution test, it is still running after
    any number of requests. *)
Theorem get_commits_never_ends (w : world) (user repo_name since : string) :
  (forall page,
      exists items,
        items <> []
        /\ answers w (GitHubAnalyzer.commits_endpoint user repo_name since page) (JArr items)
        /\ GitHubAnalyzer.user_commits user items = Ok []) ->
  forall (fuel : nat) (t : trace),
    let run := GitHubAnalyzer.get_commits_for_repo w user fuel repo_name since t in
    fst run = Ok None
    /\ List.length (requests_of (snd run)) = (List.length (requests_of t) + fuel)%nat.
Proof.
  intros Hpages fuel t. apply commits_loop_never_ends, Hpages.
Qed.

Lemma get_commits_never_ends_witness :
  fst (GitHubAnalyzer.get_commits_for_repo
         Samples.world_of_strangers "dang-w" 1000 "skills" "2024-01-01T00:00:00" [])
  = Ok None.
Proof.
  apply (get_commits_never_ends
           Samples.world_of_strangers "dang-w" "skills" "2024-01-01T00:00:00").
  intros page. exists [Samples.listed_commit "c3" None None].
  split; [discriminate|]. split; [intros t; reflexivity | reflexivity].
Defined.

Lemma commits_loop_ends (w : world) (user repo_name since : string) :
  (forall page t data items kept,
      fst (GitHubAnalyzer._make_request
             w (GitHubAnalyzer.commits_endpoint user repo_name since page) t) = Ok data ->
      Py.iter data = Ok items -> items <> [] ->
      GitHubAnalyzer.user_commits user items = Ok kept ->
      kept <> []) ->
  forall (fuel : nat) (commits : list json) (page : Z) (t : trace),
    (fuel + List.length commits >= 200)%nat -> (1 <= fuel)%nat ->
    fst (GitHubAnalyzer.get_commits_loop w user fuel repo_name since commits page t)
    <> Ok None
    /\ (List.length
          (requests_of
             (snd (GitHubAnalyzer.get_commits_loop
                     w user fuel repo_name since commits page t)))
        <= List.length (requests_of t) + fuel)%nat.
Proof.
  intros Hkept.
  induction fuel as [|fuel IH]; intros commits page t Hfuel Hpos; [lia|].
  rewrite commits_loop_step.
  pose proof (make_request_one_get
                w (GitHubAnalyzer.commits_endpoint user repo_name since page) t) as Hget.
  pose proof (Hkept page t) as Hpage.
  destruct (GitHubAnalyzer._make_request
              w (GitHubAnalyzer.commits_endpoint user repo_name since page) t)
    as [r t1]; cbn [fst snd] in *.
  assert (forall r' : result (option (list json)),
             r' <> Ok None ->
             fst (r', t1) <> Ok None
             /\ (List.length (requests_of (snd (r', t1)))
                 <= List.length (requests_of t) + S fuel)%nat) as Hstop.
  { intros r' Hr. split; [exact Hr|]. cbn [snd]. rewrite Hget, length_app. cbn. lia. }
  destruct r as [data|e]; [|apply Hstop; discriminate].
  destruct (json_truthy data); [|apply Hstop; discriminate].
  destruct (Py.len data) as [n|e] eqn:Hn; [|apply Hstop; discriminate].
  destruct (Z.eqb_spec n 0) as [|Hn0]; [apply Hstop; discriminate|].
  destruct (Py.iter data) as [items|e] eqn:Hi; [|apply Hstop; discriminate].
  destruct (GitHubAnalyzer.user_commits user items) as [kept|e] eqn:Hk;
    [|apply Hstop; discriminate].
  pose proof (len_iter _ _ _ Hn Hi) as Hlen.
  assert (items <> []) as Hitems by (intros ->; cbn in Hlen; lia).
  pose proof (Hpage data items kept eq_refl Hi Hitems Hk) as Hne.
  assert (1 <= List.length kept)%nat as Hone by (destruct kept; [contradiction | cbn; lia]).
  destruct (Z.leb_spec 200 (Z.of_nat (List.length (commits ++ kept)))) as [|Hlt];
    [apply Hstop; discriminate|].
  rewrite length_app in Hlt.
  destruct (IH (commits ++ kept) (page + 1) t1) as (Hsome & Hreq).
  - rewrite length_app. lia.
  - lia.
  - split; [exact Hsome|]. rewrite Hget, length_app in Hreq. cbn in Hreq. lia.
Qed.

(** X19: [get_commits_for_repo] comes to an end within 200 requests when
    every page that is not empty adds at least one commit that passes the
    attribution test. *)
Theorem get_commits_ends (w : world) (user repo_name since : string) :
  (forall page t data items kept,
      fst (GitHubAnalyzer._make_request
             w (GitHubAnalyzer.commits_endpoint user repo_name since page) t) = Ok data ->
      Py.iter data = Ok items -> items <> [] ->
      GitHubAnalyzer.user_commits user items = Ok kept ->
      kept <> []) ->
  forall t : trace,
    let run := GitHubAnalyzer.get_commits_for_repo w user 200 repo_name since t in
    fst run <> Ok None
    /\ (List.length (requests_of (snd run)) <= List.length (requests_of t) + 200)%nat.
Proof.
  intros Hkept t. apply commits_loop_ends; [exact Hkept | cbn; lia | lia].
Qed.

Lemma get_commits_ends_witness :
  fst (GitHubAnalyzer.get_commits_for_repo
         Samples.world_of_own_commits "dang-w" 200 "skills" "2024-01-01T00:00:00" [])
  <> Ok None.
Proof.
  apply (get_commits_ends
           Samples.world_of_own_commits "dang-w" "skills" "2024-01-01T00:00:00").
  intros page t data items kept Hdata.
  change (Ok (JArr [Samples.listed_commit "a1" (Some "dang-w") None]) = Ok data) in Hdata.
  injection Hdata as <-. intros [= <-] _ Hk.
  vm_compute in Hk. injection Hk as <-. discriminate.
Defined.

(** the second half of the test: the e-mail address of the commit data *)
Lemma attribution_by_email (fields : list (string * json)) :
  (data <- Py.get "commit" (JObj []) (JObj fields) ;;
   data_author <- Py.get "author" JNull data ;;
   if json_truthy data_author then
     data <- Py.item "commit" (JObj fields) ;;
     data_author <- Py.item "author" data ;;
     author_email <- Py.get "email" (JStr "") data_author ;;
     Ok (json_truthy author_email)
   else Ok false)%res = Ok true ->
  exists data author email,
    Py.lookup "commit" fields = Some (JObj data)
    /\ Py.lookup "author" data = Some (JObj author)
    /\ Py.lookup "email" author = Some email
    /\ json_truthy email = true.
Proof.
  cbn [Py.get Py.item bind_result].
  destruct (Py.lookup "commit" fields) as [d|] eqn:Hd;
    [destruct d as [| | | | | |data]|];
    cbn [Py.get bind_result Py.lookup find option_map json_truthy];
    try discriminate.
  destruct (Py.lookup "author" data) as [au|] eqn:Hau; [|discriminate].
  destruct (json_truthy au) eqn:Htau; [|discriminate].
  cbn [Py.item bind_result]. rewrite Hau.
  destruct au as [| | | | | |author]; cbn [Py.get bind_result]; try discriminate.
  destruct (Py.lookup "email" author) as [e|] eqn:He; [|discriminate].
  intros [= Hte]. exists data, author, e. auto.
Qed.

Lemma attribution_by_email_run (fields data author : list (string * json))
      (email : json) :
  Py.lookup "commit" fields = Some (JObj data) ->
  Py.lookup "author" data = Some (JObj author) ->
  Py.lookup "email" author = Some email ->
  json_truthy email = true ->
  (data <- Py.get "commit" (JObj []) (JObj fields) ;;
   data_author <- Py.get "author" JNull data ;;
   if json_truthy data_author then
     data <- Py.item "commit" (JObj fields) ;;
     data_author <- Py.item "author" data ;;
     author_email <- Py.get "email" (JStr "") data_author ;;
     Ok (json_truthy author_email)
   else Ok false)%res = Ok true.
Proof.
  intros Hd Hau He Hte. cbn [Py.get Py.item bind_result].
  rewrite Hd. cbn [Py.get bind_result]. rewrite Hau.
  assert (json_truthy (JObj author) = true) as ->
      by (destruct author; [discriminate He | reflexivity]).
  cbn [Py.item Py.get bind_result]. rewrite Hau. cbn [Py.get bind_result].
  rewrite He. f_equal. exact Hte.
Qed.

(** X5: the attribution test on an entry of the listing.  An entry whose
    account is an object with the user's login passes.  So does an entry
    whose commit data name an author with an e-mail address that is not
    empty, when its account is absent, [null] or another value that counts
    as false, or an object, whatever login that object holds or lacks.  An
    entry passes for one of these two reasons only. *)
Theorem commit_attribution (user : string) (fields : list (string * json)) :
  let commit := JObj fields in
  let passes := GitHubAnalyzer.is_user_commit user commit = Ok true in
  let by_login :=
    exists account,
      Py.lookup "author" fields = Some (JObj account)
      /\ Py.lookup "login" account = Some (JStr user) in
  let account_read :=
    match Py.lookup "author" fields with
    | None => True
    | Some (JObj _) => True
    | Some v => json_truthy v = false
    end in
  let by_email :=
    exists data author email,
      Py.lookup "commit" fields = Some (JObj data)
      /\ Py.lookup "author" data = Some (JObj author)
      /\ Py.lookup "email" author = Some email
      /\ json_truthy email = true in
  (by_login -> passes)
  /\ (account_read -> by_email -> passes)
  /\ (passes -> by_login \/ (account_read /\ by_email)).
Proof.
  intros commit passes by_login account_read by_email.
  subst commit passes by_login account_read by_email.
  unfold GitHubAnalyzer.is_user_commit.
  split; [|split].
  - intros (account & Ha & Hl). cbn [Py.get Py.item bind_result]. rewrite Ha.
    assert (json_truthy (JObj account) = true) as ->
        by (destruct account; [discriminate Hl | reflexivity]).
    cbn [Py.get bind_result]. rewrite Hl. cbn [Py.eq_str].
    now rewrite String.eqb_refl.
  - intros Hread (data & author & email & Hd & Hau & He & Hte).
    pose proof (attribution_by_email_run fields data author email Hd Hau He Hte)
      as Hrun.
    cbn [Py.get Py.item bind_result] in Hrun |- *.
    destruct (Py.lookup "author" fields) as [a|] eqn:Ha;
      [|cbn [json_truthy bind_result]; exact Hrun].
    destruct (json_truthy a) eqn:Hta; [|cbn [bind_result]; exact Hrun].
    destruct a as [| | | | | |account]; try congruence.
    cbn [Py.get bind_result].
    destruct (Py.eq_str
                match Py.lookup "login" account with
                | Some x => x
                | None => JNull
                end user); [reflexivity | exact Hrun].
  - intros H.
    assert (forall (P : Prop),
               P ->
               (data <- Py.get "commit" (JObj []) (JObj fields) ;;
                data_author <- Py.get "author" JNull data ;;
                if json_truthy data_author then
                  data <- Py.item "commit" (JObj fields) ;;
                  data_author <- Py.item "author" data ;;
                  author_email <- Py.get "email" (JStr "") data_author ;;
                  Ok (json_truthy author_email)
                else Ok false)%res = Ok true ->
               P /\ exists data author email,
                   Py.lookup "commit" fields = Some (JObj data)
                   /\ Py.lookup "author" data = Some (JObj author)
                   /\ Py.lookup "email" author = Some email
                   /\ json_truthy email = true) as Hmail
        by (intros P HP He; split; [exact HP | apply attribution_by_email, He]).
    revert H. cbn [Py.get Py.item bind_result].
    destruct (Py.lookup "author" fields) as [a|] eqn:Ha;
      [destruct (json_truthy a) eqn:Hta|]; cbn [json_truthy bind_result].
    + destruct a as [| | | | | |account]; cbn [Py.get bind_result]; try discriminate.
      destruct (Py.lookup "login" account) as [l|] eqn:Hl;
        [destruct l as [| | | |s| |]|]; cbn [Py.eq_str];
        try (intros H; right; apply Hmail; [exact I | exact H]).
      destruct (String.eqb_spec s user) as [->|_]; intros H;
        [left; eauto | right; apply Hmail; [exact I | exact H]].
    + intros H. right. apply Hmail; [|exact H].
      destruct a; first [exact I | reflexivity].
    + intros H. right. apply Hmail; [exact I | exact H].
Qed.

Lemma commit_attribution_witness :
  GitHubAnalyzer.is_user_commit
    "dang-w" (Samples.listed_commit "b2" (Some "octocat") (Some "octo@example.org"))
  = Ok true
  /\ GitHubAnalyzer.is_user_commit
       "dang-w" (Samples.listed_commit "c3" None (Some "dev@example.org"))
     = Ok true.
Proof.
  split.
  - apply (proj1 (proj2 (commit_attribution
             "dang-w"
             [("sha", JStr "b2");
              ("commit",
                JObj [("author", JObj [("name", JStr "A. U. Thor");
                                       ("email", JStr "octo@example.org")]);
                      ("message", JStr "work")]);
              ("author", JObj [("login", JStr "octocat")])])));
      [exact I|].
    exists [("author", JObj [("name", JStr "A. U. Thor");
                             ("email", JStr "octo@example.org")]);
            ("message", JStr "work")],
           [("name", JStr "A. U. Thor"); ("email", JStr "octo@example.org")],
           (JStr "octo@example.org").
    repeat split.
  - apply (proj1 (proj2 (commit_attribution
             "dang-w"
             [("sha", JStr "c3");
              ("commit",
                JObj [("author", JObj [("name", JStr "A. U. Thor");
                                       ("email", JStr "dev@example.org")]);
                      ("message", JStr "work")]);
              ("author", JNull)])));
      [reflexivity|].
    exists [("author", JObj [("name", JStr "A. U. Thor");
                             ("email", JStr "dev@example.org")]);
            ("message", JStr "work")],
           [("name", JStr "A. U. Thor"); ("email", JStr "dev@example.org")],
           (JStr "dev@example.org").
    repeat split.
Defined.

(** ** The README *)

(** X6: [get_readme_content] never raises, whatever the host answers and
    whatever the decoder does, and it sends one request.  It returns a text
    exactly when the answer is an object with a key ['content'] whose value
    the decoder accepts; otherwise it returns [None]. *)
Theorem get_readme_content_never_raises
        (w : world) (user : string) (decode : json -> result string)
        (repo_name : string) (t : trace) :
  let endpoint := ("/repos/" ++ user ++ "/" ++ repo_name ++ "/readme")%string in
  let run := GitHubAnalyzer.get_readme_content w user decode repo_name t in
  (exists content, fst run = Ok content)
  /\ requests_of (snd run) = requests_of t ++ [(GitHubAnalyzer.base_url ++ endpoint)%string]
  /\ (forall text,
         fst run = Ok (Some text)
         <-> exists fields raw,
             fst (GitHubAnalyzer._make_request w endpoint t) = Ok (JObj fields)
             /\ Py.lookup "content" fields = Some raw
             /\ decode raw = Ok text).
Proof.
  intros endpoint run. subst run.
  unfold GitHubAnalyzer.get_readme_content, try_except, bind, lift, ret, emit.
  fold endpoint.
  pose proof (make_request_one_get w endpoint t) as Hget.
  destruct (GitHubAnalyzer._make_request w endpoint t) as [[data|e] t1];
    cbn [fst snd] in *.
  2: { split; [eauto|]. split.
       - rewrite requests_of_app, Hget. cbn. now rewrite app_nil_r.
       - intros text. split; [discriminate | intros (f & r & H & _); discriminate H]. }
  assert (forall u : trace,
             requests_of (u ++ [Log DEBUG "No README found"]) = requests_of u) as Hlog.
  { intros u. rewrite requests_of_app. cbn. now rewrite app_nil_r. }
  destruct data as [| b | n | f | s | items | fields];
    cbn [json_truthy Py.contains Py.item fst snd].
  all: repeat match goal with
         | |- context [if ?b then _ else _] => destruct b eqn:?
         end; cbn [fst snd].
  all: try (split; [eauto|]; split; [rewrite ?Hlog; exact Hget|];
            intros text; split; [discriminate | intros (f' & r & H & _); discriminate H]).
  all: destruct (Py.lookup "content" fields) as [raw|] eqn:Hraw; cbn [fst snd];
    try discriminate.
  all: try (split; [eauto|]; split; [rewrite ?Hlog; exact Hget|];
            intros text; split;
            [discriminate
            | intros (f' & r & [= <-] & Hr & _); destruct fields; discriminate]).
  1: destruct (decode raw) as [content|e] eqn:Hdec; cbn [fst snd].
  - split; [eauto|]. split; [exact Hget|].
    intros text. split.
    + intros [= <-]. exists fields, raw. auto.
    + intros (f' & r & [= <-] & Hr & Hd). congruence.
  - split; [eauto|]. split; [rewrite Hlog; exact Hget|].
    intros text. split; [discriminate|].
    intros (f' & r & [= <-] & Hr & Hd). congruence.
  - split; [eauto|]. split; [exact Hget|].
    intros text. split; [discriminate|].
    intros (f' & r & [= <-] & Hr & _).
    first [congruence | destruct fields; discriminate].
Qed.

(** ** The extension tally *)

Lemma contains_dot_cons (c : ascii) (r : string) :
  Str.contains "." (String c r) = Ascii.eqb "." c || Str.contains "." r.
Proof.
  cbn [Str.contains String.prefix].
  destruct (ascii_dec "." c) as [<-|Hne].
  - destruct r; reflexivity.
  - apply Ascii.eqb_neq in Hne. now rewrite Hne.
Qed.

Lemma split_not_nil (c : ascii) (s : string) : Str.split c s <> [].
Proof.
  destruct s as [|d r]; cbn; [discriminate|].
  destruct (Ascii.eqb c d); [discriminate|].
  destruct (Str.split c r); discriminate.
Qed.

Lemma last_cons_not_nil {A} (x d : A) (l : list A) :
  l <> [] -> List.last (x :: l) d = List.last l d.
Proof. destruct l; [contradiction | reflexivity]. Qed.

(** the last piece of a split holds no separator *)
Lemma split_last_no_dot (s : string) :
  Str.contains "." (Str.split_last "." s) = false.
Proof.
  unfold Str.split_last. induction s as [|d r IH]; [reflexivity|].
  cbn [Str.split]. destruct (Ascii.eqb "." d) eqn:Hd.
  - rewrite last_cons_not_nil by apply split_not_nil. exact IH.
  - pose proof (split_not_nil "." r) as Hne.
    destruct (Str.split "." r) as [|w ws]; [contradiction|].
    destruct ws as [|w' ws].
    + cbn [List.last] in *. now rewrite contains_dot_cons, Hd, IH.
    + exact IH.
Qed.

(** a text without separator is its own and only piece *)
Lemma split_no_dot (s : string) :
  Str.contains "." s = false -> Str.split "." s = [s].
Proof.
  induction s as [|d r IH]; [reflexivity|].
  rewrite contains_dot_cons. intros H. apply orb_false_iff in H as [Hd Hr].
  cbn [Str.split]. now rewrite Hd, (IH Hr).
Qed.

Lemma split_after_dot (stem ext : string) :
  exists w w' ws, Str.split "." (stem ++ String "." ext) = w :: w' :: ws
                  /\ List.last (w' :: ws) EmptyString = Str.split_last "." ext.
Proof.
  induction stem as [|d stem IH]; cbn [String.append Str.split].
  - cbn [Ascii.eqb Bool.eqb andb].
    pose proof (split_not_nil "." ext) as Hne. unfold Str.split_last.
    destruct (Str.split "." ext) as [|w' ws]; [contradiction|]. eauto.
  - destruct IH as (w & w' & ws & -> & Hlast).
    destruct (Ascii.eqb "." d); [exists EmptyString, w, (w' :: ws) | eauto].
    split; [reflexivity|].
    now rewrite last_cons_not_nil by discriminate.
Qed.

Lemma split_last_after_dot (stem ext : string) :
  Str.split_last "." (stem ++ String "." ext) = Str.split_last "." ext.
Proof.
  destruct (split_after_dot stem ext) as (w & w' & ws & H & Hlast).
  unfold Str.split_last at 1. rewrite H.
  now rewrite last_cons_not_nil by discriminate.
Qed.

Lemma lower_char_dot (c : ascii) :
  Ascii.eqb "." (Str.lower_char c) = Ascii.eqb "." c.
Proof. destruct c as [[] [] [] [] [] [] [] []]; reflexivity. Qed.

Lemma lower_no_dot (s : string) :
  Str.contains "." (Str.lower s) = Str.contains "." s.
Proof.
  induction s as [|c r IH]; [reflexivity|].
  cbn [Str.lower]. now rewrite !contains_dot_cons, lower_char_dot, IH.
Qed.

Lemma lower_char_idem (c : ascii) :
  Str.lower_char (Str.lower_char c) = Str.lower_char c.
Proof. destruct c as [[] [] [] [] [] [] [] []]; reflexivity. Qed.

Lemma lower_idem (s : string) : Str.lower (Str.lower s) = Str.lower s.
Proof.
  induction s as [|c r IH]; [reflexivity|].
  cbn [Str.lower]. now rewrite lower_char_idem, IH.
Qed.

Lemma contains_dot_app (a b : string) :
  Str.contains "." (a ++ b) = Str.contains "." a || Str.contains "." b.
Proof.
  induction a as [|c a IH]; cbn [String.append].
  - destruct b; reflexivity.
  - now rewrite !contains_dot_cons, IH, orb_assoc.
Qed.

(** X7: the extension of a file path is what follows its last dot, in
    lower case, and "unknown" for a path without dot: it holds no dot, it
    is not changed by lowering it again, and for a path [stem.ext] whose
    [ext] has no dot it is [ext] in lower case, whatever [stem] is (so
    ".gitignore" counts as "gitignore" and "notes." as the empty
    extension). *)
Theorem extension_after_last_dot (file : string) :
  Str.contains "." (extension file) = false
  /\ Str.lower (extension file) = extension file
  /\ (Str.contains "." file = false -> extension file = "unknown")
  /\ (forall stem ext,
         file = (stem ++ "." ++ ext)%string -> Str.contains "." ext = false ->
         extension file = Str.lower ext).
Proof.
  unfold extension. repeat split.
  - destruct (Str.contains "." file); [|reflexivity].
    now rewrite lower_no_dot, split_last_no_dot.
  - destruct (Str.contains "." file); [apply lower_idem | reflexivity].
  - now intros ->.
  - intros stem ext -> Hext.
    rewrite contains_dot_app. cbn [String.append].
    rewrite contains_dot_cons. cbn [Ascii.eqb Bool.eqb andb orb].
    rewrite orb_true_r, split_last_after_dot.
    unfold Str.split_last. now rewrite (split_no_dot _ Hext).
Qed.

Lemma extension_after_last_dot_witness : extension "src/app.v2/Main.PY" = "py".
Proof.
  destruct (extension_after_last_dot "src/app.v2/Main.PY") as (_ & _ & _ & H).
  apply (H "src/app.v2/Main" "PY"); reflexivity.
Defined.

Lemma counter_get_incr (k k' : string) (c : Counter.t) :
  Counter.get k (Counter.incr k' c)
  = Counter.get k c + (if String.eqb k k' then 1 else 0).
Proof.
  unfold Counter.get. induction c as [|[k0 n] r IH]; cbn [Counter.incr find fst snd].
  - destruct (String.eqb k k'); reflexivity.
  - destruct (String.eqb_spec k' k0) as [->|Hne]; cbn [find fst snd].
    + destruct (String.eqb k k0); cbn [snd]; lia.
    + destruct (String.eqb_spec k k0) as [->|Hk]; cbn [snd].
      * destruct (String.eqb_spec k0 k'); [congruence | lia].
      * exact IH.
Qed.

Lemma counter_keys_incr (k : string) (c : Counter.t) :
  map fst (Counter.incr k c)
  = if existsb (String.eqb k) (map fst c) then map fst c else map fst c ++ [k].
Proof.
  induction c as [|[k0 n] r IH]; cbn [Counter.incr map fst existsb app]; [reflexivity|].
  destruct (String.eqb k k0); cbn [map fst orb]; [reflexivity|].
  rewrite IH. now destruct (existsb (String.eqb k) (map fst r)).
Qed.

Lemma counter_incr_NoDup (k : string) (c : Counter.t) :
  NoDup (map fst c) -> NoDup (map fst (Counter.incr k c)).
Proof.
  intros H. rewrite counter_keys_incr.
  destruct (existsb (String.eqb k) (map fst c)) eqn:E; [exact H|].
  apply NoDup_app; [exact H | constructor; [intros [] | constructor] |].
  intros x Hx [<-|[]].
  assert (existsb (String.eqb k) (map fst c) = true) as Ht; [|congruence].
  apply existsb_exists. exists k. split; [exact Hx | apply String.eqb_refl].
Qed.

Lemma counter_incr_key (k x : string) (c : Counter.t) :
  In x (map fst (Counter.incr k c)) <-> x = k \/ In x (map fst c).
Proof.
  rewrite counter_keys_incr.
  destruct (existsb (String.eqb k) (map fst c)) eqn:E.
  - split; [now right|]. intros [->|H]; [|exact H].
    apply existsb_exists in E. destruct E as (y & Hy & Heq).
    apply String.eqb_eq in Heq. now subst y.
  - rewrite in_app_iff. cbn. intuition.
Qed.

(** what a run over file paths adds to the tally *)
Lemma count_files_spec (files : list string) (c : Counter.t) :
  (forall ext,
      Counter.get ext (count_files files c)
      = Counter.get ext c + Z.of_nat (count_occ string_dec (map extension files) ext))
  /\ (NoDup (map fst c) -> NoDup (map fst (count_files files c)))
  /\ (forall ext,
         In ext (map fst (count_files files c))
         <-> In ext (map fst c) \/ In ext (map extension files)).
Proof.
  unfold count_files. revert c.
  induction files as [|f files IH]; intros c; cbn [fold_left map count_occ].
  - split; [intros; cbn; lia|]. split; [tauto|]. intros ext. cbn [In]. tauto.
  - destruct (IH (Counter.incr (extension f) c)) as (H1 & H2 & H3).
    split; [|split].
    + intros ext. rewrite H1, counter_get_incr.
      destruct (string_dec (extension f) ext) as [->|Hne].
      * rewrite String.eqb_refl. lia.
      * destruct (String.eqb_spec ext (extension f)); [congruence | lia].
    + intros Hc. apply H2, counter_incr_NoDup, Hc.
    + intros ext. rewrite H3, counter_incr_key. cbn [In].
      split; intros H; repeat (destruct H as [H|H]); auto.
Qed.

Lemma count_occ_app_Z (l l' : list string) (x : string) :
  Z.of_nat (count_occ string_dec (l ++ l') x)
  = Z.of_nat (count_occ string_dec l x) + Z.of_nat (count_occ string_dec l' x).
Proof. rewrite count_occ_app. lia. Qed.

Lemma count_commits_spec (commits : list CommitData) (c : Counter.t) :
  (forall ext,
      Counter.get ext (count_commits commits c)
      = Counter.get ext c
        + Z.of_nat (count_occ string_dec
                      (map extension (flat_map files_changed commits)) ext))
  /\ (NoDup (map fst c) -> NoDup (map fst (count_commits commits c)))
  /\ (forall ext,
         In ext (map fst (count_commits commits c))
         <-> In ext (map fst c)
             \/ In ext (map extension (flat_map files_changed commits))).
Proof.
  unfold count_commits. revert c.
  induction commits as [|x commits IH]; intros c; cbn [fold_left flat_map map count_occ].
  - split; [intros; cbn; lia|]. split; [tauto|]. intros ext. cbn [In]. tauto.
  - destruct (IH (count_files (files_changed x) c)) as (H1 & H2 & H3).
    destruct (count_files_spec (files_changed x) c) as (F1 & F2 & F3).
    split; [|split].
    + intros ext. rewrite H1, F1, map_app, count_occ_app_Z. lia.
    + intros Hc. apply H2, F2, Hc.
    + intros ext. rewrite H3, F3, map_app, in_app_iff. tauto.
Qed.

(** X8: the tally [analyze_commits] builds counts, for every extension,
    the file paths with that extension among the changed files of the first
    100 commits; its keys are pairwise distinct and are the extensions that
    occur. *)
Theorem language_usage_counts (commits : list CommitData) :
  let paths := flat_map files_changed (firstn 100 commits) in
  let usage := language_usage_of commits in
  (forall ext,
      Counter.get ext usage
      = Z.of_nat (count_occ string_dec (map extension paths) ext))
  /\ NoDup (map fst usage)
  /\ (forall ext,
         In ext (map fst usage) <-> exists file, In file paths /\ extension file = ext).
Proof.
  intros paths usage. subst paths usage. unfold language_usage_of.
  destruct (count_commits_spec (firstn 100 commits) []) as (H1 & H2 & H3).
  split; [|split].
  - intros ext. now rewrite H1.
  - apply H2. constructor.
  - intros ext. split.
    + intros H. apply H3 in H. destruct H as [[]|H].
      apply in_map_iff in H. destruct H as (f & Hf & Hin). eauto.
    + intros (f & Hin & Hf). apply H3. right. apply in_map_iff. eauto.
Qed.

Lemma count_files_unknown (files : list string) (n : Z) :
  (forall f, In f files -> Str.contains "." f = false) -> 1 <= n ->
  count_files files [("unknown", n)] = [("unknown", n + Z.of_nat (List.length files))].
Proof.
  unfold count_files. revert n.
  induction files as [|f files IH]; intros n Hf Hn; cbn [fold_left List.length].
  - now rewrite Z.add_0_r.
  - unfold extension at 2. rewrite (Hf f) by now left.
    change (Counter.incr "unknown" [("unknown", n)]) with [("unknown", n + 1)].
    rewrite IH; [f_equal; f_equal; lia | intros; apply Hf; now right | lia].
Qed.

Lemma count_commits_unknown (commits : list CommitData) (n : Z) :
  (forall c f, In c commits -> In f (files_changed c) -> Str.contains "." f = false) ->
  1 <= n ->
  count_commits commits [("unknown", n)]
  = [("unknown", n + Z.of_nat (List.length (flat_map files_changed commits)))].
Proof.
  unfold count_commits. revert n.
  induction commits as [|c commits IH]; intros n Hf Hn; cbn [fold_left flat_map].
  - cbn. now rewrite Z.add_0_r.
  - rewrite count_files_unknown; [|intros f; apply Hf; now left | exact Hn].
    rewrite IH; [|intros c' f Hc; apply Hf; now right | lia].
    rewrite length_app. f_equal. f_equal. lia.
Qed.

(** X9: when no changed file path of the first 100 commits holds a dot,
    the whole tally sits in the one bucket "unknown", with the number of
    these paths; it is empty when there is no such path. *)
Theorem tally_without_dots (commits : list CommitData) :
  (forall c f,
      In c (firstn 100 commits) -> In f (files_changed c) ->
      Str.contains "." f = false) ->
  language_usage_of commits
  = match flat_map files_changed (firstn 100 commits) with
    | [] => []
    | paths => [("unknown", Z.of_nat (List.length paths))]
    end.
Proof.
  unfold language_usage_of. generalize (firstn 100 commits) as cs.
  induction cs as [|c cs IH]; intros Hf; [reflexivity|].
  unfold count_commits in *. cbn [fold_left flat_map].
  destruct (files_changed c) as [|f files] eqn:Hc.
  - cbn [count_files fold_left app]. apply IH. intros c' f' Hin. apply Hf. now right.
  - cbn [count_files fold_left app]. unfold extension at 2.
    assert (Str.contains "." f = false) as ->
        by (apply (Hf c); [now left | rewrite Hc; now left]).
    change (Counter.incr "unknown" []) with [("unknown", 1)].
    fold (count_files files [("unknown", 1)]).
    rewrite count_files_unknown;
      [|intros f' Hf'; apply (Hf c); [now left | rewrite Hc; now right] | lia].
    fold (count_commits cs [("unknown", 1 + Z.of_nat (List.length files))]).
    rewrite count_commits_unknown;
      [|intros c' f' Hc'; apply Hf; now right | lia].
    cbn [List.length]. rewrite length_app. f_equal. f_equal. lia.
Qed.

Lemma tally_without_dots_witness :
  language_usage_of
    [Samples.commit_touching ["Makefile"; "LICENSE"]; Samples.commit_touching ["Dockerfile"]]
  = [("unknown", 3)].
Proof.
  apply (tally_without_dots
           [Samples.commit_touching ["Makefile"; "LICENSE"];
            Samples.commit_touching ["Dockerfile"]]).
  intros c f [<-|[<-|[]]]; cbn; intros H;
    repeat (destruct H as [<-|H]; [reflexivity|]); destruct H.
Defined.

(** ** The fallback assessment *)

Lemma dict_set_fresh {V} (k : string) (v : V) (d : Dict.t V) :
  ~ In k (Dict.keys d) -> Dict.set k v d = d ++ [(k, v)].
Proof.
  unfold Dict.keys. induction d as [|[k0 v0] d IH]; cbn; [reflexivity|].
  intros H. destruct (String.eqb_spec k k0) as [->|_]; [tauto|].
  rewrite IH; [reflexivity | tauto].
Qed.

(** filling a table from entries with distinct keys keeps their order *)
Lemma dict_fill_distinct {V} (f : string * Z -> V) (items : list (string * Z))
      (d : Dict.t V) :
  NoDup (Dict.keys d ++ map fst items) ->
  fold_left (fun d lc => Dict.set (fst lc) (f lc) d) items d
  = d ++ map (fun lc => (fst lc, f lc)) items.
Proof.
  revert d. induction items as [|[k n] items IH]; intros d Hd; cbn [fold_left map fst].
  - now rewrite app_nil_r.
  - cbn [map fst] in Hd.
    assert (~ In k (Dict.keys d)) as Hk.
    { apply NoDup_remove_2 in Hd. intros H. apply Hd, in_or_app. now left. }
    rewrite (dict_set_fresh _ _ _ Hk), IH.
    + now rewrite <- app_assoc.
    + unfold Dict.keys in *. rewrite map_app, <- app_assoc. exact Hd.
Qed.

Lemma NoDup_firstn {A} (n : nat) (l : list A) : NoDup l -> NoDup (firstn n l).
Proof.
  intros H. rewrite <- (firstn_skipn n l) in H. now apply NoDup_app_remove_r in H.
Qed.

Lemma most_common_NoDup (n : nat) (c : Counter.t) :
  NoDup (map fst c) -> NoDup (map fst (Counter.most_common n c)).
Proof.
  intros H. unfold Counter.most_common. rewrite <- firstn_map.
  apply NoDup_firstn.
  eapply Permutation_NoDup; [|exact H].
  apply Permutation_map, Permutation_sym, sort_desc_perm.
Qed.

Lemma counter_total_cons (kv : string * Z) (c : Counter.t) :
  Counter.total (kv :: c) = snd kv + Counter.total c.
Proof. reflexivity. Qed.

Lemma counter_total_nonneg (c : Counter.t) : Counter.positive c -> 0 <= Counter.total c.
Proof.
  induction 1 as [|kv r Hn Hr IH]; [cbn; lia|]. rewrite counter_total_cons. lia.
Qed.

Lemma counter_le_total (c : Counter.t) (k : string) (n : Z) :
  Counter.positive c -> In (k, n) c -> 1 <= n <= Counter.total c.
Proof.
  induction 1 as [|kv r Hn Hr IH]; [intros []|].
  rewrite counter_total_cons. pose proof (counter_total_nonneg r Hr).
  intros [->|Hin]; [cbn in *; lia|]. specialize (IH Hin). lia.
Qed.

Lemma ltb_leb (x y : float) : PrimFloat.ltb x y = true -> PrimFloat.leb x y = true.
Proof.
  rewrite FloatAxioms.ltb_spec, FloatAxioms.leb_spec. unfold SFltb, SFleb.
  now destruct (SFcompare (Prim2SF x) (Prim2SF y)) as [[]|].
Qed.

(** [min(10, count / 10)] for a count from 1 below 2^53 *)
Lemma fallback_value_range (count : Z) :
  1 <= count < 2 ^ 53 ->
  PrimFloat.leb 0 (Float.py_min 10 (Float.of_int count / 10)) = true
  /\ PrimFloat.leb (Float.py_min 10 (Float.of_int count / 10)) 10 = true.
Proof.
  intros Hc. unfold Float.py_min.
  destruct (PrimFloat.ltb (Float.of_int count / 10) 10) eqn:Hlt;
    [|split; reflexivity].
  split; [|apply ltb_leb, Hlt].
  rewrite FloatAxioms.leb_spec. apply SFleb_zero_nonneg.
  assert (exists m e, Prim2SF 10%float = S754_finite false m e)
    as (m & e & H10) by (vm_compute; eauto).
  rewrite FloatAxioms.div_spec, H10.
  apply SFdiv_nonneg, of_int_nonneg. lia.
Qed.

(** X10: the fallback assessment rates the first five extensions of the
    whole tally put in order (every pair of the tally is ranked, so the
    denylist of the parser is not applied; no count stands before a larger
    one; the pairs of one count stand in the order of the tally), in that
    order, each with [min(10, count / 10)], a value between 0 and 10 for a
    tally below 2^53; its experience level and learning style are "Unable
    to determine". *)
Theorem fallback_skills (commits : list CommitData) :
  let usage := language_usage_of commits in
  let fallback := _create_fallback_assessment usage in
  (exists ranked,
      technical_skills fallback
      = map (fun lc => (fst lc, Float.py_min 10 (Float.of_int (snd lc) / 10)))
            (firstn 5 ranked)
      /\ Permutation ranked usage
      /\ StronglySorted (fun x y => snd y <= snd x) ranked
      /\ forall count,
          filter (fun kv => snd kv =? count) ranked
          = filter (fun kv => snd kv =? count) usage)
  /\ (List.length (technical_skills fallback) <= 5)%nat
  /\ (Counter.total usage < 2 ^ 53 ->
      forall lang v,
        In (lang, v) (technical_skills fallback) ->
        PrimFloat.leb 0 v = true /\ PrimFloat.leb v 10 = true)
  /\ experience_level fallback = "Unable to determine"
  /\ learning_style fallback = "Unable to determine".
Proof.
  intros usage fallback.
  assert (technical_skills fallback
          = map (fun lc => (fst lc, Float.py_min 10 (Float.of_int (snd lc) / 10)))
                (Counter.most_common 5 usage)) as Hskills.
  { subst fallback. unfold _create_fallback_assessment. cbn [technical_skills].
    rewrite (dict_fill_distinct
               (fun lc => Float.py_min 10 (Float.of_int (snd lc) / 10))); [reflexivity|].
    cbn [Dict.keys map app]. apply most_common_NoDup.
    apply (count_commits_spec (firstn 100 commits) []). constructor. }
  rewrite Hskills. split; [|split; [|split; [|split; reflexivity]]].
  - destruct (most_common_ranked 5 usage) as (ranked & -> & Hranked).
    exists ranked. split; [reflexivity | exact Hranked].
  - rewrite length_map. unfold Counter.most_common. apply firstn_le_length.
  - intros Htotal lang v Hin. apply in_map_iff in Hin.
    destruct Hin as ([k n] & [= <- <-] & Hin). cbn [snd].
    apply most_common_In in Hin.
    pose proof (counter_le_total usage k n (language_usage_positive commits) Hin).
    apply fallback_value_range. lia.
Qed.

Lemma fallback_skills_witness :
  language_usage_of Samples.commits_code_first
  = [("py", 1); ("md", 3); ("json", 2); ("txt", 1)]
  /\ technical_skills
       (_create_fallback_assessment (language_usage_of Samples.commits_code_first))
     = [("md", 0.3%float); ("json", 0.2%float); ("py", 0.1%float);
        ("txt", 0.1%float)]
  /\ PrimFloat.leb 0 0.3 = true
  /\ PrimFloat.leb 0.3 10 = true.
Proof.
  split; [vm_compute; reflexivity|].
  assert (technical_skills
            (_create_fallback_assessment
               (language_usage_of Samples.commits_code_first))
          = [("md", 0.3%float); ("json", 0.2%float); ("py", 0.1%float);
             ("txt", 0.1%float)]) as Hs
      by (vm_compute; reflexivity).
  split; [exact Hs|].
  destruct (fallback_skills Samples.commits_code_first) as (_ & _ & H & _).
  apply (H ltac:(vm_compute; reflexivity) "md" 0.3%float).
  rewrite Hs. left. reflexivity.
Defined.

(** ** The lines of the reply *)

Lemma prefix_drop (p l : string) :
  String.prefix p l = true -> l = (p ++ Str.drop (String.length p) l)%string.
Proof.
  revert l. induction p as [|a p IH]; intros l; [reflexivity|].
  destruct l as [|b l]; cbn; [discriminate|].
  destruct (ascii_dec a b) as [<-|]; [|discriminate].
  intros H. f_equal. apply IH, H.
Qed.

(** The second bullet begins with U+201A, and a character of the texts
    covered here is below U+0100: no line begins with it. *)
Lemma second_bullet_absent (line : string) :
  starts_with_codes second_bullet line = false.
Proof.
  destruct line as [|c rest]; [reflexivity|].
  cbn [starts_with_codes second_bullet].
  destruct (N.eqb_spec (N_of_ascii c) 8218) as [E|]; [|reflexivity].
  pose proof (N_ascii_bounded c) as Hb. rewrite E in Hb.
  apply N.ltb_lt in Hb. discriminate Hb.
Qed.

Lemma scan_line_collected (lines : list string) (st : scan) (line : string) :
  In line lines ->
  Forall (collected_from lines) (found_strengths st) ->
  Forall (collected_from lines) (found_improvements st) ->
  Forall (collected_from lines) (found_strengths (scan_line st line))
  /\ Forall (collected_from lines) (found_improvements (scan_line st line)).
Proof.
  intros Hin Hs Hi. unfold scan_line.
  destruct (Str.contains "STRENGTHS" (Str.upper (Str.strip line))) eqn:E1;
    [now split|].
  destruct (Str.contains "IMPROVEMENT" (Str.upper (Str.strip line))) eqn:E2;
    [now split|].
  destruct (Str.contains "AREAS" (Str.upper (Str.strip line))) eqn:E3;
    [now split|].
  cbn [orb]. rewrite second_bullet_absent, orb_false_r.
  destruct (String.prefix "- " (Str.strip line)) eqn:Ep; [|now split].
  assert (collected_from lines (Str.drop 2 (Str.strip line))) as Hc.
  { exists line. split; [exact Hin|]. split; [|auto].
    apply (prefix_drop "- "), Ep. }
  destruct (current_section st) as [[]|]; cbn [found_strengths found_improvements];
    split; auto; apply Forall_app; auto.
Qed.

Lemma scan_lines_collected (lines : list string) :
  forall (ls : list string) (st : scan),
    incl ls lines ->
    Forall (collected_from lines) (found_strengths st) ->
    Forall (collected_from lines) (found_improvements st) ->
    Forall (collected_from lines) (found_strengths (fold_left scan_line ls st))
    /\ Forall (collected_from lines) (found_improvements (fold_left scan_line ls st)).
Proof.
  induction ls as [|l ls IH]; intros st Hincl Hs Hi; [now split|].
  cbn [fold_left].
  destruct (scan_line_collected lines st l) as [H1 H2]; auto.
  - apply Hincl. now left.
  - apply IH; auto. intros x Hx. apply Hincl. now right.
Qed.

(** without a line that names the strengths, none is collected *)
Lemma scan_lines_no_strengths :
  forall (ls : list string) (st : scan),
    (forall l, In l ls -> Str.contains "STRENGTHS" (Str.upper (Str.strip l)) = false) ->
    found_strengths st = [] -> current_section st <> Some in_strengths ->
    found_strengths (fold_left scan_line ls st) = [].
Proof.
  induction ls as [|l ls IH]; intros st Hl Hs Hc; [exact Hs|].
  cbn [fold_left]. apply IH.
  - intros l' Hl'. apply Hl. now right.
  - unfold scan_line. rewrite (Hl l) by now left.
    repeat match goal with
           | |- context [if ?b then _ else _] => destruct b
           end; try exact Hs.
    destruct (current_section st) as [[]|] eqn:Ec;
      cbn [current_section found_strengths found_improvements];
      rewrite ?Ec, ?Hs; first [congruence | discriminate | reflexivity].
  - unfold scan_line. rewrite (Hl l) by now left.
    repeat match goal with
           | |- context [if ?b then _ else _] => destruct b
           end; try exact Hc; try discriminate.
    destruct (current_section st) as [[]|] eqn:Ec;
      cbn [current_section found_strengths found_improvements];
      rewrite ?Ec, ?Hs; first [congruence | discriminate | reflexivity].
Qed.

(** without a line that names improvements or areas, none is collected *)
Lemma scan_lines_no_improvements :
  forall (ls : list string) (st : scan),
    (forall l, In l ls ->
               Str.contains "IMPROVEMENT" (Str.upper (Str.strip l)) = false
               /\ Str.contains "AREAS" (Str.upper (Str.strip l)) = false) ->
    found_improvements st = [] -> current_section st <> Some in_improvements ->
    found_improvements (fold_left scan_line ls st) = [].
Proof.
  induction ls as [|l ls IH]; intros st Hl Hs Hc; [exact Hs|].
  cbn [fold_left]. destruct (Hl l ltac:(now left)) as [H1 H2]. apply IH.
  - intros l' Hl'. apply Hl. now right.
  - unfold scan_line. rewrite H1, H2. cbn [orb].
    repeat match goal with
           | |- context [if ?b then _ else _] => destruct b
           end; try exact Hs.
    destruct (current_section st) as [[]|] eqn:Ec;
      cbn [current_section found_strengths found_improvements];
      rewrite ?Ec, ?Hs; first [congruence | discriminate | reflexivity].
  - unfold scan_line. rewrite H1, H2. cbn [orb].
    repeat match goal with
           | |- context [if ?b then _ else _] => destruct b
           end; try exact Hc; try discriminate.
    destruct (current_section st) as [[]|] eqn:Ec;
      cbn [current_section found_strengths found_improvements];
      rewrite ?Ec, ?Hs; first [congruence | discriminate | reflexivity].
Qed.

Lemma parse_lists (text : string) (usage : Counter.t) (a : SkillAssessment) :
  _parse_ai_response text usage = Ok a ->
  strengths a = firstn 5 (found_strengths (scan_reply text))
  /\ improvement_areas a = firstn 5 (found_improvements (scan_reply text)).
Proof.
  unfold _parse_ai_response.
  destruct (skills_loop usage (Counter.most_common 10 usage) []) as [d|e];
    [|discriminate].
  intros [= <-]. split; reflexivity.
Qed.

Lemma Forall_firstn {A} (P : A -> Prop) (n : nat) (l : list A) :
  Forall P l -> Forall P (firstn n l).
Proof.
  rewrite !Forall_forall. intros H x Hx. apply H. eapply In_firstn, Hx.
Qed.

(** X11: of a reply whose characters are all below U+0100, an assessment
    keeps at most five strengths and five improvement areas.  Each is the
    text after the bullet ["- "] of a line of the reply, blanks around the
    line removed (the other bullet the source accepts begins with U+201A,
    which no such line holds), and that line holds none of the words
    STRENGTHS, IMPROVEMENT and AREAS in any case: a bullet with one of
    these words is read as a heading.  A reply without a line that names
    the strengths yields no strength, and one without a line that names
    improvements or areas yields no improvement area. *)
Theorem parsed_lists_from_bullets (text : string) (usage : Counter.t)
        (a : SkillAssessment) :
  _parse_ai_response text usage = Ok a ->
  let lines := Str.split "010" text in
  (List.length (strengths a) <= 5)%nat
  /\ (List.length (improvement_areas a) <= 5)%nat
  /\ Forall (collected_from lines) (strengths a)
  /\ Forall (collected_from lines) (improvement_areas a)
  /\ ((forall l, In l lines ->
                 Str.contains "STRENGTHS" (Str.upper (Str.strip l)) = false) ->
      strengths a = [])
  /\ ((forall l, In l lines ->
                 Str.contains "IMPROVEMENT" (Str.upper (Str.strip l)) = false
                 /\ Str.contains "AREAS" (Str.upper (Str.strip l)) = false) ->
      improvement_areas a = []).
Proof.
  intros H lines. apply parse_lists in H. destruct H as [-> ->].
  unfold scan_reply. fold lines.
  destruct (scan_lines_collected
              lines lines
              {| current_section := None; found_strengths := [];
                 found_improvements := [] |})
    as [Hs Hi]; [apply incl_refl | constructor | constructor |].
  split; [apply firstn_le_length|]. split; [apply firstn_le_length|].
  split; [apply Forall_firstn, Hs|]. split; [apply Forall_firstn, Hi|].
  split; intros Hl.
  - rewrite scan_lines_no_strengths; [reflexivity | exact Hl | reflexivity | discriminate].
  - rewrite scan_lines_no_improvements;
      [reflexivity | exact Hl | reflexivity | discriminate].
Qed.

Lemma parsed_lists_from_bullets_witness :
  exists a,
    _parse_ai_response Samples.reply_with_areas_bullet
                       (language_usage_of Samples.commits_docs_first) = Ok a
    /\ strengths a = ["Clear commits"]
    /\ improvement_areas a = ["Wide tooling"]
    /\ Forall (collected_from (Str.split "010" Samples.reply_with_areas_bullet))
              (strengths a).
Proof.
  destruct (_parse_ai_response Samples.reply_with_areas_bullet
              (language_usage_of Samples.commits_docs_first)) as [a|e] eqn:E;
    [|vm_compute in E; discriminate E].
  exists a. split; [reflexivity|].
  split; [vm_compute in E; injection E as <-; reflexivity|].
  split; [vm_compute in E; injection E as <-; reflexivity|].
  exact (proj1 (proj2 (proj2 (parsed_lists_from_bullets _ _ a E)))).
Defined.

(** ** Where the assessment comes from *)

(** X12: [analyze_commits] hands out the parsed assessment exactly when the
    chat call came back with a text, be it empty or without any section:
    then the confidence is 0.8 and the lists are those read from the text.
    When the call raised or its content is [None], it hands out the
    fallback assessment, with confidence 0.3. *)
Theorem analyze_commits_provenance (reply : chat_outcome) (commits : list CommitData) :
  let assessment := analyze_commits reply commits in
  let usage := language_usage_of commits in
  match reply with
  | ChatReply (Some text) =>
      _parse_ai_response text usage = Ok assessment
      /\ confidence_score assessment = 0.8%float
      /\ strengths assessment = firstn 5 (found_strengths (scan_reply text))
  | _ =>
      assessment = _create_fallback_assessment usage
      /\ confidence_score assessment = 0.3%float
      /\ strengths assessment = ["Active contributor"; "Multi-language experience"]
  end.
Proof.
  intros assessment usage. subst assessment usage. unfold analyze_commits.
  destruct reply as [e|[text|]]; try (repeat split; reflexivity).
  destruct (parse_returns text _ (language_usage_positive commits)) as [a Ha].
  rewrite Ha. split; [reflexivity|].
  pose proof (parse_fields _ _ _ Ha) as (_ & _ & _ & Hc).
  pose proof (parse_lists _ _ _ Ha) as (Hs & _). auto.
Qed.

(** ** The recommendations *)

(** X13: the recommendations always end with the block "Communication &
    Documentation" and hold one to three blocks: in front of it, first the
    block "Technical Skills Development" when there are improvement areas,
    with "Focus on: " before each of the first three, then the block of the
    tier for "Junior" and "Mid-level".  So an assessment read from a reply
    gets the block "Foundation Building" exactly when the tally is below
    50, and the fallback assessment gets the two blocks "Technical Skills
    Development" and "Communication & Documentation". *)
Theorem learning_recommendations_blocks :
  let recommend := ReportGenerator._generate_learning_recommendations in
  let categories := fun skills => map ReportGenerator.category (recommend skills) in
  (forall skills,
      let technical :=
        match improvement_areas skills with
        | [] => []
        | areas =>
            [{| ReportGenerator.category := "Technical Skills Development";
                ReportGenerator.priority := "High";
                ReportGenerator.items :=
                  map (fun area => ("Focus on: " ++ area)%string) (firstn 3 areas) |}]
        end in
      exists tier,
        recommend skills
        = technical ++ tier
          ++ [{| ReportGenerator.category := "Communication & Documentation";
                 ReportGenerator.priority := "Medium";
                 ReportGenerator.items :=
                   ["Improve README quality with examples";
                    "Write technical blog posts";
                    "Create architecture decision records";
                    "Practice explaining complex concepts simply"] |}]
        /\ map ReportGenerator.category tier
           = (if String.eqb (experience_level skills) "Junior"
              then ["Foundation Building"]
              else if String.eqb (experience_level skills) "Mid-level"
                   then ["Advanced Development"]
                   else [])
        /\ (1 <= List.length (recommend skills) <= 3)%nat)
  /\ (forall text commits,
         In "Foundation Building"
            (categories (analyze_commits (ChatReply (Some text)) commits))
         <-> Counter.total (language_usage_of commits) < 50)
  /\ (forall e commits,
         categories (analyze_commits (ChatRaises e) commits)
         = ["Technical Skills Development"; "Communication & Documentation"]).
Proof.
  intros recommend categories. subst recommend categories. split; [|split].
  - intros skills technical. subst technical.
    unfold ReportGenerator._generate_learning_recommendations.
    exists (if String.eqb (experience_level skills) "Junior" then
              [{| ReportGenerator.category := "Foundation Building";
                  ReportGenerator.priority := "High";
                  ReportGenerator.items :=
                    ["Master version control best practices";
                     "Learn test-driven development";
                     "Study software design patterns";
                     "Practice code review skills"] |}]
            else if String.eqb (experience_level skills) "Mid-level" then
              [{| ReportGenerator.category := "Advanced Development";
                  ReportGenerator.priority := "Medium";
                  ReportGenerator.items :=
                    ["Explore system architecture patterns";
                     "Contribute to open source projects";
                     "Mentor junior developers";
                     "Learn about DevOps practices"] |}]
            else []).
    destruct (String.eqb (experience_level skills) "Junior");
      [|destruct (String.eqb (experience_level skills) "Mid-level")];
      destruct (improvement_areas skills) as [|area areas];
      (split; [reflexivity|]); (split; [reflexivity|]); cbn [app List.length]; lia.
  - intros text commits. unfold analyze_commits.
    destruct (parse_returns text _ (language_usage_positive commits)) as [a Ha].
    rewrite Ha.
    pose proof (parse_fields _ _ _ Ha) as (_ & Hlevel & _).
    unfold ReportGenerator._generate_learning_recommendations.
    rewrite Hlevel. unfold experience_of.
    destruct (Z.ltb_spec (Counter.total (language_usage_of commits)) 50) as [Hlt|Hge].
    + change (String.eqb "Junior" "Junior") with true. cbn iota.
      split; [intros _; exact Hlt|]. intros _.
      rewrite !map_app. apply in_or_app. left. apply in_or_app. right. now left.
    + split; [|lia]. intros Hin. exfalso.
      destruct (Counter.total (language_usage_of commits) <? 200);
        destruct (improvement_areas a); cbn in Hin;
        repeat (destruct Hin as [Hin|Hin]; [discriminate Hin|]); exact Hin.
  - intros e commits. reflexivity.
Qed.

(** ** The activity summary *)

(** [max(...)] keeps the first of the commits with the most additions *)
Lemma max_additions_first (rest : list CommitData) :
  forall (front done : list CommitData) (best : CommitData),
    Forall (fun c => additions c < additions best) front ->
    Forall (fun c => additions c <= additions best) done ->
    exists before after,
      front ++ best :: done ++ rest
      = before ++ ReportGenerator.max_additions best rest :: after
      /\ Forall (fun c => additions c
                          < additions (ReportGenerator.max_additions best rest)) before
      /\ Forall (fun c => additions c
                          <= additions (ReportGenerator.max_additions best rest)) after.
Proof.
  induction rest as [|c rest IH]; intros front done best Hfront Hdone;
    cbn [ReportGenerator.max_additions].
  - exists front, done. rewrite app_nil_r. auto.
  - destruct (Z.ltb_spec (additions best) (additions c)) as [Hlt|Hge].
    + destruct (IH (front ++ best :: done) [] c) as (before & after & Heq & H1 & H2).
      * apply Forall_app. split.
        -- eapply Forall_impl; [|exact Hfront]. cbn. intros; lia.
        -- constructor; [exact Hlt|].
           eapply Forall_impl; [|exact Hdone]. cbn. intros; lia.
      * constructor.
      * exists before, after. split; [|auto].
        rewrite <- Heq, <- app_assoc. reflexivity.
    + destruct (IH front (done ++ [c]) best) as (before & after & Heq & H1 & H2).
      * exact Hfront.
      * apply Forall_app. split; [exact Hdone|]. constructor; [lia | constructor].
      * exists before, after. split; [|auto].
        rewrite <- Heq, <- app_assoc. reflexivity.
Qed.

Lemma sum_from (l : list Z) (a : Z) : fold_left Z.add l a = a + ReportGenerator.sum l.
Proof.
  unfold ReportGenerator.sum. revert a.
  induction l as [|x l IH]; intros a; cbn [fold_left]; [lia|].
  rewrite IH, (IH (0 + x)). lia.
Qed.

Lemma sum_app (l l' : list Z) :
  ReportGenerator.sum (l ++ l') = ReportGenerator.sum l + ReportGenerator.sum l'.
Proof.
  unfold ReportGenerator.sum at 1. rewrite fold_left_app, sum_from.
  fold (ReportGenerator.sum l). lia.
Qed.

Lemma nodup_length_bounds (l : list string) :
  l <> [] ->
  (1 <= List.length (nodup string_dec l) <= List.length l)%nat.
Proof.
  intros Hne. split.
  - destruct l as [|x l]; [contradiction|].
    assert (In x (nodup string_dec (x :: l))) as Hin by (apply nodup_In; now left).
    destruct (nodup string_dec (x :: l)); [destruct Hin | cbn; lia].
  - apply NoDup_incl_length; [apply NoDup_nodup|].
    intros x Hx. now apply nodup_In in Hx.
Qed.

(** X14: in the report of a list of commits that is not empty, the most
    active repository is the repository of the first commit that has the
    most additions; the number of active repositories lies between 1 and
    the number of commits and is 1 exactly when all commits are of one
    repository; and the totals of two lists of commits add up. *)
Theorem report_activity_summary
        (user : string) (now : Z) (profile : json) (repos : list RepositoryData)
        (collaboration : CollaborationData) (skills : SkillAssessment) :
  let summary := fun commits =>
    ReportGenerator.activity_summary
      (ReportGenerator.generate_json_report
         user now profile commits repos collaboration skills) in
  (forall commits,
      commits <> [] ->
      (exists before best after,
          commits = before ++ best :: after
          /\ ReportGenerator.most_active_repo (summary commits) = Some (repo_name best)
          /\ Forall (fun c => additions c < additions best) before
          /\ Forall (fun c => additions c <= additions best) after)
      /\ 1 <= ReportGenerator.active_repositories (summary commits)
           <= ReportGenerator.total_commits (summary commits)
      /\ (ReportGenerator.active_repositories (summary commits) = 1
          <-> forall c c', In c commits -> In c' commits -> repo_name c = repo_name c'))
  /\ (forall commits commits',
         ReportGenerator.total_commits (summary (commits ++ commits'))
         = ReportGenerator.total_commits (summary commits)
           + ReportGenerator.total_commits (summary commits')
         /\ ReportGenerator.total_additions (summary (commits ++ commits'))
            = ReportGenerator.total_additions (summary commits)
              + ReportGenerator.total_additions (summary commits')
         /\ ReportGenerator.total_deletions (summary (commits ++ commits'))
            = ReportGenerator.total_deletions (summary commits)
              + ReportGenerator.total_deletions (summary commits')).
Proof.
  intros summary. subst summary.
  cbn [ReportGenerator.generate_json_report ReportGenerator.activity_summary
       ReportGenerator.most_active_repo ReportGenerator.active_repositories
       ReportGenerator.total_commits ReportGenerator.total_additions
       ReportGenerator.total_deletions].
  split.
  - intros commits Hne. destruct commits as [|c rest]; [contradiction|].
    split; [|split].
    + destruct (max_additions_first rest [] [] c) as (before & after & Heq & H1 & H2);
        [constructor | constructor |].
      exists before, (ReportGenerator.max_additions c rest), after. auto.
    + pose proof (nodup_length_bounds (map repo_name (c :: rest)) ltac:(discriminate))
        as Hb.
      rewrite length_map in Hb. lia.
    + pose proof (nodup_length_bounds (map repo_name (c :: rest)) ltac:(discriminate))
        as Hb.
      split.
      * intros H1 x y Hx Hy.
        assert (forall z, In z (c :: rest) ->
                          In (repo_name z) (nodup string_dec (map repo_name (c :: rest))))
          as Hin by (intros z Hz; apply nodup_In, in_map, Hz).
        pose proof (Hin x Hx) as Hx'. pose proof (Hin y Hy) as Hy'.
        destruct (nodup string_dec (map repo_name (c :: rest))) as [|n [|n' l]];
          cbn [List.length] in H1; try lia.
        destruct Hx' as [<-|[]]. destruct Hy' as [<-|[]]. reflexivity.
      * intros Hsame.
        assert (incl (nodup string_dec (map repo_name (c :: rest))) [repo_name c]) as Hincl.
        { intros n Hn. apply nodup_In, in_map_iff in Hn.
          destruct Hn as (z & <- & Hz). left. apply Hsame; [now left | exact Hz]. }
        apply NoDup_incl_length in Hincl; [|apply NoDup_nodup].
        cbn [List.length] in Hincl. lia.
  - intros commits commits'. rewrite length_app, !map_app, !sum_app. lia.
Qed.

Lemma report_activity_summary_witness :
  exists before best after,
    [Samples.commit_in "notes" 3; Samples.commit_in "skills" 40;
     Samples.commit_in "dotfiles" 40]
    = before ++ best :: after
    /\ ReportGenerator.most_active_repo
         (ReportGenerator.activity_summary
            (ReportGenerator.generate_json_report
               "dang-w" 0 JNull
               [Samples.commit_in "notes" 3; Samples.commit_in "skills" 40;
                Samples.commit_in "dotfiles" 40]
               [] (GitHubAnalyzer.analyze_collaboration_patterns [])
               (_create_fallback_assessment [])))
       = Some (repo_name best)
    /\ Forall (fun c => additions c < additions best) before
    /\ Forall (fun c => additions c <= additions best) after.
Proof.
  apply (proj1 (report_activity_summary
                  "dang-w" 0 JNull []
                  (GitHubAnalyzer.analyze_collaboration_patterns [])
                  (_create_fallback_assessment []))
               [Samples.commit_in "notes" 3; Samples.commit_in "skills" 40;
                Samples.commit_in "dotfiles" 40]).
  discriminate.
Defined.

(** ** The month count *)

(** X15: a month count in the environment that [int] does not accept (a
    text that is no integer literal, or one of more than 4300 digits) ends
    [main] with a [ValueError] before anything else is done: nothing is
    logged, printed or requested, the missing key is not reported, and the
    process exits with status 1. *)
Theorem main_rejects_month_count (w : world) (steps : string -> Z -> json -> io unit)
        (env : environ) (months : string) (e : exn) :
  ANALYSIS_MONTHS env = Some months ->
  int_of_str months = Raise e ->
  main w steps env [] = (Raise ValueError, [])
  /\ exit_status w steps env = 1.
Proof.
  intros Hm He. unfold exit_status, main, bind, lift. rewrite Hm, He.
  pose proof (int_of_str_raises _ _ He) as ->. split; reflexivity.
Qed.

Lemma main_rejects_month_count_witness :
  (main Samples.world_online Samples.steps_that_return Samples.env_with_bad_months []
   = (Raise ValueError, [])
   /\ exit_status Samples.world_online Samples.steps_that_return
                  Samples.env_with_bad_months = 1)
  /\ (main Samples.world_online Samples.steps_that_return
           Samples.env_with_separator_in_months []
      = (Raise ValueError, [])
      /\ exit_status Samples.world_online Samples.steps_that_return
                     Samples.env_with_separator_in_months = 1).
Proof.
  split.
  - apply (main_rejects_month_count
             Samples.world_online Samples.steps_that_return
             Samples.env_with_bad_months "six" ValueError); reflexivity.
  - apply (main_rejects_month_count
             Samples.world_online Samples.steps_that_return
             Samples.env_with_separator_in_months
             (String "6" (String "031" EmptyString)) ValueError); reflexivity.
Defined.

(** ** The rate-limit records *)

(** X16: what [_make_request] writes to the log after the request, for an
    answer whose status is not from 400 to 599.  When a rate-limit header
    holds no integer, or when fewer than 10 requests remain and the reset
    time cannot be converted, nothing is written (an exception is raised).
    Otherwise: a warning when fewer than 10 requests remain, a note when
    fewer than 100 remain, nothing from 100 on; and then an error record
    when the body is no JSON or its decoding raises a [RequestException].
    An answer without the header ["X-RateLimit-Remaining"] counts as 0
    remaining, so it is handled as a low rate limit. *)
Theorem make_request_rate_limit_log (w : world) (endpoint : string) (t : trace)
        (resp : Response) :
  http_get w (GitHubAnalyzer.base_url ++ endpoint)%string = Answer resp ->
  ~ 400 <= status_code resp < 600 ->
  snd (GitHubAnalyzer._make_request w endpoint t)
  = t ++ [Get (GitHubAnalyzer.base_url ++ endpoint)%string]
      ++ match header_int "X-RateLimit-Remaining" (headers resp),
               header_int "X-RateLimit-Reset" (headers resp) with
         | Ok remaining, Ok reset_time =>
             match (if remaining <? 10 then fromtimestamp_error w reset_time
                    else None) with
             | Some _ => []
             | None =>
                 (if remaining <? 10 then [Log WARNING "Rate limit low"]
                  else if remaining <? 100 then [Log INFO "Rate limit status"]
                       else [])
                 ++ match json_error resp with
                    | Some e =>
                        if is_RequestException e
                        then [Log ERROR "API request failed"] else []
                    | None =>
                        match body resp with
                        | Some _ => []
                        | None => [Log ERROR "API request failed"]
                        end
                    end
             end
         | _, _ => []
         end
  /\ (find (fun kv => String.eqb (Str.lower "X-RateLimit-Remaining")
                                 (Str.lower (fst kv))) (headers resp) = None ->
      header_int "X-RateLimit-Remaining" (headers resp) = Ok 0).
Proof.
  intros Hget Hstatus. split.
  - cbv [GitHubAnalyzer._make_request try_except bind lift
         GitHubAnalyzer.session_get GitHubAnalyzer.raise_for_status
         GitHubAnalyzer.response_json GitHubAnalyzer.fromtimestamp emit ret throw].
    rewrite Hget. cbv beta iota.
    destruct ((400 <=? status_code resp) && (status_code resp <? 600)) eqn:Hs.
    { apply andb_true_iff in Hs as [H1 H2].
      apply Z.leb_le in H1. apply Z.ltb_lt in H2. lia. }
    destruct (header_int "X-RateLimit-Remaining" (headers resp))
      as [remaining|e1] eqn:Hrem.
    2: { rewrite (header_int_raises _ _ _ Hrem).
         destruct (header_int "X-RateLimit-Reset" (headers resp));
           cbn [fst snd is_RequestException]; rewrite ?app_nil_r; reflexivity. }
    destruct (header_int "X-RateLimit-Reset" (headers resp))
      as [reset_time|e2] eqn:Hreset.
    2: { rewrite (header_int_raises _ _ _ Hreset).
         cbn [fst snd is_RequestException]. rewrite ?app_nil_r. reflexivity. }
    destruct (remaining <? 10).
    + destruct (fromtimestamp_error w reset_time) as [[]|];
        [cbn [fst snd is_RequestException exn_of_time_error];
         rewrite ?app_nil_r; reflexivity ..|].
      destruct (json_error resp) as [e|];
        [destruct (is_RequestException e) eqn:He | destruct (body resp)];
        cbn [fst snd is_RequestException]; rewrite ?He; cbn [fst snd];
        rewrite <- ?app_assoc, ?app_nil_r; reflexivity.
    + destruct (remaining <? 100);
        (destruct (json_error resp) as [e|];
         [destruct (is_RequestException e) eqn:He | destruct (body resp)]);
        cbn [fst snd is_RequestException]; rewrite ?He; cbn [fst snd];
        rewrite <- ?app_assoc, ?app_nil_r; reflexivity.
  - intros Habsent. unfold header_int. rewrite Habsent. reflexivity.
Qed.

Lemma make_request_rate_limit_log_witness :
  snd (GitHubAnalyzer._make_request Samples.world_without_headers "/users/dang-w" [])
  = [Get "https://api.github.com/users/dang-w"; Log WARNING "Rate limit low"]
  /\ snd (GitHubAnalyzer._make_request Samples.world_far_reset "/users/dang-w" [])
     = [Get "https://api.github.com/users/dang-w"]
  /\ snd (GitHubAnalyzer._make_request Samples.world_odd_header "/users/dang-w" [])
     = [Get "https://api.github.com/users/dang-w"].
Proof.
  split; [|split].
  - apply (proj1 (make_request_rate_limit_log
                    Samples.world_without_headers "/users/dang-w" []
                    Samples.answer_without_headers eq_refl
                    ltac:(cbn; lia))).
  - apply (proj1 (make_request_rate_limit_log
                    Samples.world_far_reset "/users/dang-w" []
                    Samples.answer_far_reset eq_refl
                    ltac:(cbn; lia))).
  - apply (proj1 (make_request_rate_limit_log
                    Samples.world_odd_header "/users/dang-w" []
                    Samples.answer_odd_header eq_refl
                    ltac:(cbn; lia))).
Defined.

(** ** The two periods *)

Lemma take_length (n : nat) (s : string) : (String.length (Str.take n s) <= n)%nat.
Proof.
  unfold Str.take. revert s. induction n as [|n IH]; intros [|c s]; cbn; try lia.
  specialize (IH s). lia.
Qed.

Lemma tally_commit_agrees (early : list CommitData) (st : Tallies) (commit : CommitData) :
  tallies_agree st -> tallies_agree (tally_commit early st commit).
Proof.
  intros (Hlen & Hget & Hmsg). unfold tally_commit.
  destruct (existsb (CommitData_eqb commit) early);
    (split; [|split]);
    cbn [commit_summaries language_usage early_period recent_period add_to_period
         period_commits period_languages].
  all: try (rewrite !length_app; cbn [List.length]; lia).
  all: try (apply Forall_app; split; [exact Hmsg|];
            constructor; [apply take_length | constructor]).
  all: intros ext;
    rewrite !(proj1 (count_files_spec (files_changed commit) _) ext);
    specialize (Hget ext); lia.
Qed.

Lemma tally_commits_run (early : list CommitData) :
  forall (processed : list CommitData) (st : Tallies),
    tallies_agree st ->
    let st' := fold_left (tally_commit early) processed st in
    tallies_agree st'
    /\ language_usage st' = count_commits processed (language_usage st)
    /\ List.length (commit_summaries st')
       = (List.length (commit_summaries st) + List.length processed)%nat
    /\ (early = [] ->
        period_commits (early_period st') = period_commits (early_period st)).
Proof.
  induction processed as [|c processed IH]; intros st Hst; cbn [fold_left].
  - repeat split; try apply Hst; cbn; auto.
  - destruct (IH (tally_commit early st c) (tally_commit_agrees early st c Hst))
      as (H1 & H2 & H3 & H4).
    split; [exact H1|]. split; [|split].
    + rewrite H2. reflexivity.
    + rewrite H3. cbn [tally_commit commit_summaries List.length].
      rewrite length_app. cbn [List.length]. lia.
    + intros ->. rewrite (H4 eq_refl). reflexivity.
Qed.

(** X17: the loop of [analyze_commits] over the first 100 commits puts
    every commit it sees into one of the two periods: the summaries of the
    early and of the recent period together are as many as the commits
    seen, which are at most 100; for every extension the tallies of the two
    periods add up to the overall tally; no summary holds more than 200
    characters of the message.  The early period is half of all commits when
    sorted by date, so with fewer than two commits everything is recent. *)
Theorem periods_split_the_commits (commits : list CommitData) :
  let st := tally_commits commits in
  language_usage st = language_usage_of commits
  /\ List.length (commit_summaries st) = Nat.min 100 (List.length commits)
  /\ (List.length (period_commits (early_period st))
      + List.length (period_commits (recent_period st))
      = List.length (commit_summaries st))%nat
  /\ (forall ext,
         Counter.get ext (period_languages (early_period st))
         + Counter.get ext (period_languages (recent_period st))
         = Counter.get ext (language_usage st))
  /\ Forall (fun s => (String.length (summary_message s) <= 200)%nat)
            (commit_summaries st)
  /\ List.length (early_commits commits) = (List.length commits / 2)%nat
  /\ ((List.length commits <= 1)%nat -> period_commits (early_period st) = []).
Proof.
  intros st. subst st. unfold tally_commits.
  destruct (tally_commits_run
              (early_commits commits) (firstn 100 commits)
              {| commit_summaries := [];
                 language_usage := [];
                 early_period := {| period_commits := []; period_languages := [] |};
                 recent_period := {| period_commits := []; period_languages := [] |} |})
    as ((H1 & H2 & H3) & H4 & H5 & H6).
  { split; [reflexivity|]. split; [intros; reflexivity | constructor]. }
  assert (List.length (early_commits commits) = (List.length commits / 2)%nat) as Hearly.
  { unfold early_commits, commits_sorted. rewrite sort_desc_length.
    destruct (Nat.ltb_spec 0 (List.length commits / 2)) as [Hpos|Hzero].
    - rewrite firstn_length_le; [reflexivity|]. rewrite sort_desc_length.
      apply Nat.Div0.div_le_upper_bound. lia.
    - cbn [List.length]. lia. }
  split; [exact H4|]. split; [rewrite H5, length_firstn; reflexivity|].
  split; [exact H1|]. split; [exact H2|]. split; [exact H3|].
  split; [exact Hearly|].
  intros Hone. apply H6.
  assert (List.length commits / 2 = 0)%nat as Hz.
  { destruct commits as [|c [|c' cs]]; cbn in *; try reflexivity; lia. }
  rewrite Hz in Hearly. now destruct (early_commits commits).
Qed.

Lemma periods_split_the_commits_witness :
  period_commits (early_period (tally_commits [Samples.commit_touching ["main.py"]])) = [].
Proof.
  destruct (periods_split_the_commits [Samples.commit_touching ["main.py"]])
    as (_ & _ & _ & _ & _ & _ & H).
  apply H. cbn. lia.
Defined.

(** ** The range of the skill values *)

(** the mantissa of a float has at most 53 bits *)
Lemma round_half_even_bound (n d k : Z) :
  0 < d -> 0 <= n <= k * d -> 0 <= Float.round_half_even n d <= k.
Proof.
  intros Hd Hn. unfold Float.round_half_even.
  pose proof (Z.div_mod n d ltac:(lia)) as Hdiv.
  pose proof (Z.mod_pos_bound n d Hd) as Hmod.
  assert (0 <= n / d) as Hq by (apply Z.div_pos; lia).
  assert (n / d <= k) as Hk by (apply Z.div_le_upper_bound; lia).
  assert (n / d = k -> n mod d = 0) as Hfull by (intros Heq; nia).
  destruct (Z.compare_spec (2 * (n mod d)) d) as [Heq|Hlt|Hgt].
  - destruct (Z.even (n / d)); [lia|].
    destruct (Z.eq_dec (n / d) k) as [E|E]; [specialize (Hfull E); lia | lia].
  - lia.
  - destruct (Z.eq_dec (n / d) k) as [E|E]; [specialize (Hfull E); lia | lia].
Qed.

(** the floats of the tenths from 0.0 to 10.0 *)
Lemma tenths_range (n : Z) :
  0 <= n <= 100 ->
  PrimFloat.leb 0 (Float.tenths false n) = true
  /\ PrimFloat.leb (Float.tenths false n) 10 = true.
Proof.
  intros Hn.
  assert (forallb (fun k => PrimFloat.leb 0 (Float.tenths false k)
                            && PrimFloat.leb (Float.tenths false k) 10)
                  (map Z.of_nat (seq 0 101)) = true) as H
      by (vm_compute; reflexivity).
  rewrite forallb_forall in H.
  apply andb_true_iff, H, in_map_iff. exists (Z.to_nat n).
  split; [lia | apply in_seq; lia].
Qed.

(** [round(x, 1)] of a float from 0 below 10 *)
Lemma round1_range (x : float) :
  Float.nonneg_sf (Prim2SF x) = true -> PrimFloat.ltb x 10 = true ->
  PrimFloat.leb 0 (Float.py_round1 x) = true
  /\ PrimFloat.leb (Float.py_round1 x) 10 = true.
Proof.
  intros Hx Hlt.
  assert (PrimFloat.leb 0 x = true /\ PrimFloat.leb x 10 = true) as Hself.
  { split; [|apply ltb_leb, Hlt].
    rewrite FloatAxioms.leb_spec. apply SFleb_zero_nonneg, Hx. }
  unfold Float.py_round1.
  destruct (Prim2SF x) as [s|s| |s m e] eqn:Hp; try exact Hself.
  destruct (Z.leb_spec 0 e) as [|He]; [exact Hself|].
  destruct s; [discriminate Hx|].
  apply tenths_range, round_half_even_bound; [apply Z.pow_pos_nonneg; lia|].
  split; [lia|].
  pose proof (finite_mantissa_bound x _ _ _ Hp) as Hm.
  rewrite FloatAxioms.ltb_spec, Hp in Hlt.
  change (Prim2SF 10) with (S754_finite false 5629499534213120 (-49)) in Hlt.
  unfold SFltb in Hlt. cbn [SFcompare] in Hlt.
  destruct (Z.compare_spec e (-49)) as [Heq|Hlow|Hhigh]; try discriminate Hlt.
  - subst e.
    assert (2 ^ (- -49) = 562949953421312) as -> by (vm_compute; reflexivity).
    rewrite Pos.compare_cont_spec in Hlt. cbn [Pos.switch_Eq] in Hlt.
    destruct (Pos.compare_spec m 5629499534213120) as [E|E|E];
      try discriminate Hlt.
    assert (Z.pos m < 5629499534213120) as E' by exact E.
    clear -E'. lia.
  - assert (2 ^ 50 <= 2 ^ (- e)) as Hpow by (apply Z.pow_le_mono_r; lia).
    clear -Hpow Hm.
    change (2 ^ 53) with 9007199254740992 in Hm.
    change (2 ^ 50) with 1125899906842624 in Hpow.
    lia.
Qed.

(** [round(min(10, (count / max_count) * 10), 1)] lies between 0 and 10 *)
Lemma proficiency_range (count max_count : Z) (v : float) :
  1 <= count < 2 ^ 53 -> 1 <= max_count < 2 ^ 53 ->
  proficiency count max_count = Ok v ->
  PrimFloat.leb 0 v = true /\ PrimFloat.leb v 10 = true.
Proof.
  intros Hc Hm. unfold proficiency, true_div.
  destruct (Z.eqb_spec max_count 0) as [|_]; [lia|]. intros [= <-].
  unfold Float.py_min.
  destruct (PrimFloat.ltb (Float.of_int count / Float.of_int max_count * 10) 10)
    eqn:Hlt; [|split; vm_compute; reflexivity].
  apply round1_range; [|exact Hlt].
  destruct (of_int_finite max_count ltac:(lia)) as (m & e & Hden).
  assert (exists m10 e10, Prim2SF 10%float = S754_finite false m10 e10)
    as (m10 & e10 & H10) by (vm_compute; eauto).
  rewrite FloatAxioms.mul_spec, H10, FloatAxioms.div_spec, Hden.
  apply SFmul_nonneg, SFdiv_nonneg, of_int_nonneg. lia.
Qed.

(** X18: every technical skill of an assessment read from a reply is rated
    between 0 and 10, for the tally of any commits with fewer than 2^53
    changed file paths among the first 100. *)
Theorem parsed_skills_in_range (text : string) (commits : list CommitData)
        (a : SkillAssessment) :
  _parse_ai_response text (language_usage_of commits) = Ok a ->
  Counter.total (language_usage_of commits) < 2 ^ 53 ->
  forall lang v,
    In (lang, v) (technical_skills a) ->
    PrimFloat.leb 0 v = true /\ PrimFloat.leb v 10 = true.
Proof.
  intros Ha Htotal lang v Hin.
  pose proof (language_usage_positive commits) as Hpos.
  apply parse_fields in Ha. destruct Ha as (Hloop & _).
  apply skills_loop_table in Hloop. destruct Hloop as (H1 & _).
  destruct (H1 _ _ Hin) as [[]|(count & Hcount & _ & Hp)].
  apply most_common_In in Hcount.
  pose proof (counter_le_total _ _ _ Hpos Hcount) as Hc.
  assert (1 <= max_count (language_usage_of commits)
          <= Counter.total (language_usage_of commits)) as Hm.
  { split; [apply max_count_positive, Hpos|].
    unfold max_count.
    destruct (Counter.most_common 1 (language_usage_of commits)) as [|[k n] r] eqn:E;
      [lia|].
    assert (In (k, n) (language_usage_of commits)) as Hk
        by (apply (most_common_In 1); rewrite E; now left).
    apply (counter_le_total _ _ _ Hpos Hk). }
  apply (proficiency_range count (max_count (language_usage_of commits))); [lia | lia | exact Hp].
Qed.

Lemma parsed_skills_in_range_witness :
  exists a,
    _parse_ai_response "" (language_usage_of Samples.commits_docs_first) = Ok a
    /\ forall lang v,
        In (lang, v) (technical_skills a) ->
        PrimFloat.leb 0 v = true /\ PrimFloat.leb v 10 = true.
Proof.
  destruct (_parse_ai_response ""
              (language_usage_of Samples.commits_docs_first)) as [a|e] eqn:E;
    [|vm_compute in E; discriminate E].
  exists a. split; [reflexivity|].
  apply (parsed_skills_in_range "" Samples.commits_docs_first a E).
  vm_compute. reflexivity.
Defined.
